(** * HRIntelligenceBrain: the skill-weight scorer of [hr_intelligence_brain.py]

    A shallow embedding of the weight table of [HRIntelligenceBrain] and of
    the operations that read and write it: [_load_weights], [_save_weights],
    [__init__], [predict_success], [_calculate_reward], [policy_update] and
    [reward_log].

    Modelling conventions.
    - Python floats are idealised as exact rationals ([Q]); [math.exp] is a
      parameter of the development (it may raise [OverflowError]).
    - Python strings are modelled as [string], a character being a code
      point below 256; [lower], [strip] and [split] follow [str.lower],
      [str.strip] and [str.split] on those code points.
    - The weight dictionary is an insertion-ordered association list, as a
      Python [dict] is.
    - Exceptions are explicit: fallible code returns [result]. *)

From Stdlib Require Import List String Ascii Bool Arith ZArith QArith Qround Qpower Qabs.
From Stdlib Require Import Permutation Sorted Lia Lqa.
Import ListNotations.

Set Warnings "-register-all".

Local Open Scope string_scope.
Local Open Scope list_scope.
Local Open Scope Q_scope.

(** ** Exceptions *)

Inductive exn : Type :=
| AttributeError
| TypeError
| ZeroDivisionError
| OverflowError
| OSError.

Inductive result (A : Type) : Type :=
| Ok (a : A)
| Raise (e : exn).

Arguments Ok {A} a.
Arguments Raise {A} e.

Definition bind {A B : Type} (m : result A) (k : A -> result B) : result B :=
  match m with
  | Ok a => k a
  | Raise e => Raise e
  end.

Notation "x <- m ;; k" := (bind m (fun x => k))
  (at level 61, m at next level, right associativity).

Fixpoint mapM {A B : Type} (f : A -> result B) (l : list A) : result (list B) :=
  match l with
  | [] => Ok []
  | a :: l' => b <- f a ;; bs <- mapM f l' ;; Ok (b :: bs)
  end.

(** ** Strings *)

Module Str.

(** [str.lower] on one character: A-Z, and the capital letters of the upper
    half (192-222, the multiplication sign 215 apart), move up by 32. *)
Definition lower_ascii (c : ascii) : ascii :=
  let n := nat_of_ascii c in
  if orb (andb (65 <=? n)%nat (n <=? 90)%nat)
         (andb (andb (192 <=? n)%nat (n <=? 222)%nat) (negb (n =? 215)%nat))
  then ascii_of_nat (n + 32) else c.

Fixpoint lower (s : string) : string :=
  match s with
  | EmptyString => EmptyString
  | String c s' => String (lower_ascii c) (lower s')
  end.

(** [str.isspace] on one character: TAB, LF, VT, FF, CR, FS, GS, RS, US,
    the space, NEL (133) and the no-break space (160). *)
Definition is_space (c : ascii) : bool :=
  let n := nat_of_ascii c in
  orb (andb (9 <=? n)%nat (n <=? 13)%nat)
      (orb (andb (28 <=? n)%nat (n <=? 32)%nat)
           (orb (n =? 133)%nat (n =? 160)%nat)).

Fixpoint lstrip (s : string) : string :=
  match s with
  | EmptyString => EmptyString
  | String c s' => if is_space c then lstrip s' else s
  end.

Fixpoint rstrip (s : string) : string :=
  match s with
  | EmptyString => EmptyString
  | String c s' =>
      match rstrip s' with
      | EmptyString => if is_space c then EmptyString else String c EmptyString
      | r => String c r
      end
  end.

Definition strip (s : string) : string := rstrip (lstrip s).

Fixpoint prefix (p s : string) : bool :=
  match p, s with
  | EmptyString, _ => true
  | String a p', String b s' => andb (Ascii.eqb a b) (prefix p' s')
  | String _ _, EmptyString => false
  end.

(** Python's [k in s] on strings. *)
Fixpoint contains (k s : string) : bool :=
  orb (prefix k s)
      match s with
      | EmptyString => false
      | String _ s' => contains k s'
      end.

(** [str.split()] with no argument: the maximal runs of non-space
    characters.  [cur] is the run being read, in reverse. *)
Fixpoint rev_string (acc s : string) : string :=
  match s with
  | EmptyString => acc
  | String c s' => rev_string (String c acc) s'
  end.

Definition flush (cur : string) (out : list string) : list string :=
  match cur with
  | EmptyString => out
  | _ => rev_string EmptyString cur :: out
  end.

Fixpoint split_go (cur : string) (s : string) : list string :=
  match s with
  | EmptyString => flush cur []
  | String c s' =>
      if is_space c then flush cur (split_go EmptyString s')
      else split_go (String c cur) s'
  end.

Definition split (s : string) : list string := split_go EmptyString s.

Definition mem (x : string) (l : list string) : bool :=
  existsb (String.eqb x) l.

Definition len (s : string) : Z := Z.of_nat (String.length s).

End Str.

(** ** Numbers *)

(** Python's two-argument [max(a, b)] and [min(a, b)]: the first argument is
    kept unless the second is strictly better. *)
Definition pymax (a b : Q) : Q :=
  match Qcompare a b with
  | Lt => b
  | _ => a
  end.

Definition pymin (a b : Q) : Q :=
  match Qcompare b a with
  | Lt => b
  | _ => a
  end.

(** [round(x, 3)]: round half to even on the thousandths. *)
Definition round_half_even (x : Q) : Z :=
  let f := Qfloor x in
  match Qcompare (x - inject_Z f) (1 # 2) with
  | Lt => f
  | Gt => (f + 1)%Z
  | Eq => if Z.even f then f else (f + 1)%Z
  end.

Definition round3 (x : Q) : Q := inject_Z (round_half_even (x * 1000)) / 1000.

Definition Qgtb (a b : Q) : bool :=
  match Qcompare a b with
  | Gt => true
  | _ => false
  end.

(** ** The weight table *)

Definition table : Type := list (string * Q).

Module Dict.

Fixpoint get (k : string) (t : table) : option Q :=
  match t with
  | [] => None
  | (k', w) :: t' => if String.eqb k k' then Some w else get k t'
  end.

(** [d[k] = w]: overwrite in place, or append a new key at the end. *)
Fixpoint set (k : string) (w : Q) (t : table) : table :=
  match t with
  | [] => [(k, w)]
  | (k', w') :: t' =>
      if String.eqb k k' then (k', w) :: t' else (k', w') :: set k w t'
  end.

Definition keys (t : table) : list string := map fst t.
Definition values (t : table) : list Q := map snd t.

Definition sum (l : list Q) : Q := fold_left Qplus l 0.

End Dict.

(** ** Constants of [__init__] *)

Definition learning_rate : Q := 0.15.
Definition min_weight : Q := 0.1.
Definition max_weight : Q := 5.0.

(** The table seeded by [__init__] when the loaded one is empty. *)
Definition default_weights : table :=
  [ ("python", 1.2); ("java", 1.1); ("javascript", 1.0); ("react", 1.0);
    ("ai", 1.3); ("machine learning", 1.3); ("ml", 1.3); ("data science", 1.2);
    ("fastapi", 1.1); ("django", 1.0); ("flask", 1.0); ("nodejs", 1.0);
    ("communication", 0.9); ("teamwork", 0.8); ("leadership", 0.9);
    ("sql", 1.0); ("database", 1.0); ("mongodb", 0.9); ("postgresql", 1.0) ].

(** The table returned by [_load_weights] when the file cannot be used. *)
Definition fallback_weights : table :=
  [ ("python", 1.0); ("ai", 1.0); ("fastapi", 1.0); ("communication", 1.0) ].

(** ** [_calculate_reward] *)

Definition outcome_reward (outcome_lower : string) : Q :=
  if Str.mem outcome_lower ["hired"; "offer_accepted"; "accept"] then 1.5
  else if Str.mem outcome_lower ["shortlisted"; "interview"; "second_round"] then 0.8
  else if Str.mem outcome_lower ["rejected"; "declined"; "reject"] then - 0.8
  else if Str.mem outcome_lower ["reconsider"; "maybe"; "pending"] then 0.2
  else 0.0.

Definition _calculate_reward (feedback_score : Q) (outcome : string) : Q :=
  let score_reward := (feedback_score - 3) / 2.0 in
  let outcome_lower := Str.lower outcome in
  let total_reward := score_reward * 0.6 + outcome_reward outcome_lower * 0.4 in
  pymax (- 2.0) (pymin 2.0 total_reward).

(** ** Python values reaching the scorer

    [candidate_data] is whatever the caller passes; its ["skills"] entry may
    be missing or may hold something else than a list of strings. *)

Inductive pyval : Type :=
| PyNone
| PyNum (q : Q)
| PyStr (s : string)
| PyList (l : list pyval)
| PyDict (d : list (string * pyval)).

(** [bool(v)], as used by [if not skills]. *)
Definition truthy (v : pyval) : bool :=
  match v with
  | PyNone => false
  | PyNum q => negb (Qeq_bool q 0)
  | PyStr s => negb (String.eqb s "")
  | PyList l => match l with [] => false | _ => true end
  | PyDict d => match d with [] => false | _ => true end
  end.

Fixpoint chars (s : string) : list pyval :=
  match s with
  | EmptyString => []
  | String c s' => PyStr (String c EmptyString) :: chars s'
  end.

(** The sequence a [for] loop or a comprehension walks over. *)
Definition py_iter (v : pyval) : result (list pyval) :=
  match v with
  | PyList l => Ok l
  | PyStr s => Ok (chars s)
  | PyDict d => Ok (map (fun kv => PyStr (fst kv)) d)
  | PyNone | PyNum _ => Raise TypeError
  end.

Fixpoint assoc {A : Type} (k : string) (d : list (string * A)) : option A :=
  match d with
  | [] => None
  | (k', v) :: d' => if String.eqb k k' then Some v else assoc k d'
  end.

(** [candidate_data.get(key, default)]. *)
Definition py_get (key : string) (default : pyval) (c : pyval) : result pyval :=
  match c with
  | PyDict d => Ok (match assoc key d with Some v => v | None => default end)
  | _ => Raise AttributeError
  end.

(** [s.lower()] on an arbitrary value: only strings have the method. *)
Definition py_lower (v : pyval) : result string :=
  match v with
  | PyStr s => Ok (Str.lower s)
  | _ => Raise AttributeError
  end.

(** [pydiv a b] is [a / b]. *)
Definition pydiv (a b : Q) : result Q :=
  if Qeq_bool b 0 then Raise ZeroDivisionError else Ok (a / b).

(** ** [predict_success] *)

Section Predict.

(** [math.exp]; it raises [OverflowError] on large arguments. *)
Variable exp : Q -> result Q.

(** [len(set(skill.split()) & set(candidate_skill.split())) > 0] *)
Definition overlap (skill candidate_skill : string) : bool :=
  existsb (fun w => Str.mem w (Str.split candidate_skill)) (Str.split skill).

(** The inner [for candidate_skill in normalized_skills] loop with its two
    [break]s; 0.0 when the loop runs to its end. *)
Fixpoint fuzzy_score (skill : string) (weight : Q) (normalized_skills : list string) : Q :=
  match normalized_skills with
  | [] => 0.0
  | candidate_skill :: rest =>
      if orb (Str.contains skill candidate_skill) (Str.contains candidate_skill skill)
      then weight * 0.8
      else if overlap skill candidate_skill
      then weight * 0.6
      else fuzzy_score skill weight rest
  end.

Definition skill_score (skill : string) (weight : Q) (normalized_skills : list string) : Q :=
  if Str.mem skill normalized_skills then weight
  else fuzzy_score skill weight normalized_skills.

Definition total_score (weights : table) (normalized_skills : list string) : Q :=
  fold_left (fun total kw => total + skill_score (fst kw) (snd kw) normalized_skills)
            weights 0.0.

Definition normalized_score (weights : table) (normalized_skills : list string) : result Q :=
  match weights with
  | [] => Ok 0.0
  | _ =>
      avg_weight <- pydiv (Dict.sum (Dict.values weights))
                          (inject_Z (Z.of_nat (List.length weights))) ;;
      let max_possible := inject_Z (Z.of_nat (List.length normalized_skills)) * avg_weight in
      pydiv (total_score weights normalized_skills) (pymax max_possible 1.0)
  end.

(** The body of the [try] block. *)
Definition predict_body (weights : table) (candidate_data : pyval) : result Q :=
  skills <- py_get "skills" (PyList []) candidate_data ;;
  if negb (truthy skills) then Ok 0.2
  else
    elems <- py_iter skills ;;
    normalized_skills <- mapM (fun s => l <- py_lower s ;; Ok (Str.strip l)) elems ;;
    ns <- normalized_score weights normalized_skills ;;
    e <- exp (- 5 * (ns - 0.5)) ;;
    probability <- pydiv 1 (1 + e) ;;
    let probability := pymax 0.05 (pymin 0.95 probability) in
    Ok (round3 probability).

(** [except Exception: return 0.2] *)
Definition predict_success (weights : table) (candidate_data : pyval) : Q :=
  match predict_body weights candidate_data with
  | Ok p => p
  | Raise _ => 0.2
  end.

End Predict.

(** The three-tier policy as the specification words it: each tier is tried
    against all candidate skills before the next one is. *)
Definition tiered_score_spec (skill : string) (weight : Q) (normalized_skills : list string) : Q :=
  if Str.mem skill normalized_skills then weight
  else if existsb (fun c => orb (Str.contains skill c) (Str.contains c skill)) normalized_skills
  then weight * 0.8
  else if existsb (overlap skill) normalized_skills
  then weight * 0.6
  else 0.0.

(** A rational stand-in for [math.exp], used to run examples: the Taylor
    polynomial of degree [n - 1]. *)
Fixpoint exp_terms (n : nat) (x term : Q) (k : Z) : Q :=
  match n with
  | O => 0
  | S n' => term + exp_terms n' x (Qred (term * x / inject_Z k)) (k + 1)
  end.

Definition exp_series (x : Q) : result Q := Ok (Qred (exp_terms 24 x 1 1)).

(** ** Persistence *)

(** What [data/rl_weights.json] holds.  [json.dump] followed by [json.load] is
    taken to give back the mapping it was given, so a readable file is
    modelled by the mapping it encodes; [Unreadable] is a file that exists
    and cannot be opened or parsed.  A file that parses to something else
    than a mapping from strings to numbers is outside the model. *)
Inductive file_state : Type :=
| Absent
| Unreadable
| Stored (t : table).

(** How [open(self.weights_file, 'w')] followed by [json.dump] ends.  Mode
    ['w'] truncates the file as soon as it is opened, before the dump starts:
    a write that fails once the file is open leaves an empty or partial text,
    which [json.load] rejects; a write that fails because [open] itself
    raises leaves the file as it was. *)
Inductive write_outcome : Type :=
| Written      (* the file is opened and the whole text is written *)
| OpenFails    (* [open] raises *)
| DumpFails.   (* the file is opened, and the text does not reach it in full *)

Record env : Type := mkEnv {
  weights_file : file_state;
  can_mkdir : bool;   (* [os.makedirs("data", exist_ok=True)] succeeds *)
  on_write : write_outcome
}.

(** [open(weights_file, 'w')] and the dump succeed. *)
Definition can_write (e : env) : bool :=
  match on_write e with
  | Written => true
  | OpenFails | DumpFails => false
  end.

Inductive event : Type :=
| EvUpdate (skill : string) (old_weight new_weight : Q)
| EvDiscovery (clean_s : string) (weight : Q)
| EvPolicyUpdated (tracked : nat)
| EvSaveFailed.

Definition _load_weights (e : env) : table :=
  match weights_file e with
  | Stored t => t
  | Absent | Unreadable => fallback_weights
  end.

(** [_save_weights]: the [makedirs] call is outside the [try]; a failing
    write is caught and reported, and leaves the file untouched or
    unreadable according to where it failed. *)
Definition _save_weights (weights : table) (e : env) : env * result (list event) :=
  if can_mkdir e then
    match on_write e with
    | Written => (mkEnv (Stored weights) (can_mkdir e) (on_write e), Ok [])
    | OpenFails => (e, Ok [EvSaveFailed])
    | DumpFails => (mkEnv Unreadable (can_mkdir e) (on_write e), Ok [EvSaveFailed])
    end
  else (e, Raise OSError).

Definition is_empty (t : table) : bool :=
  match t with [] => true | _ => false end.

(** [__init__]: the table of the new instance and the file system it leaves. *)
Definition __init__ (e : env) : env * result table :=
  let weights := _load_weights e in
  if is_empty weights then
    match _save_weights default_weights e with
    | (e', Ok _) => (e', Ok default_weights)
    | (e', Raise x) => (e', Raise x)
    end
  else (e, Ok weights).

(** ** [policy_update] *)

(** [any(skill in s for s in normalized_skills)] *)
Definition matches (normalized_skills : list string) (skill : string) : bool :=
  existsb (Str.contains skill) normalized_skills.

(** [max(0.1, min(5.0, old_weight + weight_change))] *)
Definition reinforce (reward old_weight : Q) : Q :=
  let weight_change := learning_rate * reward in
  pymax 0.1 (pymin 5.0 (old_weight + weight_change)).

(** The state the three loops of [policy_update] work on: [self.weights],
    the [updated] flag and what has been printed so far. *)
Definition pstate : Type := (table * bool * list event)%type.

(** First loop: [for skill in self.weights], reinforcing the matched keys. *)
Fixpoint update_existing (normalized_skills : list string) (reward : Q) (weights : table)
  : pstate :=
  match weights with
  | [] => ([], false, [])
  | (skill, old_weight) :: rest =>
      let '(rest', updated, log) := update_existing normalized_skills reward rest in
      if matches normalized_skills skill then
        let w := reinforce reward old_weight in
        ((skill, w) :: rest', true, EvUpdate skill old_weight w :: log)
      else ((skill, old_weight) :: rest', updated, log)
  end.

(** The near-duplicate test of the discovery loop. *)
Definition collides (clean_s existing : string) : bool :=
  orb (Str.contains existing clean_s)
      (orb (Str.contains clean_s existing)
           (Z.abs (Str.len existing - Str.len clean_s) <? 3)%Z).

(** [max(0.5, min(3.0, 1.0 + learning_rate * reward * 2))] *)
Definition initial_weight (reward : Q) : Q :=
  pymax 0.5 (pymin 3.0 (1.0 + learning_rate * reward * 2)).

(** Second loop: [for s in normalized_skills], run when [reward > 0.3]. *)
Fixpoint discover (reward : Q) (normalized_skills : list string) (st : pstate) : pstate :=
  match normalized_skills with
  | [] => st
  | s :: rest =>
      let '(weights, updated, log) := st in
      let clean_s := Str.lower (Str.strip s) in
      let should_add := negb (existsb (collides clean_s) (Dict.keys weights)) in
      if andb should_add (andb (Str.len clean_s <? 25)%Z (2 <? Str.len clean_s)%Z)
      then discover reward rest
             (Dict.set clean_s (initial_weight reward) weights, true,
              log ++ [EvDiscovery clean_s (initial_weight reward)])
      else discover reward rest st
  end.

(** Third loop: [if skill not in [s.lower() for s in normalized_skills]]. *)
Definition decay (normalized_skills : list string) (weights : table) : table :=
  map (fun kw =>
         if Str.mem (fst kw) (map Str.lower normalized_skills) then kw
         else (fst kw, snd kw * 0.999))
      weights.

(** The loops of [policy_update], up to the call of [_save_weights]. *)
Definition policy_step (normalized_skills : list string) (reward : Q) (weights : table)
  : pstate :=
  let st := update_existing normalized_skills reward weights in
  let st := if Qgtb reward 0.3 then discover reward normalized_skills st else st in
  let '(weights, updated, log) := st in
  if updated then (decay normalized_skills weights, true, log)
  else (weights, false, log).

(** [normalized_skills = [s.lower() for s in skills]] *)
Definition lowered_skills (candidate_data : pyval) : result (list string) :=
  skills <- py_get "skills" (PyList []) candidate_data ;;
  elems <- py_iter skills ;;
  mapM py_lower elems.

(** [policy_update] on the object state: the table, the file system, and
    either the printed lines or the exception that leaves the method. *)
Definition policy_update (candidate_data : pyval) (reward : Q) (weights : table) (e : env)
  : table * env * result (list event) :=
  match lowered_skills candidate_data with
  | Raise x => (weights, e, Raise x)
  | Ok normalized_skills =>
      let '(weights', updated, log) := policy_step normalized_skills reward weights in
      if updated then
        match _save_weights weights' e with
        | (e', Ok saved) =>
            (weights', e', Ok (log ++ saved ++ [EvPolicyUpdated (List.length weights')]))
        | (e', Raise x) => (weights', e', Raise x)
        end
      else (weights', e, Ok log)
  end.

(** ** [reward_log] *)

Record learning : Type := mkLearning {
  calculated_reward : Q;
  prediction_before : Q;
  prediction_after : Q;
  printed : list event
}.

Section RewardLog.

Variable exp : Q -> result Q.

(** The log files written at the end are outside the model: that block is
    wrapped in its own [try] and touches neither the table nor the weight
    file. *)
Definition reward_log (candidate_data : pyval) (feedback_score : Q) (outcome : string)
           (weights : table) (e : env) : table * env * result learning :=
  let reward := _calculate_reward feedback_score outcome in
  let old_prediction := predict_success exp weights candidate_data in
  match policy_update candidate_data reward weights e with
  | (weights', e', Raise x) => (weights', e', Raise x)
  | (weights', e', Ok log) =>
      let new_prediction := predict_success exp weights' candidate_data in
      (weights', e', Ok (mkLearning reward old_prediction new_prediction log))
  end.

End RewardLog.

(** A candidate whose skills are the given strings. *)
Definition candidate (skills : list string) : pyval :=
  PyDict [("name", PyStr "Test"); ("skills", PyList (map PyStr skills))].

Definition healthy (f : file_state) : env := mkEnv f true Written.

Definition in_bounds (w : Q) : Prop := min_weight <= w /\ w <= max_weight.

(** ** Vocabulary of the statements *)

(** A whole number of thousandths: what [round(x, 3)] returns. *)
Definition thousandth (p : Q) : Prop := exists n : Z, p == inject_Z n / 1000.

(** The test of the substring tier, and the test of either fuzzy tier. *)
Definition partial_match (skill candidate_skill : string) : bool :=
  orb (Str.contains skill candidate_skill) (Str.contains candidate_skill skill).

Definition any_hit (skill candidate_skill : string) : bool :=
  orb (partial_match skill candidate_skill) (overlap skill candidate_skill).

(** The outcome vocabulary as the specification tabulates it. *)
Definition outcome_vocabulary : list (string * Q) :=
  [ ("hired", 1.5); ("offer_accepted", 1.5); ("accept", 1.5);
    ("shortlisted", 0.8); ("interview", 0.8); ("second_round", 0.8);
    ("rejected", - 0.8); ("declined", - 0.8); ("reject", - 0.8);
    ("reconsider", 0.2); ("maybe", 0.2); ("pending", 0.2) ].

(** The [RL Update] lines printed for one keyword: (old, new) pairs. *)
Fixpoint updates_of (skill : string) (log : list event) : list (Q * Q) :=
  match log with
  | [] => []
  | EvUpdate k old new :: log' =>
      if String.eqb k skill then (old, new) :: updates_of skill log'
      else updates_of skill log'
  | _ :: log' => updates_of skill log'
  end.


(** A string [str.lower] leaves alone. *)
Definition lowercase (s : string) : Prop := Str.lower s = s.

(** What the first loop does to the entry of one keyword. *)
Definition reinforce_entry (normalized_skills : list string) (reward : Q) (skill : string) (w : Q) : Q :=
  if matches normalized_skills skill then reinforce reward w else w.

(** What the third loop does to the entry of one keyword. *)
Definition decay_entry (normalized_skills : list string) (skill : string) (w : Q) : Q :=
  if Str.mem skill (map Str.lower normalized_skills) then w else w * 0.999.

(** ** A scorer in service

    The routers and the tests call [reward_log] over and over on one scorer;
    an exception that leaves a call is turned into an error answer by the
    caller and the scorer goes on with the state the call left. *)

Definition feedback : Type := (pyval * Q * string)%type.

Section Service.

Variable exp : Q -> result Q.

Fixpoint replay (events : list feedback) (weights : table) (e : env) : table * env :=
  match events with
  | [] => (weights, e)
  | (candidate_data, feedback_score, outcome) :: rest =>
      let '(weights', e', _) := reward_log exp candidate_data feedback_score outcome weights e in
      replay rest weights' e'
  end.

End Service.

(** Every weight a lookup can return is positive. *)
Definition positive (t : table) : Prop :=
  forall k w, Dict.get k t = Some w -> 0 < w.

(** Every weight a lookup can return is at most [max_weight]. *)
Definition capped (t : table) : Prop :=
  forall k w, Dict.get k t = Some w -> w <= max_weight.

(** The weight file holds the table that is in memory. *)
Definition in_sync (weights : table) (e : env) : Prop :=
  weights_file e = Stored weights.

(** ** The read-outs of the table

    [sorted(weights.items(), key=lambda x: x[1], reverse=True)]: a stable
    sort, heaviest first; entries of equal weight keep the order of the
    table. *)

Fixpoint insert_desc (x : string * Q) (l : table) : table :=
  match l with
  | [] => [x]
  | y :: l' => if Qle_bool (snd y) (snd x) then x :: l else y :: insert_desc x l'
  end.

Definition sorted_desc (t : table) : table := fold_right insert_desc [] t.

(** [weight_skill.lower() in skill.lower() or skill.lower() in
    weight_skill.lower()], the test the read-outs use. *)
Definition related (weight_skill skill : string) : bool :=
  orb (Str.contains (Str.lower weight_skill) (Str.lower skill))
      (Str.contains (Str.lower skill) (Str.lower weight_skill)).

(** Dictionaries that are built and returned: insertion-ordered, with
    [d[k] = v], [d.update(other)] and [k in d]. *)
Definition pydict : Type := list (string * pyval).

Fixpoint pd_set (k : string) (v : pyval) (d : pydict) : pydict :=
  match d with
  | [] => [(k, v)]
  | (k', v') :: d' =>
      if String.eqb k k' then (k', v) :: d' else (k', v') :: pd_set k v d'
  end.

Definition pd_update (d other : pydict) : pydict :=
  fold_left (fun acc kv => pd_set (fst kv) (snd kv) acc) other d.

Definition pd_has (k : string) (d : pydict) : bool :=
  match assoc k d with Some _ => true | None => false end.

(** [round(x, 2)] *)
Definition round2 (x : Q) : Q := inject_Z (round_half_even (x * 100)) / 100.

(** A line of [get_recommendations]: the template of the text and what
    fills it (the weight is printed with two decimals). *)
Inductive recommendation : Type :=
| ApiLine (v : pyval)
| StrongMatch (skill : string) (weight : Q)
| GoodPotential (skill : string) (weight : Q)
| BrainLearned (skills : nat)
| ConsiderSkill (skill : string) (weight : Q).

(** The loop over [top_skills] of [get_recommendations]. *)
Fixpoint rl_recommendations (top_skills : table) : list recommendation :=
  match top_skills with
  | [] => []
  | (skill, weight) :: rest =>
      if Qgtb weight 1.2 then StrongMatch skill weight :: rl_recommendations rest
      else if Qgtb weight 1.0 then GoodPotential skill weight :: rl_recommendations rest
      else rl_recommendations rest
  end.

(** [get_recommendations].  [api_recommendations] stands for the request to
    the recommendation service and the decoding of its answer: the value
    bound to [api_recommendations], or the exception raised on the way. *)
Definition get_recommendations (api_recommendations : result pyval) (weights : table)
  : list recommendation :=
  let body :=
    api <- api_recommendations ;;
    let top_skills := firstn 5 (sorted_desc weights) in
    let rl := rl_recommendations top_skills in
    all <- match api with
           | PyList l => Ok (map ApiLine l ++ rl)
           | _ => Raise TypeError
           end ;;
    let all := if (10 <? List.length weights)%nat
               then all ++ [BrainLearned (List.length weights)] else all in
    Ok (firstn 10 all) in
  match body with
  | Ok lines => lines
  | Raise _ =>
      map (fun sw => ConsiderSkill (fst sw) (snd sw)) (firstn 3 (sorted_desc weights))
  end.

(** The loop of [analyze_candidate] over one skill: every keyword related to
    it contributes its weight.  [skill.lower()] is reached only when the
    table has a first entry. *)
Definition matched_by (weights : table) (skill : pyval) : result (list Q) :=
  match weights with
  | [] => Ok []
  | _ =>
      match skill with
      | PyStr s => Ok (map snd (filter (fun kw => related (fst kw) s) weights))
      | _ => Raise AttributeError
      end
  end.

Fixpoint matched_weights (weights : table) (skills : list pyval) : result (list Q) :=
  match skills with
  | [] => Ok []
  | skill :: rest =>
      m <- matched_by weights skill ;;
      ms <- matched_weights weights rest ;;
      Ok (m ++ ms)
  end.

Definition count (n : nat) : Q := inject_Z (Z.of_nat n).

Section Brain.

Variable exp : Q -> result Q.

(** [datetime.now().isoformat()] and [str(e)]. *)
Variable now : string.
Variable describe : exn -> string.

(** The body of the [try] block of [analyze_candidate].  [api_result] is
    what the inner [try] binds: the JSON object answered by the analysis
    service, or the empty dictionary when the request fails. *)
Definition analyze_body (api_result : pydict) (weights : table) (candidate_data : pyval)
  : result pydict :=
  let rl_score := predict_success exp weights candidate_data in
  skills <- py_get "skills" (PyList []) candidate_data ;;
  elems <- py_iter skills ;;
  matched <- matched_weights weights elems ;;
  let confidence :=
    pymin 0.95 (count (List.length matched) / count (Nat.max (List.length elems) 1) * 0.8 + 0.2) in
  let result :=
    [ ("rl_success_probability", PyNum rl_score);
      ("rl_confidence", PyNum confidence);
      ("rl_matched_skills", PyNum (count (List.length matched)));
      ("rl_total_weights", PyNum (count (List.length weights)));
      ("rl_status", PyStr "ACTIVE");
      ("analysis_timestamp", PyStr now) ] in
  Ok (if andb (truthy (PyDict api_result)) (negb (pd_has "error" api_result))
      then pd_update result api_result else result).

Definition analyze_candidate (api_result : pydict) (weights : table) (candidate_data : pyval)
  : pydict :=
  match analyze_body api_result weights candidate_data with
  | Ok result => result
  | Raise x =>
      [ ("error", PyStr ("Analysis failed: " ++ describe x));
        ("rl_success_probability", PyNum (predict_success exp weights candidate_data));
        ("rl_status", PyStr "ACTIVE_FALLBACK") ]
  end.

End Brain.

Module Adapter.

(** What [get_platform_insights] returns: the fields read from the
    dashboard and the fields computed from the table, or the error answer. *)
Record insights : Type := mkInsights {
  total_candidates : pyval;
  average_match_score : pyval;
  top_skills : list string;
  skill_weights : table;
  total_skills_learned : nat;
  active_skills : nat
}.

(** [get_platform_insights]; [dashboard] is what [get_insights_dashboard]
    returned (the decoded answer of the service, or the empty dictionary)
    and [Raise] is the error answer of the [except] branch. *)
Definition get_platform_insights (dashboard : pyval) (weights : table) : result insights :=
  let top := firstn 10 (sorted_desc weights) in
  let total_weights := List.length weights in
  let active_weights := List.length (filter (fun w => Qgtb w 1.0) (Dict.values weights)) in
  total <- py_get "total_candidates" (PyNum 0) dashboard ;;
  avg <- py_get "avg_match_score" (PyNum 0) dashboard ;;
  Ok (mkInsights total avg (map fst (firstn 5 top)) (firstn 5 top) total_weights active_weights).

(** What [feedback_loop] returns, without the echo of its arguments and the
    time stamp. *)
Inductive feedback_answer : Type :=
| brain_updated_active (prediction_before prediction_after learning_delta : Q)
                       (weights_updated : nat)
| brain_update_failed (error : exn).

Section FeedbackLoop.

Variable exp : Q -> result Q.

Definition feedback_loop (candidate_data : pyval) (score : Q) (outcome : string)
           (weights : table) (e : env) : table * env * feedback_answer :=
  let old_prediction := predict_success exp weights candidate_data in
  match reward_log exp candidate_data score outcome weights e with
  | (weights', e', Raise x) => (weights', e', brain_update_failed x)
  | (weights', e', Ok _) =>
      let new_prediction := predict_success exp weights' candidate_data in
      let learning_delta := new_prediction - old_prediction in
      (weights', e',
       brain_updated_active old_prediction new_prediction learning_delta (List.length weights'))
  end.

End FeedbackLoop.

End Adapter.

Module Router.

Inductive decision : Type :=
| strong_recommend_hire
| recommend_hire
| consider_interview
| review_carefully
| likely_reject.

Inductive confidence_level : Type := high | medium | low.

(** The threshold chain of [make_decision]. *)
Definition decide (success_prob : Q) : decision * confidence_level :=
  if Qle_bool 0.85 success_prob then (strong_recommend_hire, high)
  else if Qle_bool 0.7 success_prob then (recommend_hire, high)
  else if Qle_bool 0.5 success_prob then (consider_interview, medium)
  else if Qle_bool 0.3 success_prob then (review_carefully, medium)
  else (likely_reject, low).

(** The inner loop of the confidence count, with its [break]. *)
Fixpoint first_related (weights : table) (skill : string) : option Q :=
  match weights with
  | [] => None
  | (weight_skill, weight) :: rest =>
      if related weight_skill skill then Some weight else first_related rest skill
  end.

Definition match_skill (weights : table) (skill : pyval) : result (option Q) :=
  match weights with
  | [] => Ok None
  | _ =>
      match skill with
      | PyStr s => Ok (first_related weights s)
      | _ => Raise AttributeError
      end
  end.

Fixpoint count_matches (weights : table) (skills : list pyval) (matched_skills : nat)
         (total_weight : Q) : result (nat * Q) :=
  match skills with
  | [] => Ok (matched_skills, total_weight)
  | skill :: rest =>
      m <- match_skill weights skill ;;
      match m with
      | Some weight => count_matches weights rest (S matched_skills) (total_weight + weight)
      | None => count_matches weights rest matched_skills total_weight
      end
  end.

Record factor : Type := mkFactor {
  factor_skill : string;
  factor_weight : Q;
  impact_positive : bool   (* "positive" if weight > 1.0 else "neutral" *)
}.

Definition factors_of (top : table) (skill : pyval) : result (list factor) :=
  match top with
  | [] => Ok []
  | _ =>
      match skill with
      | PyStr s =>
          Ok (map (fun kw => mkFactor (fst kw) (snd kw) (Qgtb (snd kw) 1.0))
                  (filter (fun kw => related (fst kw) s) top))
      | _ => Raise AttributeError
      end
  end.

Fixpoint contributing (top : table) (skills : list pyval) : result (list factor) :=
  match skills with
  | [] => Ok []
  | skill :: rest =>
      f <- factors_of top skill ;;
      fs <- contributing top rest ;;
      Ok (f ++ fs)
  end.

(** The answer of [make_decision], without its constant fields and its time
    stamp. *)
Record decision_answer : Type := mkAnswer {
  answer_decision : decision;
  success_probability : Q;
  confidence : Q;
  answer_level : confidence_level;
  recommendations : list recommendation;
  total_skills_evaluated : nat;
  matched_skills : nat;
  total_weight_score : Q;
  contributing_factors : list factor;
  brain_weights_count : nat
}.

Inductive impact : Type := significant | moderate | minimal.

Definition learning_impact (learning_delta : Q) : impact :=
  if Qgtb (Qabs learning_delta) 0.1 then significant
  else if Qgtb (Qabs learning_delta) 0.05 then moderate
  else minimal.

Record learning_metrics : Type := mkMetrics {
  prediction_before : Q;
  prediction_after : Q;
  learning_delta : Q;
  weights_before : nat;
  weights_after : nat;
  new_skills_learned : Z;
  metrics_impact : impact
}.

Section Endpoints.

Variable exp : Q -> result Q.

(** [make_decision]; [Raise] is the answer [HTTPException(500)]. *)
Definition make_decision (api_recommendations : result pyval) (weights : table)
           (candidate_data : pyval) : result decision_answer :=
  let success_prob := predict_success exp weights candidate_data in
  _ <- py_get "id" (PyNum 1) candidate_data ;;
  let recs := get_recommendations api_recommendations weights in
  let '(d, level) := decide success_prob in
  skills <- py_get "skills" (PyList []) candidate_data ;;
  elems <- py_iter skills ;;
  mt <- count_matches weights elems 0%nat 0 ;;
  let '(matched, total_weight) := mt in
  let conf := pymin 0.95 (count matched / count (Nat.max (List.length elems) 1) * 0.7 + 0.25) in
  factors <- contributing (firstn 5 (sorted_desc weights)) elems ;;
  Ok (mkAnswer d success_prob conf level recs (List.length elems) matched
               (round2 total_weight) (firstn 3 factors) (List.length weights)).

(** [process_feedback]; [Raise] is the answer [HTTPException(500)]. *)
Definition process_feedback (candidate_data : pyval) (feedback_score : Q) (outcome : string)
           (weights : table) (e : env) : table * env * result learning_metrics :=
  let old_prediction := predict_success exp weights candidate_data in
  let old_weights_count := List.length weights in
  match reward_log exp candidate_data feedback_score outcome weights e with
  | (weights', e', Raise x) => (weights', e', Raise x)
  | (weights', e', Ok _) =>
      let new_prediction := predict_success exp weights' candidate_data in
      let new_weights_count := List.length weights' in
      let delta := new_prediction - old_prediction in
      let weights_added := (Z.of_nat new_weights_count - Z.of_nat old_weights_count)%Z in
      (weights', e',
       Ok (mkMetrics old_prediction new_prediction delta old_weights_count new_weights_count
                     weights_added (learning_impact delta)))
  end.

End Endpoints.

(** [max(values)] and [min(values)] on a list that is not empty: the first
    of the largest, the first of the smallest. *)
Definition list_max (x : Q) (rest : list Q) : Q := fold_left pymax rest x.
Definition list_min (x : Q) (rest : list Q) : Q := fold_left pymin rest x.

Record weight_statistics : Type := mkStatistics {
  total_count : nat;
  average_weight : Q;
  stat_max_weight : Q;
  stat_min_weight : Q;
  active_skills_count : nat;
  passive_skills_count : nat
}.

Record rl_state : Type := mkState {
  state_weights : table;
  statistics : weight_statistics;
  state_top_skills : table;
  bottom_skills : table;
  active_weights : table
}.

(** [get_rl_state]: it reads the weight file again, not the table in
    memory. *)
Definition get_rl_state (e : env) : rl_state :=
  let current_weights := _load_weights e in
  match Dict.values current_weights with
  | [] =>
      mkState current_weights
              (mkStatistics (List.length current_weights) (round3 0) (round3 0) (round3 0) 0 0)
              [] [] []
  | v :: vs =>
      let avg_weight := Dict.sum (v :: vs) / count (List.length (v :: vs)) in
      let sorted_weights := sorted_desc current_weights in
      let active := filter (fun kw => Qgtb (snd kw) 1.0) current_weights in
      let passive := filter (fun kw => Qle_bool (snd kw) 1.0) current_weights in
      mkState current_weights
              (mkStatistics (List.length current_weights) (round3 avg_weight)
                            (round3 (list_max v vs)) (round3 (list_min v vs))
                            (List.length active) (List.length passive))
              (firstn 10 sorted_weights)
              (if (5 <? List.length sorted_weights)%nat
               then skipn (List.length sorted_weights - 5) sorted_weights else [])
              active
  end.

Record performance : Type := mkPerformance {
  total_decisions : nat;
  successful_predictions : nat;
  success_rate : Q;
  performance_score : Q;
  weights_count : nat
}.

(** [h.get('outcome') in ['hired', 'accept']] on one line of the log. *)
Definition successful (h : pyval) : result bool :=
  outcome <- py_get "outcome" PyNone h ;;
  Ok match outcome with
     | PyStr s => Str.mem s ["hired"; "accept"]
     | _ => false
     end.

(** [get_rl_performance]; [history] holds the lines of the log file that
    parse, and [Raise] is the answer [HTTPException(500)]. *)
Definition get_rl_performance (history : list pyval) (weights : table) : result performance :=
  let total := List.length history in
  flags <- mapM successful history ;;
  let hits := List.length (filter (fun b : bool => b) flags) in
  let rate := if (0 <? total)%nat then count hits / count total * 100 else 0 in
  Ok (mkPerformance total hits rate
                    (pymin 100 (rate + count (List.length weights) * 2))
                    (List.length weights)).

End Router.

(** The rank of a decision, from rejection to the strongest recommendation. *)
Definition decision_rank (d : Router.decision) : nat :=
  match d with
  | Router.likely_reject => 0
  | Router.review_carefully => 1
  | Router.consider_interview => 2
  | Router.recommend_hire => 3
  | Router.strong_recommend_hire => 4
  end.

(** Heaviest first. *)
Definition descending (t : table) : Prop :=
  StronglySorted (fun a b : string * Q => snd b <= snd a) t.

(** * Properties *)

(** ** Arithmetic of [max], [min] and [round] *)

Lemma pymax_cases (a b : Q) :
  (a < b /\ pymax a b = b) \/ (b <= a /\ pymax a b = a).
Proof.
  unfold pymax. destruct (Qcompare_spec a b) as [H | H | H].
  - right. split; [rewrite H; apply Qle_refl | reflexivity].
  - left. split; [exact H | reflexivity].
  - right. split; [apply Qlt_le_weak; exact H | reflexivity].
Qed.

Lemma pymin_cases (a b : Q) :
  (b < a /\ pymin a b = b) \/ (a <= b /\ pymin a b = a).
Proof.
  unfold pymin. destruct (Qcompare_spec b a) as [H | H | H].
  - right. split; [rewrite H; apply Qle_refl | reflexivity].
  - left. split; [exact H | reflexivity].
  - right. split; [apply Qlt_le_weak; exact H | reflexivity].
Qed.

(** [max(lo, min(hi, x))] lands in [[lo, hi]] whatever [x] is. *)
Lemma clamp_bounds (lo hi x : Q) :
  lo <= hi -> lo <= pymax lo (pymin hi x) /\ pymax lo (pymin hi x) <= hi.
Proof.
  intros Hlh.
  destruct (pymax_cases lo (pymin hi x)) as [[H1 ->] | [H1 ->]];
    destruct (pymin_cases hi x) as [[H2 E] | [H2 E]]; rewrite ?E in *; split; lra.
Qed.

(** Inside the interval the clamp is the identity. *)
Lemma clamp_id (lo hi x : Q) :
  lo <= x -> x <= hi -> pymax lo (pymin hi x) == x.
Proof.
  intros Hl Hh.
  destruct (pymax_cases lo (pymin hi x)) as [[H1 ->] | [H1 ->]];
    destruct (pymin_cases hi x) as [[H2 E] | [H2 E]]; rewrite ?E in *; lra.
Qed.

Lemma clamp_mono_up (lo hi x d : Q) :
  lo <= hi -> x <= hi -> 0 <= d -> x <= pymax lo (pymin hi (x + d)).
Proof.
  intros Hlh Hx Hd.
  destruct (pymax_cases lo (pymin hi (x + d))) as [[H1 ->] | [H1 ->]];
    destruct (pymin_cases hi (x + d)) as [[H2 E] | [H2 E]]; rewrite ?E in *; lra.
Qed.

Lemma clamp_mono_down (lo hi x d : Q) :
  lo <= hi -> lo <= x -> d <= 0 -> pymax lo (pymin hi (x + d)) <= x.
Proof.
  intros Hlh Hx Hd.
  destruct (pymax_cases lo (pymin hi (x + d))) as [[H1 ->] | [H1 ->]];
    destruct (pymin_cases hi (x + d)) as [[H2 E] | [H2 E]]; rewrite ?E in *; lra.
Qed.

#[local] Instance pymax_proper : Proper (Qeq ==> Qeq ==> Qeq) pymax.
Proof.
  intros a a' Ha b b' Hb. unfold pymax. rewrite Ha, Hb.
  destruct (a' ?= b'); assumption.
Qed.

#[local] Instance pymin_proper : Proper (Qeq ==> Qeq ==> Qeq) pymin.
Proof.
  intros a a' Ha b b' Hb. unfold pymin. rewrite Ha, Hb.
  destruct (b' ?= a'); assumption.
Qed.

Lemma round_half_even_cases (y : Q) :
  (round_half_even y = Qfloor y) \/
  (round_half_even y = (Qfloor y + 1)%Z /\ inject_Z (Qfloor y) + (1 # 2) <= y).
Proof.
  unfold round_half_even.
  destruct (Qcompare_spec (y - inject_Z (Qfloor y)) (1 # 2)) as [H | H | H].
  - destruct (Z.even (Qfloor y)); [left; reflexivity | right; split; [reflexivity | lra]].
  - left; reflexivity.
  - right; split; [reflexivity | lra].
Qed.

(** Rounding to an integer keeps a value between two integers. *)
Lemma round_half_even_between (a b : Z) (y : Q) :
  inject_Z a <= y -> y <= inject_Z b ->
  (a <= round_half_even y <= b)%Z.
Proof.
  intros Ha Hb.
  assert (Hfa : (a <= Qfloor y)%Z).
  { rewrite <- (Qfloor_Z a). apply Qfloor_resp_le. exact Ha. }
  assert (Hfb : (Qfloor y <= b)%Z).
  { rewrite <- (Qfloor_Z b). apply Qfloor_resp_le. exact Hb. }
  destruct (round_half_even_cases y) as [-> | [-> Hhalf]].
  - lia.
  - split; [lia |].
    assert (Hlt : inject_Z (Qfloor y) < inject_Z b) by lra.
    rewrite <- Zlt_Qlt in Hlt. lia.
Qed.

Lemma round3_bounds (p : Q) :
  0.05 <= p -> p <= 0.95 -> 0.05 <= round3 p /\ round3 p <= 0.95.
Proof.
  intros Hl Hh. unfold round3.
  destruct (round_half_even_between 50 950 (p * 1000)) as [H1 H2].
  - change (inject_Z 50) with 50. lra.
  - change (inject_Z 950) with 950. lra.
  - rewrite Zle_Qle in H1, H2.
    change (inject_Z 50) with 50 in H1. change (inject_Z 950) with 950 in H2.
    set (n := inject_Z (round_half_even (p * 1000))) in *.
    split.
    + apply Qle_shift_div_l; [reflexivity | lra].
    + apply Qle_shift_div_r; [reflexivity | lra].
Qed.

(** ** Strings *)

Lemma lower_ascii_idem (c : ascii) : Str.lower_ascii (Str.lower_ascii c) = Str.lower_ascii c.
Proof. destruct c as [[] [] [] [] [] [] [] []]; reflexivity. Qed.

Lemma lower_idem (s : string) : Str.lower (Str.lower s) = Str.lower s.
Proof.
  induction s as [| c s IH]; simpl; [reflexivity |].
  rewrite lower_ascii_idem, IH. reflexivity.
Qed.

Lemma is_space_lower (c : ascii) : Str.is_space (Str.lower_ascii c) = Str.is_space c.
Proof. destruct c as [[] [] [] [] [] [] [] []]; reflexivity. Qed.

Lemma lower_lstrip (s : string) : Str.lower (Str.lstrip s) = Str.lstrip (Str.lower s).
Proof.
  induction s as [| c s IH]; simpl; [reflexivity |].
  rewrite is_space_lower. destruct (Str.is_space c); [exact IH | reflexivity].
Qed.

Lemma lower_rstrip (s : string) : Str.lower (Str.rstrip s) = Str.rstrip (Str.lower s).
Proof.
  induction s as [| c s IH]; simpl; [reflexivity |].
  rewrite <- IH, is_space_lower.
  destruct (Str.rstrip s); simpl; [destruct (Str.is_space c) |]; reflexivity.
Qed.

Lemma lower_strip (s : string) : Str.lower (Str.strip s) = Str.strip (Str.lower s).
Proof. unfold Str.strip. rewrite lower_rstrip, lower_lstrip. reflexivity. Qed.

Lemma prefix_refl (s : string) : Str.prefix s s = true.
Proof.
  induction s as [| c s IH]; simpl; [reflexivity |].
  rewrite Ascii.eqb_refl. exact IH.
Qed.

Lemma prefix_contains (p s : string) : Str.prefix p s = true -> Str.contains p s = true.
Proof. intros H. destruct s; simpl in *; rewrite H; reflexivity. Qed.

Lemma contains_refl (s : string) : Str.contains s s = true.
Proof. apply prefix_contains, prefix_refl. Qed.

Lemma contains_tail (p : string) (c : ascii) (s : string) :
  Str.contains p s = true -> Str.contains p (String c s) = true.
Proof. intros H. simpl. rewrite H. apply orb_true_r. Qed.

Lemma contains_lstrip (p s : string) :
  Str.contains p (Str.lstrip s) = true -> Str.contains p s = true.
Proof.
  induction s as [| c s IH]; [trivial |].
  cbn [Str.lstrip]. destruct (Str.is_space c); [| trivial].
  intros H. apply contains_tail, IH, H.
Qed.

Lemma prefix_rstrip (s : string) : Str.prefix (Str.rstrip s) s = true.
Proof.
  induction s as [| c s IH]; simpl; [reflexivity |].
  destruct (Str.rstrip s) eqn:E.
  - destruct (Str.is_space c); simpl; [reflexivity |].
    rewrite Ascii.eqb_refl. reflexivity.
  - simpl. rewrite Ascii.eqb_refl. exact IH.
Qed.

(** The trimmed string occurs in the string it was trimmed from. *)
Lemma contains_strip (s : string) : Str.contains (Str.strip s) s = true.
Proof. apply contains_lstrip, prefix_contains. unfold Str.strip. apply prefix_rstrip. Qed.

Lemma mem_In (x : string) (l : list string) : Str.mem x l = true <-> In x l.
Proof.
  unfold Str.mem. rewrite existsb_exists. split.
  - intros [y [Hy E]]. apply String.eqb_eq in E. subst. exact Hy.
  - intros H. exists x. split; [exact H | apply String.eqb_refl].
Qed.

(** A keyword equal to one of the skills matches it. *)
Lemma mem_matches (skill : string) (normalized_skills : list string) :
  Str.mem skill normalized_skills = true -> matches normalized_skills skill = true.
Proof.
  rewrite mem_In. intros H. unfold matches. apply existsb_exists.
  exists skill. split; [exact H | apply contains_refl].
Qed.

Lemma mapM_lower_lowercase (elems : list pyval) (l : list string) :
  mapM py_lower elems = Ok l -> Forall lowercase l.
Proof.
  revert l. induction elems as [| v elems IH]; intros l H; simpl in H.
  - injection H as <-. constructor.
  - destruct v; simpl in H; try discriminate.
    destruct (mapM py_lower elems) as [bs |]; simpl in H; [| discriminate].
    injection H as <-. constructor; [apply lower_idem | apply IH; reflexivity].
Qed.

(** [normalized_skills] holds lowercase strings only. *)
Lemma lowered_skills_lowercase (candidate_data : pyval) (l : list string) :
  lowered_skills candidate_data = Ok l -> Forall lowercase l.
Proof.
  unfold lowered_skills. intros H.
  destruct (py_get "skills" (PyList []) candidate_data) as [skills |]; simpl in H;
    [| discriminate].
  destruct (py_iter skills) as [elems |]; simpl in H; [| discriminate].
  eapply mapM_lower_lowercase, H.
Qed.

Lemma map_lower_lowercase (l : list string) : Forall lowercase l -> map Str.lower l = l.
Proof.
  induction 1 as [| s l Hs _ IH]; simpl; [reflexivity |].
  rewrite Hs, IH. reflexivity.
Qed.

Lemma lowered_skills_candidate (skills : list string) :
  lowered_skills (candidate skills) = Ok (map Str.lower skills).
Proof.
  unfold lowered_skills, candidate. simpl.
  induction skills as [| s skills IH]; simpl; [reflexivity |].
  rewrite IH. reflexivity.
Qed.

(** ** Dictionaries *)

Lemma get_In_keys (k : string) (t : table) (w : Q) :
  Dict.get k t = Some w -> In k (Dict.keys t).
Proof.
  induction t as [| [k' w'] t IH]; simpl; [discriminate |].
  destruct (String.eqb k k') eqn:E.
  - apply String.eqb_eq in E. auto.
  - auto.
Qed.

Lemma get_None_keys (k : string) (t : table) :
  Dict.get k t = None <-> ~ In k (Dict.keys t).
Proof.
  induction t as [| [k' w'] t IH]; simpl; [tauto |].
  destruct (String.eqb k k') eqn:E.
  - apply String.eqb_eq in E. split; [discriminate | intros H; exfalso; auto].
  - apply String.eqb_neq in E. rewrite IH. split; [intros H [H1 | H1]; auto | tauto].
Qed.

(** A loop that rewrites every value in place, key by key. *)
Lemma get_map_values (f : string -> Q -> Q) (k : string) (t : table) :
  Dict.get k (map (fun kw => (fst kw, f (fst kw) (snd kw))) t)
  = option_map (f k) (Dict.get k t).
Proof.
  induction t as [| [k' w'] t IH]; simpl; [reflexivity |].
  destruct (String.eqb k k') eqn:E; [| exact IH].
  apply String.eqb_eq in E. subst. reflexivity.
Qed.

Lemma keys_map_values (f : string -> Q -> Q) (t : table) :
  Dict.keys (map (fun kw => (fst kw, f (fst kw) (snd kw))) t) = Dict.keys t.
Proof. unfold Dict.keys. rewrite map_map. reflexivity. Qed.

Lemma get_set_other (k k' : string) (w : Q) (t : table) :
  k <> k' -> Dict.get k (Dict.set k' w t) = Dict.get k t.
Proof.
  intros Hne. induction t as [| [k0 w0] t IH]; simpl.
  - apply String.eqb_neq in Hne. rewrite Hne. reflexivity.
  - destruct (String.eqb k' k0) eqn:E; simpl.
    + apply String.eqb_eq in E. subst k0.
      apply String.eqb_neq in Hne. rewrite Hne. reflexivity.
    + rewrite IH. reflexivity.
Qed.

(** Assigning to a key the dictionary does not have appends it. *)
Lemma set_fresh (k : string) (w : Q) (t : table) :
  ~ In k (Dict.keys t) -> Dict.set k w t = t ++ [(k, w)].
Proof.
  induction t as [| [k0 w0] t IH]; simpl; intros H; [reflexivity |].
  destruct (String.eqb k k0) eqn:E.
  - apply String.eqb_eq in E. exfalso. auto.
  - rewrite IH; [reflexivity | tauto].
Qed.

Lemma get_app_fresh (k : string) (w : Q) (t : table) :
  ~ In k (Dict.keys t) -> Dict.get k (t ++ [(k, w)]) = Some w.
Proof.
  induction t as [| [k0 w0] t IH]; simpl; intros H.
  - rewrite String.eqb_refl. reflexivity.
  - destruct (String.eqb k k0) eqn:E.
    + apply String.eqb_eq in E. exfalso. auto.
    + apply IH. tauto.
Qed.

(** ** The first loop of [policy_update] *)

Lemma update_existing_table (normalized_skills : list string) (reward : Q) (weights : table) :
  fst (fst (update_existing normalized_skills reward weights))
  = map (fun kw => (fst kw, reinforce_entry normalized_skills reward (fst kw) (snd kw))) weights.
Proof.
  induction weights as [| [skill old] rest IH]; simpl; [reflexivity |].
  destruct (update_existing normalized_skills reward rest) as [[t u] l]. simpl in IH.
  unfold reinforce_entry at 1. simpl.
  destruct (matches normalized_skills skill); simpl; rewrite IH; reflexivity.
Qed.

Lemma update_existing_flag (normalized_skills : list string) (reward : Q) (weights : table) :
  snd (fst (update_existing normalized_skills reward weights))
  = existsb (matches normalized_skills) (Dict.keys weights).
Proof.
  induction weights as [| [skill old] rest IH]; simpl; [reflexivity |].
  destruct (update_existing normalized_skills reward rest) as [[t u] l]. simpl in IH.
  destruct (matches normalized_skills skill); simpl; [reflexivity | exact IH].
Qed.

Lemma update_existing_log (normalized_skills : list string) (reward : Q) (weights : table) :
  snd (update_existing normalized_skills reward weights)
  = flat_map (fun kw => if matches normalized_skills (fst kw)
                        then [EvUpdate (fst kw) (snd kw) (reinforce reward (snd kw))]
                        else []) weights.
Proof.
  induction weights as [| [skill old] rest IH]; simpl; [reflexivity |].
  destruct (update_existing normalized_skills reward rest) as [[t u] l]. simpl in IH.
  destruct (matches normalized_skills skill); simpl; rewrite IH; reflexivity.
Qed.

Lemma update_existing_keys (normalized_skills : list string) (reward : Q) (weights : table) :
  Dict.keys (fst (fst (update_existing normalized_skills reward weights))) = Dict.keys weights.
Proof. rewrite update_existing_table. apply keys_map_values. Qed.

Lemma update_existing_get (normalized_skills : list string) (reward : Q) (weights : table) (k : string) :
  Dict.get k (fst (fst (update_existing normalized_skills reward weights)))
  = option_map (reinforce_entry normalized_skills reward k) (Dict.get k weights).
Proof. rewrite update_existing_table. apply get_map_values. Qed.

Lemma update_existing_flag_log (normalized_skills : list string) (reward : Q) (weights : table) :
  snd (fst (update_existing normalized_skills reward weights)) = true
  <-> snd (update_existing normalized_skills reward weights) <> [].
Proof.
  rewrite update_existing_flag, update_existing_log.
  induction weights as [| [skill old] rest IH]; simpl.
  - split; [discriminate | congruence].
  - destruct (matches normalized_skills skill); simpl.
    + split; [discriminate | reflexivity].
    + exact IH.
Qed.


(** With unique keys, the loop prints one line for a matched key. *)
Lemma update_existing_once (normalized_skills : list string) (reward : Q) (weights : table)
      (skill : string) (old : Q) :
  NoDup (Dict.keys weights) ->
  Dict.get skill weights = Some old ->
  updates_of skill (snd (update_existing normalized_skills reward weights))
  = if matches normalized_skills skill then [(old, reinforce reward old)] else [].
Proof.
  rewrite update_existing_log.
  assert (Hnone : forall t : table, ~ In skill (Dict.keys t) ->
            updates_of skill
              (flat_map (fun kw => if matches normalized_skills (fst kw)
                                   then [EvUpdate (fst kw) (snd kw) (reinforce reward (snd kw))]
                                   else []) t) = []).
  { induction t as [| [k w] t IH]; simpl; intros Hk; [reflexivity |].
    destruct (matches normalized_skills k); simpl.
    - destruct (String.eqb k skill) eqn:E.
      + apply String.eqb_eq in E. exfalso. auto.
      + apply IH. tauto.
    - apply IH. tauto. }
  induction weights as [| [k w] rest IH]; simpl; intros Hnd Hget; [discriminate |].
  inversion Hnd as [| ? ? Hk Hnd']; subst.
  destruct (String.eqb skill k) eqn:E.
  - apply String.eqb_eq in E. subst k. injection Hget as ->.
    destruct (matches normalized_skills skill); simpl.
    + rewrite String.eqb_refl, Hnone; [reflexivity | exact Hk].
    + apply Hnone. exact Hk.
  - assert (E' : String.eqb k skill = false).
    { rewrite String.eqb_sym. exact E. }
    destruct (matches normalized_skills k); simpl.
    + rewrite E'. apply IH; assumption.
    + apply IH; assumption.
Qed.

(** ** The discovery loop *)

Lemma collides_self (s : string) : collides s s = true.
Proof. unfold collides. rewrite contains_refl. reflexivity. Qed.

Lemma no_collision_fresh (clean_s : string) (weights : table) :
  existsb (collides clean_s) (Dict.keys weights) = false -> ~ In clean_s (Dict.keys weights).
Proof.
  intros H Hin.
  assert (Ht : existsb (collides clean_s) (Dict.keys weights) = true).
  { apply existsb_exists. exists clean_s. split; [exact Hin | apply collides_self]. }
  congruence.
Qed.

(** One turn of the loop, as a function of the state. *)
Lemma discover_cons (reward : Q) (s : string) (rest : list string)
      (weights : table) (updated : bool) (log : list event) :
  discover reward (s :: rest) (weights, updated, log)
  = let clean_s := Str.lower (Str.strip s) in
    if andb (negb (existsb (collides clean_s) (Dict.keys weights)))
            (andb (Str.len clean_s <? 25)%Z (2 <? Str.len clean_s)%Z)
    then discover reward rest
           (Dict.set clean_s (initial_weight reward) weights, true,
            log ++ [EvDiscovery clean_s (initial_weight reward)])
    else discover reward rest (weights, updated, log).
Proof. reflexivity. Qed.

(** What the loop keeps true: old entries stay as they are, a new key is a
    trimmed skill entered with the initial weight and raises the flag, the
    flag never falls, and it is up exactly when a line was printed. *)
Lemma discover_inv (reward : Q) (normalized_skills : list string) :
  forall (weights : table) (updated : bool) (log : list event),
    let '(weights', updated', log') := discover reward normalized_skills (weights, updated, log) in
    (forall k w, Dict.get k weights = Some w -> Dict.get k weights' = Some w)
    /\ (forall k v, Dict.get k weights = None -> Dict.get k weights' = Some v ->
          v = initial_weight reward /\ updated' = true
          /\ exists s, In s normalized_skills /\ k = Str.lower (Str.strip s))
    /\ (updated = true -> updated' = true)
    /\ ((updated = true <-> log <> []) -> (updated' = true <-> log' <> [])).
Proof.
  induction normalized_skills as [| s rest IH]; intros weights updated log.
  - simpl. split; [auto | split; [| tauto]]. intros k v H1 H2. congruence.
  - rewrite discover_cons. cbv zeta.
    set (clean_s := Str.lower (Str.strip s)).
    assert (Hskip :
      let '(weights', updated', log') := discover reward rest (weights, updated, log) in
      (forall k w, Dict.get k weights = Some w -> Dict.get k weights' = Some w)
      /\ (forall k v, Dict.get k weights = None -> Dict.get k weights' = Some v ->
            v = initial_weight reward /\ updated' = true
            /\ exists s0, In s0 (s :: rest) /\ k = Str.lower (Str.strip s0))
      /\ (updated = true -> updated' = true)
      /\ ((updated = true <-> log <> []) -> (updated' = true <-> log' <> []))).
    { specialize (IH weights updated log).
      destruct (discover reward rest (weights, updated, log)) as [[w' u'] l'].
      destruct IH as (H1 & H2 & H3 & H4).
      split; [exact H1 |]. split; [| split; [exact H3 | exact H4]].
      intros k v Hk Hk'. destruct (H2 k v Hk Hk') as (Hv & Hu & x & Hx & ->).
      split; [exact Hv |]. split; [exact Hu |]. exists x. simpl. auto. }
    destruct (negb (existsb (collides clean_s) (Dict.keys weights))) eqn:Hadd; simpl;
      [| exact Hskip].
    destruct (andb (Str.len clean_s <? 25)%Z (2 <? Str.len clean_s)%Z) eqn:Hlen;
      [| exact Hskip].
    clear Hskip.
    apply negb_true_iff in Hadd. apply no_collision_fresh in Hadd.
    specialize (IH (Dict.set clean_s (initial_weight reward) weights) true
                   (log ++ [EvDiscovery clean_s (initial_weight reward)])).
    destruct (discover reward rest _) as [[w' u'] l'].
    destruct IH as (H1 & H2 & H3 & H4).
    assert (Hu : u' = true) by (apply H3; reflexivity).
    assert (Hflag : u' = true <-> l' <> []).
    { apply H4. split; [intros _ | reflexivity]. destruct log; discriminate. }
    split; [| split; [| split]].
    + intros k w Hk. apply H1. rewrite get_set_other; [exact Hk |].
      intros ->. apply Hadd. eapply get_In_keys, Hk.
    + intros k v Hk Hk'.
      destruct (String.eqb k clean_s) eqn:E.
      * apply String.eqb_eq in E. subst k.
        assert (Hset : Dict.get clean_s w' = Some (initial_weight reward)).
        { apply H1. rewrite (set_fresh _ _ _ Hadd). apply get_app_fresh, Hadd. }
        rewrite Hset in Hk'. injection Hk' as <-.
        split; [reflexivity |]. split; [exact Hu |].
        exists s. split; [left; reflexivity | reflexivity].
      * apply String.eqb_neq in E.
        destruct (H2 k v) as (Hv & _ & x & Hx & ->);
          [rewrite get_set_other; assumption | exact Hk' |].
        split; [exact Hv |]. split; [exact Hu |]. exists x. simpl. auto.
    + intros _. exact Hu.
    + intros _. exact Hflag.
Qed.

Lemma updates_of_app (skill : string) (l1 l2 : list event) :
  updates_of skill (l1 ++ l2) = updates_of skill l1 ++ updates_of skill l2.
Proof.
  induction l1 as [| ev l1 IH]; simpl; [reflexivity |].
  destruct ev; simpl; try exact IH.
  destruct (String.eqb skill0 skill); simpl; rewrite IH; reflexivity.
Qed.

(** The discovery loop prints no [RL Update] line. *)
Lemma discover_updates_of (skill : string) (reward : Q) (normalized_skills : list string) :
  forall (weights : table) (updated : bool) (log : list event),
    updates_of skill (snd (discover reward normalized_skills (weights, updated, log)))
    = updates_of skill log.
Proof.
  induction normalized_skills as [| s rest IH]; intros weights updated log; [reflexivity |].
  rewrite discover_cons. cbv zeta.
  destruct (andb _ _); rewrite IH; [| reflexivity].
  rewrite updates_of_app. simpl. apply app_nil_r.
Qed.

(** ** The decay loop *)

Lemma decay_table (normalized_skills : list string) (weights : table) :
  decay normalized_skills weights
  = map (fun kw => (fst kw, decay_entry normalized_skills (fst kw) (snd kw))) weights.
Proof.
  unfold decay, decay_entry. apply map_ext. intros [k w]. simpl.
  destruct (Str.mem k (map Str.lower normalized_skills)); reflexivity.
Qed.

Lemma decay_keys (normalized_skills : list string) (weights : table) :
  Dict.keys (decay normalized_skills weights) = Dict.keys weights.
Proof. rewrite decay_table. apply keys_map_values. Qed.

Lemma decay_get (normalized_skills : list string) (weights : table) (k : string) :
  Dict.get k (decay normalized_skills weights)
  = option_map (decay_entry normalized_skills k) (Dict.get k weights).
Proof. rewrite decay_table. apply get_map_values. Qed.

(** ** The three loops together *)

(** The loops of [policy_update] on one table: the flag is raised exactly
    when a line was printed; an old entry is reinforced if matched, then
    decayed if the flag is up and the key is none of the skills; a new key
    is a trimmed skill, entered with the initial weight and then decayed
    unless it is one of the skills. *)
Lemma policy_step_inv (normalized_skills : list string) (reward : Q) (weights : table) :
  let '(weights', updated, log) := policy_step normalized_skills reward weights in
  (updated = true <-> log <> [])
  /\ (forall k w0, Dict.get k weights = Some w0 ->
        Dict.get k weights'
        = Some (let v := reinforce_entry normalized_skills reward k w0 in
                if updated then decay_entry normalized_skills k v else v))
  /\ (forall k v, Dict.get k weights = None -> Dict.get k weights' = Some v ->
        v = decay_entry normalized_skills k (initial_weight reward)
        /\ exists s, In s normalized_skills /\ k = Str.lower (Str.strip s)).
Proof.
  unfold policy_step.
  pose proof (update_existing_get normalized_skills reward weights) as F1.
  pose proof (update_existing_flag_log normalized_skills reward weights) as F3.
  destruct (update_existing normalized_skills reward weights) as [[w1 u1] l1].
  simpl in F1, F3.
  assert (G : exists w2 u2 l2,
             (if Qgtb reward 0.3 then discover reward normalized_skills (w1, u1, l1)
              else (w1, u1, l1)) = (w2, u2, l2)
             /\ (forall k w, Dict.get k w1 = Some w -> Dict.get k w2 = Some w)
             /\ (forall k v, Dict.get k w1 = None -> Dict.get k w2 = Some v ->
                   v = initial_weight reward /\ u2 = true
                   /\ exists s, In s normalized_skills /\ k = Str.lower (Str.strip s))
             /\ (u2 = true <-> l2 <> [])).
  { destruct (Qgtb reward 0.3).
    - pose proof (discover_inv reward normalized_skills w1 u1 l1) as D.
      destruct (discover reward normalized_skills (w1, u1, l1)) as [[w2 u2] l2].
      exists w2, u2, l2. destruct D as (D1 & D2 & _ & D4). auto.
    - exists w1, u1, l1. split; [reflexivity |]. split; [auto |]. split; [| exact F3].
      intros k v H1 H2. congruence. }
  destruct G as (w2 & u2 & l2 & -> & G1 & G2 & G3).
  assert (Hold : forall k w0, Dict.get k weights = Some w0 ->
            Dict.get k w2 = Some (reinforce_entry normalized_skills reward k w0)).
  { intros k w0 Hk. apply G1. rewrite F1, Hk. reflexivity. }
  assert (Hnew : forall k v, Dict.get k weights = None -> Dict.get k w2 = Some v ->
            v = initial_weight reward /\ u2 = true
            /\ exists s, In s normalized_skills /\ k = Str.lower (Str.strip s)).
  { intros k v Hk Hk'. apply G2; [rewrite F1, Hk; reflexivity | exact Hk']. }
  destruct u2.
  - split; [split; [intros _; apply G3; reflexivity | reflexivity] |]. split.
    + intros k w0 Hk. rewrite decay_get, (Hold k w0 Hk). reflexivity.
    + intros k v Hk Hk'. rewrite decay_get in Hk'.
      destruct (Dict.get k w2) as [v2 |] eqn:E2; [| discriminate].
      destruct (Hnew k v2 Hk E2) as (-> & _ & Hs).
      simpl in Hk'. injection Hk' as <-. split; [reflexivity | exact Hs].
  - split; [split; [discriminate | intros H; apply G3; exact H] |]. split.
    + intros k w0 Hk. rewrite (Hold k w0 Hk). reflexivity.
    + intros k v Hk Hk'. destruct (Hnew k v Hk Hk') as (_ & Hf & _). discriminate.
Qed.

Lemma policy_step_updates_of (skill : string) (normalized_skills : list string) (reward : Q)
      (weights : table) :
  updates_of skill (snd (policy_step normalized_skills reward weights))
  = updates_of skill (snd (update_existing normalized_skills reward weights)).
Proof.
  unfold policy_step.
  destruct (update_existing normalized_skills reward weights) as [[w1 u1] l1]. simpl.
  destruct (Qgtb reward 0.3).
  - pose proof (discover_updates_of skill reward normalized_skills w1 u1 l1) as H.
    destruct (discover reward normalized_skills (w1, u1, l1)) as [[w2 u2] l2].
    simpl in H. destruct u2; exact H.
  - destruct u1; reflexivity.
Qed.

(** The keys stay unique, as those of a [dict] are. *)
Lemma NoDup_snoc (x : string) (l : list string) :
  NoDup l -> ~ In x l -> NoDup (l ++ [x]).
Proof.
  induction 1 as [| y l Hy Hnd IH]; simpl; intros Hx.
  - constructor; [tauto | constructor].
  - constructor.
    + rewrite in_app_iff. simpl. intros [H | [H | []]]; [tauto | subst; tauto].
    + apply IH. tauto.
Qed.

Lemma discover_NoDup (reward : Q) (normalized_skills : list string) :
  forall (weights : table) (updated : bool) (log : list event),
    NoDup (Dict.keys weights) ->
    NoDup (Dict.keys (fst (fst (discover reward normalized_skills (weights, updated, log))))).
Proof.
  induction normalized_skills as [| s rest IH]; intros weights updated log Hnd; [exact Hnd |].
  rewrite discover_cons. cbv zeta.
  destruct (negb (existsb (collides (Str.lower (Str.strip s))) (Dict.keys weights))) eqn:Hadd;
    simpl; [| apply IH, Hnd].
  destruct (andb _ _); [| apply IH, Hnd].
  apply negb_true_iff in Hadd. apply no_collision_fresh in Hadd.
  apply IH. rewrite (set_fresh _ _ _ Hadd). unfold Dict.keys. rewrite map_app. simpl.
  apply NoDup_snoc; assumption.
Qed.

Lemma policy_step_NoDup (normalized_skills : list string) (reward : Q) (weights : table) :
  NoDup (Dict.keys weights) ->
  NoDup (Dict.keys (fst (fst (policy_step normalized_skills reward weights)))).
Proof.
  intros Hnd. unfold policy_step.
  pose proof (update_existing_keys normalized_skills reward weights) as Hk.
  destruct (update_existing normalized_skills reward weights) as [[w1 u1] l1]. simpl in Hk.
  rewrite <- Hk in Hnd.
  set (st := if Qgtb reward 0.3 then discover reward normalized_skills (w1, u1, l1)
             else (w1, u1, l1)).
  assert (H2 : NoDup (Dict.keys (fst (fst st)))).
  { unfold st. destruct (Qgtb reward 0.3); [apply discover_NoDup, Hnd | exact Hnd]. }
  destruct st as [[w2 u2] l2].
  simpl in H2. destruct u2; simpl; [rewrite decay_keys |]; exact H2.
Qed.

Lemma policy_step_keys_kept (normalized_skills : list string) (reward : Q) (weights : table) (k : string) :
  In k (Dict.keys weights) ->
  In k (Dict.keys (fst (fst (policy_step normalized_skills reward weights)))).
Proof.
  intros Hin. pose proof (policy_step_inv normalized_skills reward weights) as H.
  destruct (policy_step normalized_skills reward weights) as [[w' u] l]. simpl.
  destruct H as (_ & H & _).
  destruct (Dict.get k weights) as [w0 |] eqn:E.
  - eapply get_In_keys. apply (H k w0 E).
  - apply get_None_keys in E. contradiction.
Qed.

(** A keyword that is no substring of a lowercase skill is none of them, and
    is not the trimmed form of one. *)
Lemma unmatched_not_listed (normalized_skills : list string) (k : string) :
  Forall lowercase normalized_skills ->
  matches normalized_skills k = false ->
  Str.mem k (map Str.lower normalized_skills) = false
  /\ forall s, In s normalized_skills -> k <> Str.lower (Str.strip s).
Proof.
  intros Hlow Hm. rewrite (map_lower_lowercase _ Hlow). split.
  - destruct (Str.mem k normalized_skills) eqn:E; [| reflexivity].
    apply mem_matches in E. congruence.
  - intros s Hs ->.
    assert (Ht : matches normalized_skills (Str.lower (Str.strip s)) = true).
    { unfold matches. apply existsb_exists. exists s. split; [exact Hs |].
      rewrite lower_strip. rewrite Forall_forall in Hlow. rewrite (Hlow s Hs).
      apply contains_strip. }
    congruence.
Qed.

(** A write that succeeds. *)
Lemma can_write_true (e : env) : can_write e = true -> on_write e = Written.
Proof. unfold can_write. destruct (on_write e); [reflexivity | discriminate | discriminate]. Qed.

Lemma save_written (weights : table) (e : env) :
  can_mkdir e = true -> can_write e = true ->
  _save_weights weights e = (healthy (Stored weights), Ok []).
Proof.
  intros Hm Hw. apply can_write_true in Hw. unfold _save_weights. rewrite Hm, Hw. reflexivity.
Qed.

(** How [policy_update] relates to its loops. *)
Lemma policy_update_table (candidate_data : pyval) (reward : Q) (weights : table) (e : env) :
  fst (fst (policy_update candidate_data reward weights e))
  = match lowered_skills candidate_data with
    | Ok normalized_skills => fst (fst (policy_step normalized_skills reward weights))
    | Raise _ => weights
    end.
Proof.
  unfold policy_update.
  destruct (lowered_skills candidate_data) as [normalized_skills | x]; [| reflexivity].
  destruct (policy_step normalized_skills reward weights) as [[w' u] l]. simpl.
  destruct u; [| reflexivity].
  unfold _save_weights. destruct (can_mkdir e); [destruct (on_write e) |]; reflexivity.
Qed.

Lemma reward_log_table (exp : Q -> result Q) (candidate_data : pyval) (feedback_score : Q)
      (outcome : string) (weights : table) (e : env) :
  fst (fst (reward_log exp candidate_data feedback_score outcome weights e))
  = fst (fst (policy_update candidate_data (_calculate_reward feedback_score outcome) weights e)).
Proof.
  unfold reward_log.
  destruct (policy_update candidate_data (_calculate_reward feedback_score outcome) weights e)
    as [[w' e'] [l | x]]; reflexivity.
Qed.

Lemma reward_log_reward (exp : Q -> result Q) (candidate_data : pyval) (feedback_score : Q)
      (outcome : string) (weights : table) (e : env) (l : learning) :
  snd (reward_log exp candidate_data feedback_score outcome weights e) = Ok l ->
  calculated_reward l = _calculate_reward feedback_score outcome.
Proof.
  unfold reward_log.
  destruct (policy_update candidate_data (_calculate_reward feedback_score outcome) weights e)
    as [[w' e'] [l' | x]]; simpl; intros H; [| discriminate].
  injection H as <-. reflexivity.
Qed.

(** A keyword of the table that is a substring of a skill raises the flag. *)
Lemma policy_step_flag_matched (normalized_skills : list string) (reward : Q) (weights : table)
      (k : string) :
  In k (Dict.keys weights) -> matches normalized_skills k = true ->
  snd (fst (policy_step normalized_skills reward weights)) = true.
Proof.
  intros Hin Hm. unfold policy_step.
  pose proof (update_existing_flag normalized_skills reward weights) as Hf.
  destruct (update_existing normalized_skills reward weights) as [[w1 u1] l1]. simpl in Hf.
  assert (Hu1 : u1 = true).
  { rewrite Hf. apply existsb_exists. exists k. auto. }
  clear Hf. subst u1.
  destruct (Qgtb reward 0.3).
  - pose proof (discover_inv reward normalized_skills w1 true l1) as D.
    destruct (discover reward normalized_skills (w1, true, l1)) as [[w2 u2] l2].
    destruct D as (_ & _ & D & _). specialize (D eq_refl). subst u2. reflexivity.
  - reflexivity.
Qed.

(** ** C1: the bounds of the weights across an update *)

Lemma reinforce_bounds (reward w : Q) : in_bounds (reinforce reward w).
Proof. unfold in_bounds, reinforce. apply clamp_bounds. unfold Qle. simpl. lia. Qed.

Lemma initial_weight_bounds (reward : Q) : 0.5 <= initial_weight reward /\ initial_weight reward <= 3.0.
Proof. unfold initial_weight. apply clamp_bounds. unfold Qle. simpl. lia. Qed.

Lemma in_bounds_unfold (w : Q) : in_bounds w <-> 0.1 <= w /\ w <= 5.
Proof. unfold in_bounds, min_weight, max_weight. split; intros [H1 H2]; split; lra. Qed.

Lemma decay_entry_cases (normalized_skills : list string) (k : string) (v : Q) :
  decay_entry normalized_skills k v = v \/ decay_entry normalized_skills k v = v * 0.999.
Proof. unfold decay_entry. destruct (Str.mem _ _); auto. Qed.

(** What does hold of the weights after an update of a table within bounds:
    the upper bound is kept, the lower bound only up to one decay. *)
Lemma policy_step_bounds (normalized_skills : list string) (reward : Q) (weights : table) :
  (forall k w, Dict.get k weights = Some w -> in_bounds w) ->
  forall k v,
    Dict.get k (fst (fst (policy_step normalized_skills reward weights))) = Some v ->
    min_weight * 0.999 <= v /\ v <= max_weight.
Proof.
  intros Hin k v Hk.
  pose proof (policy_step_inv normalized_skills reward weights) as Hinv.
  destruct (policy_step normalized_skills reward weights) as [[w' u] l]. simpl in Hk.
  destruct Hinv as (_ & Hold & Hnew).
  unfold min_weight, max_weight.
  destruct (Dict.get k weights) as [w0 |] eqn:E.
  - rewrite (Hold k w0 E) in Hk. injection Hk as <-. cbv zeta.
    assert (Hv : in_bounds (reinforce_entry normalized_skills reward k w0)).
    { unfold reinforce_entry. destruct (matches normalized_skills k);
        [apply reinforce_bounds | apply (Hin k w0 E)]. }
    apply in_bounds_unfold in Hv.
    destruct u; [| lra].
    destruct (decay_entry_cases normalized_skills k
                (reinforce_entry normalized_skills reward k w0)) as [-> | ->]; lra.
  - destruct (Hnew k v E Hk) as (-> & _).
    pose proof (initial_weight_bounds reward) as Hb.
    destruct (decay_entry_cases normalized_skills k (initial_weight reward)) as [-> | ->]; lra.
Qed.

(** C1 fails on the code. The table holds "python" at the minimum 0.1 and
    "java" at 1.1, both within [[0.1, 5.0]]; [update(["Java"], 5.0, "hired")]
    reinforces "java", so the decay loop runs and leaves "python" at 0.0999,
    below the minimum. *)
Theorem decay_undercuts_min_weight :
  let weights := [("python", 0.1); ("java", 1.1)] in
  let after :=
    fst (fst (reward_log exp_series (candidate ["Java"]) 5.0 "hired" weights (healthy Absent))) in
  Forall in_bounds (Dict.values weights)
  /\ exists w, Dict.get "python" after = Some w /\ w == 0.0999 /\ w < min_weight
               /\ ~ in_bounds w.
Proof.
  cbv zeta. split.
  - repeat constructor; unfold Qle; simpl; lia.
  - eexists. split; [vm_compute; reflexivity |].
    split; [reflexivity |]. split; [reflexivity |].
    intros [H _]. revert H. unfold Qle. simpl. lia.
Qed.

(** ** C2: [predict_success] always answers, within [[0.05, 0.95]] *)

(** C2. For every [math.exp], weight table and [candidate_data],
    [predict_success] returns a value between 0.05 and 0.95 that is a whole
    number of thousandths; it is a total function (no exception leaves it),
    and whenever the body raises the value returned is 0.2. *)
Theorem predict_success_bounded (exp : Q -> result Q) (weights : table) (candidate_data : pyval) :
  0.05 <= predict_success exp weights candidate_data
  /\ predict_success exp weights candidate_data <= 0.95
  /\ thousandth (predict_success exp weights candidate_data)
  /\ (forall x, predict_body exp weights candidate_data = Raise x ->
                predict_success exp weights candidate_data = 0.2).
Proof.
  assert (Hbase : 0.05 <= 0.2 /\ 0.2 <= 0.95 /\ thousandth 0.2).
  { repeat split; try (unfold Qle; simpl; lia). exists 200%Z. reflexivity. }
  assert (Hfall : forall x, predict_body exp weights candidate_data = Raise x ->
                            predict_success exp weights candidate_data = 0.2).
  { intros x Hx. unfold predict_success. rewrite Hx. reflexivity. }
  unfold predict_success in *. unfold predict_body in *.
  destruct (py_get "skills" (PyList []) candidate_data) as [skills | x]; simpl;
    [| tauto].
  destruct (truthy skills); simpl; [| tauto].
  destruct (py_iter skills) as [elems | x]; simpl; [| tauto].
  destruct (mapM _ elems) as [normalized_skills | x]; simpl; [| tauto].
  destruct (normalized_score weights normalized_skills) as [ns | x]; simpl; [| tauto].
  destruct (exp _) as [ev | x]; simpl; [| tauto].
  destruct (pydiv 1 (1 + ev)) as [probability | x]; simpl; [| tauto].
  destruct (clamp_bounds 0.05 0.95 probability) as [H1 H2];
    [unfold Qle; simpl; lia |].
  destruct (round3_bounds _ H1 H2) as [H3 H4].
  repeat split; try assumption.
  - eexists. unfold round3. reflexivity.
  - intros x Hx. discriminate Hx.
Qed.

Lemma predict_success_bounded_witness :
  predict_body exp_series default_weights PyNone = Raise AttributeError
  /\ predict_success exp_series default_weights PyNone = 0.2.
Proof.
  split; [reflexivity |].
  apply (proj2 (proj2 (proj2
           (predict_success_bounded exp_series default_weights PyNone)))
           AttributeError).
  reflexivity.
Defined.

(** The scenario of the specification: one key, one skill equal to it. *)
Example predict_python :
  predict_success exp_series [("python", 1.2)] (candidate ["Python"]) == 0.924.
Proof. vm_compute. reflexivity. Qed.

Example predict_no_skills :
  predict_success exp_series default_weights (candidate []) = 0.2
  /\ predict_success exp_series default_weights (PyDict [("skills", PyNum 7)]) = 0.2
  /\ predict_success exp_series default_weights (PyDict [("skills", PyList [PyNone])]) = 0.2.
Proof. repeat split. Qed.

(** ** C3: the order of the matching tiers *)

(** The fuzzy loop stops at the first candidate skill that hits either tier. *)
Lemma fuzzy_score_first_hit (skill : string) (weight : Q) (normalized_skills : list string) :
  fuzzy_score skill weight normalized_skills =
  match find (any_hit skill) normalized_skills with
  | Some c => if partial_match skill c then weight * 0.8 else weight * 0.6
  | None => 0.0
  end.
Proof.
  induction normalized_skills as [| c rest IH]; simpl; [reflexivity |].
  unfold any_hit at 1. fold (partial_match skill c).
  destruct (partial_match skill c) eqn:Hp; simpl; [rewrite Hp; reflexivity |].
  destruct (overlap skill c); simpl; [rewrite Hp; reflexivity | exact IH].
Qed.

(** C3, as amended. The exact tier is tried against all candidate skills
    first; failing that, the candidate skills are walked in sequence order
    and the first one that hits the substring tier or the word-overlap tier
    decides the score: [weight * 0.8] if it is a substring match, else
    [weight * 0.6]; with no hit at all the keyword scores 0. *)
Theorem skill_score_first_hit (skill : string) (weight : Q) (normalized_skills : list string) :
  skill_score skill weight normalized_skills =
  if Str.mem skill normalized_skills then weight
  else match find (any_hit skill) normalized_skills with
       | Some c => if partial_match skill c then weight * 0.8 else weight * 0.6
       | None => 0.0
       end.
Proof.
  unfold skill_score. destruct (Str.mem skill normalized_skills); [reflexivity |].
  apply fuzzy_score_first_hit.
Qed.

(** Where no candidate skill merely overlaps before a substring match is
    met, the code and the tier-by-tier reading agree. *)
Lemma skill_score_agrees_without_overlap (skill : string) (weight : Q) (normalized_skills : list string) :
  existsb (overlap skill) normalized_skills = false ->
  skill_score skill weight normalized_skills = tiered_score_spec skill weight normalized_skills.
Proof.
  intros Hno. unfold skill_score, tiered_score_spec.
  destruct (Str.mem skill normalized_skills); [reflexivity |].
  rewrite Hno.
  induction normalized_skills as [| c rest IH]; simpl in *; [reflexivity |].
  apply orb_false_iff in Hno as [Hc Hrest].
  destruct (orb (Str.contains skill c) (Str.contains c skill)); simpl; [reflexivity |].
  rewrite Hc. apply IH. exact Hrest.
Qed.

(** C3, as stated, fails: "machine learning engineer" contains the keyword,
    yet "deep learning" comes first and overlaps it, so the keyword scores
    [weight * 0.6]. *)
Lemma tier_order_counterexample :
  let skill := "machine learning" in
  let weight := 1.3 in
  let normalized_skills := ["deep learning"; "machine learning engineer"] in
  existsb (partial_match skill) normalized_skills = true
  /\ skill_score skill weight normalized_skills == weight * 0.6
  /\ ~ skill_score skill weight normalized_skills == weight * 0.8
  /\ ~ skill_score skill weight normalized_skills
       == tiered_score_spec skill weight normalized_skills.
Proof.
  cbv zeta. repeat split; try reflexivity; vm_compute; discriminate.
Qed.

(** ** C4: the reward and the reinforcement of matched keywords *)

Lemma outcome_reward_vocabulary (o : string) :
  outcome_reward o = match assoc o outcome_vocabulary with Some r => r | None => 0.0 end.
Proof.
  unfold outcome_reward, outcome_vocabulary, Str.mem. simpl.
  repeat (match goal with
          | |- context [String.eqb o ?k] => destruct (String.eqb o k); simpl; [reflexivity |]
          end).
  reflexivity.
Qed.

Lemma reinforce_proper (reward w w' : Q) : w == w' -> reinforce reward w == reinforce reward w'.
Proof. intros H. unfold reinforce. rewrite H. reflexivity. Qed.

(** What holds of the reward and of the first loop.  The reward is
    [clamp(0.6 * (feedback_score - 3) / 2 + 0.4 * outcome_reward, -2, 2)], the
    outcome being looked up in lower case in the fixed vocabulary (0 for a
    word outside it).  The reinforcement loop assigns [clamp(weight + 0.15 *
    reward, 0.1, 5.0)] to every keyword that is a substring of one of the
    lowercased skills, and prints one update line for it; what the call
    leaves in the table is the subject of [matched_keyword_after_call].
    [update(["Python"], 5.0, "hired")] on a table holding "python" at 1.2
    computes the reward 1.2 and leaves "python" at 1.38. *)
Theorem reward_and_reinforcement :
  (forall feedback_score outcome,
      _calculate_reward feedback_score outcome
      == pymax (- 2.0) (pymin 2.0 (0.6 * ((feedback_score - 3) / 2)
                                   + 0.4 * outcome_reward (Str.lower outcome)))
      /\ outcome_reward (Str.lower outcome)
         = match assoc (Str.lower outcome) outcome_vocabulary with
           | Some r => r
           | None => 0.0
           end)
  /\ (forall normalized_skills reward weights skill old,
         NoDup (Dict.keys weights) ->
         Dict.get skill weights = Some old ->
         matches normalized_skills skill = true ->
         let '(weights', updated, log) := update_existing normalized_skills reward weights in
         Dict.get skill weights' = Some (pymax 0.1 (pymin 5.0 (old + 0.15 * reward)))
         /\ updates_of skill log = [(old, pymax 0.1 (pymin 5.0 (old + 0.15 * reward)))]
         /\ updates_of skill (snd (policy_step normalized_skills reward weights)) = updates_of skill log
         /\ updated = true)
  /\ (forall exp weights e old,
         Dict.get "python" weights = Some old -> old == 1.2 ->
         let '(weights', _, r) :=
           reward_log exp (candidate ["Python"]) 5.0 "hired" weights e in
         _calculate_reward 5.0 "hired" == 1.2
         /\ (forall l, r = Ok l -> calculated_reward l == 1.2)
         /\ exists w, Dict.get "python" weights' = Some w /\ w == 1.38).
Proof.
  split; [| split].
  - intros feedback_score outcome. split; [| apply outcome_reward_vocabulary].
    unfold _calculate_reward.
    apply pymax_proper; [reflexivity |]. apply pymin_proper; [reflexivity |].
    field.
  - intros normalized_skills reward weights skill old Hnd Hget Hm.
    pose proof (update_existing_get normalized_skills reward weights skill) as H1.
    pose proof (update_existing_once normalized_skills reward weights skill old Hnd Hget) as H2.
    pose proof (update_existing_flag normalized_skills reward weights) as H3.
    pose proof (policy_step_updates_of skill normalized_skills reward weights) as H4.
    destruct (update_existing normalized_skills reward weights) as [[w' u] l].
    simpl in H1, H2, H3, H4. rewrite Hget in H1. unfold reinforce_entry in H1.
    rewrite Hm in H1, H2. repeat split; try assumption.
    rewrite H3. apply existsb_exists. exists skill. split; [| exact Hm].
    eapply get_In_keys, Hget.
  - intros exp weights e old Hget Hold.
    pose proof (reward_log_table exp (candidate ["Python"]) 5.0 "hired" weights e) as Ht.
    pose proof (reward_log_reward exp (candidate ["Python"]) 5.0 "hired" weights e) as Hr.
    destruct (reward_log exp (candidate ["Python"]) 5.0 "hired" weights e) as [[w' e'] r].
    simpl in Ht, Hr. split; [reflexivity |]. split.
    + intros l Hl. rewrite (Hr l Hl). reflexivity.
    + subst w'. rewrite policy_update_table, lowered_skills_candidate.
      pose proof (policy_step_inv (map Str.lower ["Python"])
                    (_calculate_reward 5.0 "hired") weights) as Hinv.
      destruct (policy_step (map Str.lower ["Python"]) (_calculate_reward 5.0 "hired") weights)
        as [[w' u] l]. simpl fst.
      destruct Hinv as (_ & Hinv & _). specialize (Hinv "python" old Hget).
      eexists. split; [exact Hinv |].
      assert (E : reinforce (_calculate_reward 5.0 "hired") old == 1.38).
      { rewrite (reinforce_proper _ _ _ Hold). reflexivity. }
      destruct u; exact E.
Qed.

Lemma reward_and_reinforcement_witness :
  (let '(weights', updated, log) := update_existing ["python"] 1.2 default_weights in
   Dict.get "python" weights' = Some (pymax 0.1 (pymin 5.0 (1.2 + 0.15 * 1.2)))
   /\ updates_of "python" log = [(1.2, pymax 0.1 (pymin 5.0 (1.2 + 0.15 * 1.2)))]
   /\ updates_of "python" (snd (policy_step ["python"] 1.2 default_weights))
      = updates_of "python" log
   /\ updated = true)
  /\ (let '(weights', _, r) :=
        reward_log exp_series (candidate ["Python"]) 5.0 "hired" default_weights (healthy Absent) in
      _calculate_reward 5.0 "hired" == 1.2
      /\ (forall l, r = Ok l -> calculated_reward l == 1.2)
      /\ exists w, Dict.get "python" weights' = Some w /\ w == 1.38).
Proof.
  split.
  - apply (proj1 (proj2 reward_and_reinforcement) ["python"] 1.2 default_weights "python" 1.2).
    + unfold default_weights, Dict.keys. simpl.
      repeat (constructor; [simpl; intuition discriminate |]). constructor.
    + reflexivity.
    + reflexivity.
  - apply (proj2 (proj2 reward_and_reinforcement) exp_series default_weights (healthy Absent) 1.2).
    + reflexivity.
    + reflexivity.
Defined.

(** What a call leaves for a matched keyword: the reinforced weight when the
    keyword is equal to one of the lowercased skills, and the reinforced
    weight times 0.999 when it is only a substring of one. *)
Lemma matched_keyword_after_call (normalized_skills : list string) (reward : Q)
      (weights : table) (skill : string) (old : Q) :
  Dict.get skill weights = Some old ->
  matches normalized_skills skill = true ->
  Dict.get skill (fst (fst (policy_step normalized_skills reward weights)))
  = Some (if Str.mem skill (map Str.lower normalized_skills)
          then reinforce reward old
          else reinforce reward old * 0.999).
Proof.
  intros Hget Hm.
  pose proof (policy_step_inv normalized_skills reward weights) as Hinv.
  pose proof (policy_step_flag_matched normalized_skills reward weights skill
                (get_In_keys _ _ _ Hget) Hm) as Hf.
  destruct (policy_step normalized_skills reward weights) as [[w' u] l].
  simpl in Hf. subst u. destruct Hinv as (_ & Hold & _).
  simpl fst. rewrite (Hold skill old Hget). cbv zeta.
  unfold reinforce_entry, decay_entry. rewrite Hm. reflexivity.
Qed.

(** C4 fails on the code. "java" and "javascript" are both keywords, and
    the skill "JavaScript" contains both, so "java" is matched.
    [update(["JavaScript"], 5.0, "hired")] computes the reward 1.2 and the
    first loop assigns "java" [clamp(1.1 + 0.15 * 1.2, 0.1, 5.0) = 1.28]; the
    decay loop, which spares only the keywords equal to a skill, then writes
    it a second time: the call leaves "java" at 1.27872, not at 1.28. *)
Theorem reinforcement_undone_by_decay :
  let weights := [("java", 1.1); ("javascript", 1.0)] in
  let after :=
    fst (fst (reward_log exp_series (candidate ["JavaScript"]) 5.0 "hired" weights
                         (healthy Absent))) in
  matches (map Str.lower ["JavaScript"]) "java" = true
  /\ _calculate_reward 5.0 "hired" == 1.2
  /\ pymax 0.1 (pymin 5.0 (1.1 + 0.15 * _calculate_reward 5.0 "hired")) == 1.28
  /\ policy_step ["javascript"] (_calculate_reward 5.0 "hired") weights
     = ([("java", reinforce (_calculate_reward 5.0 "hired") 1.1 * 0.999);
         ("javascript", reinforce (_calculate_reward 5.0 "hired") 1.0)], true,
        [EvUpdate "java" 1.1 (reinforce (_calculate_reward 5.0 "hired") 1.1);
         EvUpdate "javascript" 1.0 (reinforce (_calculate_reward 5.0 "hired") 1.0)])
  /\ exists w, Dict.get "java" after = Some w /\ w == 1.27872 /\ ~ w == 1.28.
Proof.
  cbv zeta. split; [reflexivity |]. split; [reflexivity |]. split; [reflexivity |].
  split; [reflexivity |].
  eexists. split; [vm_compute; reflexivity |]. split; [reflexivity |].
  vm_compute. discriminate.
Qed.

Example outcome_words :
  _calculate_reward 3 "OFFER_ACCEPTED" == 0.6
  /\ _calculate_reward 3 "Interview" == 0.32
  /\ _calculate_reward 3 "declined" == - 0.32
  /\ _calculate_reward 3 "Maybe" == 0.08
  /\ _calculate_reward 3 "on hold" == 0
  /\ _calculate_reward 1.0 "rejected" == - 0.92.
Proof. repeat split. Qed.

(** ** C5: the gate of skill discovery *)

Lemma Qgtb_true (a b : Q) : Qgtb a b = true <-> b < a.
Proof.
  unfold Qgtb. destruct (Qcompare_spec a b) as [H | H | H]; split; intros H';
    try discriminate; try reflexivity; try exact H; lra.
Qed.

Lemma Qgtb_false (a b : Q) : Qgtb a b = false <-> a <= b.
Proof.
  unfold Qgtb. destruct (Qcompare_spec a b) as [H | H | H]; split; intros H';
    try discriminate; try reflexivity; lra.
Qed.



(** With a reward of at most 0.3 the loops leave the keys as they are. *)
Lemma policy_step_keys_low_reward (normalized_skills : list string) (reward : Q) (weights : table) :
  reward <= 0.3 ->
  Dict.keys (fst (fst (policy_step normalized_skills reward weights))) = Dict.keys weights.
Proof.
  intros Hr. unfold policy_step. apply Qgtb_false in Hr. rewrite Hr.
  pose proof (update_existing_keys normalized_skills reward weights) as Hk.
  destruct (update_existing normalized_skills reward weights) as [[w1 u1] l1]. simpl in Hk.
  destruct u1; simpl; [rewrite decay_keys |]; exact Hk.
Qed.




(** ** C6: decay of the keywords no skill contains *)

(** C6. No keyword leaves the table in an update, whatever the candidate.
    When the skills normalise: the [updated] flag is up if and only if a
    reinforcement or an insertion was made in this call, and every keyword of
    the resulting table that is a substring of none of the normalised skills
    was already in the table and has its old weight multiplied by 0.999 if
    the flag is up, its old weight unchanged if not. *)
Theorem decay_rule (candidate_data : pyval) (reward : Q) (weights : table) (e : env) :
  let after := fst (fst (policy_update candidate_data reward weights e)) in
  (forall k, In k (Dict.keys weights) -> In k (Dict.keys after))
  /\ (forall normalized_skills,
         lowered_skills candidate_data = Ok normalized_skills ->
         let '(weights', updated, log) := policy_step normalized_skills reward weights in
         after = weights'
         /\ (updated = true <-> log <> [])
         /\ (forall k w,
                Dict.get k weights' = Some w ->
                matches normalized_skills k = false ->
                exists w0, Dict.get k weights = Some w0
                           /\ w = if updated then w0 * 0.999 else w0)).
Proof.
  intros after. subst after. rewrite policy_update_table. split.
  - intros k Hin.
    destruct (lowered_skills candidate_data) as [normalized_skills | x]; [| exact Hin].
    apply policy_step_keys_kept, Hin.
  - intros normalized_skills Hn. rewrite Hn.
    apply lowered_skills_lowercase in Hn.
    pose proof (policy_step_inv normalized_skills reward weights) as Hinv.
    destruct (policy_step normalized_skills reward weights) as [[w' u] l]. simpl fst.
    destruct Hinv as (Hflag & Hold & Hnew).
    split; [reflexivity |]. split; [exact Hflag |].
    intros k w Hk Hm.
    destruct (unmatched_not_listed normalized_skills k Hn Hm) as [Hmem Hstrip].
    destruct (Dict.get k weights) as [w0 |] eqn:E.
    + exists w0. split; [reflexivity |].
      rewrite (Hold k w0 E) in Hk. injection Hk as <-.
      unfold reinforce_entry, decay_entry. rewrite Hm, Hmem. reflexivity.
    + exfalso. destruct (Hnew k w E Hk) as (_ & s & Hs & Heq).
      exact (Hstrip s Hs Heq).
Qed.

Lemma decay_rule_witness :
  let after := fst (fst (policy_update (candidate ["Python"]) 1.2
                                       [("python", 1.2); ("java", 1.1)] (healthy Absent))) in
  In "java" (Dict.keys after)
  /\ exists w0, Dict.get "java" [("python", 1.2); ("java", 1.1)] = Some w0
                /\ 1.1 * 0.999 = w0 * 0.999.
Proof.
  pose proof (decay_rule (candidate ["Python"]) 1.2 [("python", 1.2); ("java", 1.1)]
                         (healthy Absent)) as H.
  cbv zeta in H. destruct H as [Hkeep Hdecay]. cbv zeta. split.
  - apply Hkeep. simpl. auto.
  - specialize (Hdecay ["python"] eq_refl).
    change (policy_step ["python"] 1.2 [("python", 1.2); ("java", 1.1)])
      with ([("python", reinforce 1.2 1.2); ("java", 1.1 * 0.999)], true,
            [EvUpdate "python" 1.2 (reinforce 1.2 1.2)]) in Hdecay.
    destruct Hdecay as (_ & _ & Hdecay).
    apply (Hdecay "java" (1.1 * 0.999)); reflexivity.
Defined.

(** The decay loop spares only the keywords equal to a skill: "python" is a
    substring of the skill "python3", is reinforced from 1.2 to 1.38, and is
    then multiplied by 0.999 all the same. *)
Example decay_reaches_matched_keyword :
  let weights := [("python", 1.2)] in
  let after :=
    fst (fst (reward_log exp_series (candidate ["Python3"]) 5.0 "hired" weights (healthy Absent))) in
  matches (map Str.lower ["Python3"]) "python" = true
  /\ Str.mem "python" (map Str.lower ["Python3"]) = false
  /\ policy_step ["python3"] 1.2 weights
     = ([("python", reinforce 1.2 1.2 * 0.999)], true,
        [EvUpdate "python" 1.2 (reinforce 1.2 1.2)])
  /\ exists w, Dict.get "python" after = Some w /\ w == 1.38 * 0.999 /\ ~ w == 1.38.
Proof.
  cbv zeta. split; [reflexivity |]. split; [reflexivity |]. split; [reflexivity |].
  eexists. split; [vm_compute; reflexivity |]. split; [reflexivity |].
  vm_compute. discriminate.
Qed.

(** ** C7: the direction of the reward *)

(** Within bounds, a reward that is not positive never raises a weight, and
    a reward that is not negative never lowers the weight of a keyword that
    is one of the lowercased skills. *)
Lemma reward_direction (normalized_skills : list string) (reward : Q) (weights : table)
      (k : string) (w0 v : Q) :
  Dict.get k weights = Some w0 ->
  in_bounds w0 ->
  Dict.get k (fst (fst (policy_step normalized_skills reward weights))) = Some v ->
  (reward <= 0 -> v <= w0)
  /\ (0 <= reward -> Str.mem k (map Str.lower normalized_skills) = true -> w0 <= v).
Proof.
  intros Hget Hin Hk.
  pose proof (policy_step_inv normalized_skills reward weights) as Hinv.
  destruct (policy_step normalized_skills reward weights) as [[w' u] l]. simpl in Hk.
  destruct Hinv as (_ & Hold & _).
  rewrite (Hold k w0 Hget) in Hk. injection Hk as <-. cbv zeta.
  apply in_bounds_unfold in Hin.
  set (v1 := reinforce_entry normalized_skills reward k w0).
  assert (Hdown : reward <= 0 -> v1 <= w0 /\ 0.1 <= v1).
  { intros Hr. unfold v1, reinforce_entry.
    destruct (matches normalized_skills k); [| lra]. split.
    - unfold reinforce. apply clamp_mono_down; unfold learning_rate; lra.
    - apply reinforce_bounds. }
  assert (Hup : 0 <= reward -> w0 <= v1).
  { intros Hr. unfold v1, reinforce_entry.
    destruct (matches normalized_skills k); [| lra].
    unfold reinforce. apply clamp_mono_up; unfold learning_rate; lra. }
  split.
  - intros Hr. destruct (Hdown Hr) as [H1 H2].
    destruct u; [| exact H1].
    destruct (decay_entry_cases normalized_skills k v1) as [-> | ->]; lra.
  - intros Hr Hm. unfold decay_entry. rewrite Hm.
    destruct u; apply Hup, Hr.
Qed.

(** C7 fails on the code. "java" and "javascript" are both keywords, "java"
    at the maximum 5.0; the skill "JavaScript" contains both, so both are
    matched. [update(["JavaScript"], 5.0, "hired")] reinforces "java" (it
    stays at 5.0 under the clamp) and then decays it, since it is not equal
    to the skill: its weight ends at 4.995, below the old one. *)
Theorem reward_direction_broken_by_decay :
  let weights := [("java", 5.0); ("javascript", 1.0)] in
  let after :=
    fst (fst (reward_log exp_series (candidate ["JavaScript"]) 5.0 "hired" weights
                         (healthy Absent))) in
  Forall in_bounds (Dict.values weights)
  /\ Forall (fun s => In s (Dict.keys weights)) (map Str.lower ["JavaScript"])
  /\ matches (map Str.lower ["JavaScript"]) "java" = true
  /\ 0 < _calculate_reward 5.0 "hired"
  /\ exists w, Dict.get "java" after = Some w /\ w == 4.995 /\ w < 5.0.
Proof.
  cbv zeta. split; [repeat constructor; unfold Qle; simpl; lia |].
  split; [constructor; [right; left; reflexivity | constructor] |].
  split; [reflexivity |]. split; [reflexivity |].
  eexists. split; [vm_compute; reflexivity |]. split; reflexivity.
Qed.

(** The other direction breaks once a weight has decayed below the minimum:
    [update(["Python"], 1.0, "rejected")] lifts "python" from 0.0999 back to
    the clamp 0.1. *)
Example negative_reward_raises_decayed_weight :
  let after :=
    fst (fst (reward_log exp_series (candidate ["Python"]) 1.0 "rejected"
                         [("python", 0.0999)] (healthy Absent))) in
  _calculate_reward 1.0 "rejected" < 0
  /\ exists w, Dict.get "python" after = Some w /\ w == 0.1 /\ 0.0999 < w.
Proof.
  cbv zeta. split; [reflexivity |].
  eexists. split; [vm_compute; reflexivity |]. split; reflexivity.
Qed.

(** ** C8: construction without a usable file *)

(** Without a usable file [_load_weights] answers its own four keywords, so
    [__init__] finds a table that is not empty, keeps it and writes nothing. *)
Lemma init_without_usable_file (e : env) :
  weights_file e = Absent \/ weights_file e = Unreadable ->
  __init__ e = (e, Ok fallback_weights).
Proof.
  intros [H | H]; unfold __init__, _load_weights; rewrite H; reflexivity.
Qed.

(** The table of [__init__] is seeded, and written at once, when the file
    holds an empty mapping. *)
Lemma init_seeds_empty_mapping :
  __init__ (healthy (Stored [])) = (healthy (Stored default_weights), Ok default_weights).
Proof. reflexivity. Qed.

(** C8 fails on the code. With the weight file absent, or unreadable, the
    new instance holds the four keywords of [_load_weights] ("python" at 1.0)
    and not the table of [__init__] ("python" at 1.2), and the file is left
    as it was: nothing is persisted. *)
Theorem construction_without_file :
  __init__ (healthy Absent) = (healthy Absent, Ok fallback_weights)
  /\ __init__ (healthy Unreadable) = (healthy Unreadable, Ok fallback_weights)
  /\ Dict.get "python" fallback_weights = Some 1.0
  /\ Dict.get "python" default_weights = Some 1.2
  /\ List.length fallback_weights = 4%nat
  /\ List.length default_weights = 19%nat
  /\ fallback_weights <> default_weights.
Proof. repeat split; discriminate. Qed.

(** ** C9: what leaves [reward_log] *)

(** The loops report updates and discoveries only: a [Failed to save] line
    comes from [_save_weights]. *)
Lemma update_existing_no_save (normalized_skills : list string) (reward : Q) (weights : table) :
  ~ In EvSaveFailed (snd (update_existing normalized_skills reward weights)).
Proof.
  induction weights as [| [skill old] rest IH]; simpl; [tauto |].
  destruct (update_existing normalized_skills reward rest) as [[t u] l]. simpl in IH.
  destruct (matches normalized_skills skill); simpl; [| exact IH].
  intros [H | H]; [discriminate | exact (IH H)].
Qed.

Lemma discover_no_save (reward : Q) (normalized_skills : list string) :
  forall (weights : table) (updated : bool) (log : list event),
    ~ In EvSaveFailed log ->
    ~ In EvSaveFailed (snd (discover reward normalized_skills (weights, updated, log))).
Proof.
  induction normalized_skills as [| s rest IH]; intros weights updated log Hlog; [exact Hlog |].
  rewrite discover_cons. cbv zeta.
  destruct (andb _ _); [| apply IH, Hlog].
  apply IH. intros Hin. apply in_app_or in Hin.
  destruct Hin as [Hin | [Hin | []]]; [exact (Hlog Hin) | discriminate].
Qed.

Lemma policy_step_no_save (normalized_skills : list string) (reward : Q) (weights : table) :
  ~ In EvSaveFailed (snd (policy_step normalized_skills reward weights)).
Proof.
  unfold policy_step.
  pose proof (update_existing_no_save normalized_skills reward weights) as H1.
  destruct (update_existing normalized_skills reward weights) as [[w1 u1] l1]. simpl in H1.
  destruct (Qgtb reward 0.3).
  - pose proof (discover_no_save reward normalized_skills w1 u1 l1 H1) as H2.
    destruct (discover reward normalized_skills (w1, u1, l1)) as [[w2 u2] l2].
    simpl in H2. destruct u2; exact H2.
  - destruct u1; exact H1.
Qed.

(** C9, as stated, fails: a skill that is not a string makes [s.lower()]
    raise in [policy_update], which [reward_log] does not guard; the
    exception reaches the caller. *)
Lemma reward_log_raises_on_malformed_skills :
  snd (reward_log exp_series (PyDict [("skills", PyList [PyNum 123])]) 5.0 "hired"
                  default_weights (healthy Absent))
  = Raise AttributeError.
Proof. reflexivity. Qed.

(** C9, as amended. When the skills of [candidate_data] do not normalise
    (the candidate is no mapping, the skills are not iterable, or one of them
    is not a string) the exception leaves [reward_log], raised before the
    table or the file was touched.  When they do, and the data directory can
    be made, [reward_log] returns normally with the table the loops computed,
    whatever becomes of the write: a write that fails is caught and reported
    by a printed line, and the table in memory is the same as with a
    successful write. *)
Theorem reward_log_errors (exp : Q -> result Q) (candidate_data : pyval)
        (feedback_score : Q) (outcome : string) (weights : table) (e : env) :
  (forall x, lowered_skills candidate_data = Raise x ->
             reward_log exp candidate_data feedback_score outcome weights e
             = (weights, e, Raise x))
  /\ (forall normalized_skills,
         lowered_skills candidate_data = Ok normalized_skills ->
         can_mkdir e = true ->
         let step := policy_step normalized_skills
                                 (_calculate_reward feedback_score outcome) weights in
         let '(weights', e', r) :=
           reward_log exp candidate_data feedback_score outcome weights e in
         weights' = fst (fst step)
         /\ exists l, r = Ok l
                      /\ (can_write e = false -> snd (fst step) = true ->
                          In EvSaveFailed (printed l))
                      /\ (can_write e = true -> ~ In EvSaveFailed (printed l))).
Proof.
  split.
  - intros x Hx. unfold reward_log, policy_update. rewrite Hx. reflexivity.
  - intros normalized_skills Hn Hmk. cbv zeta. unfold reward_log, policy_update. rewrite Hn.
    pose proof (policy_step_no_save normalized_skills (_calculate_reward feedback_score outcome)
                  weights) as Hlog.
    destruct (policy_step normalized_skills (_calculate_reward feedback_score outcome) weights)
      as [[w' u] l]. simpl in Hlog.
    destruct u.
    + unfold _save_weights, can_write. rewrite Hmk. destruct (on_write e); simpl.
      * split; [reflexivity |]. eexists. split; [reflexivity |]. split; [discriminate |].
        intros _ Hin. apply in_app_or in Hin. destruct Hin as [Hin | [Hin | []]];
          [exact (Hlog Hin) | discriminate].
      * split; [reflexivity |]. eexists. split; [reflexivity |]. split; [| discriminate].
        intros _ _. apply in_or_app. right. left. reflexivity.
      * split; [reflexivity |]. eexists. split; [reflexivity |]. split; [| discriminate].
        intros _ _. apply in_or_app. right. left. reflexivity.
    + simpl. split; [reflexivity |]. eexists. split; [reflexivity |].
      split; [discriminate | intros _; exact Hlog].
Qed.

Lemma reward_log_errors_witness :
  reward_log exp_series PyNone 5.0 "hired" default_weights (healthy Absent)
  = (default_weights, healthy Absent, Raise AttributeError)
  /\ (let step := policy_step ["python"] (_calculate_reward 5.0 "hired") default_weights in
      let '(weights', e', r) :=
        reward_log exp_series (candidate ["Python"]) 5.0 "hired" default_weights
                   (mkEnv Absent true DumpFails) in
      weights' = fst (fst step)
      /\ exists l, r = Ok l
                   /\ (can_write (mkEnv Absent true DumpFails) = false ->
                       snd (fst step) = true -> In EvSaveFailed (printed l))
                   /\ (can_write (mkEnv Absent true DumpFails) = true ->
                       ~ In EvSaveFailed (printed l))).
Proof.
  split.
  - apply (proj1 (reward_log_errors exp_series PyNone 5.0 "hired" default_weights
                                    (healthy Absent)) AttributeError).
    reflexivity.
  - apply (proj2 (reward_log_errors exp_series (candidate ["Python"]) 5.0 "hired"
                                    default_weights (mkEnv Absent true DumpFails)) ["python"]).
    + reflexivity.
    + reflexivity.
Defined.

(** When the data directory cannot be made, the table is updated in memory
    and [OSError] leaves [reward_log]. *)
Example reward_log_mkdir_fails :
  let '(weights', e', r) :=
    reward_log exp_series (candidate ["Python"]) 5.0 "hired" [("python", 1.2)]
               (mkEnv Absent false Written) in
  r = Raise OSError /\ e' = mkEnv Absent false Written
  /\ exists w, Dict.get "python" weights' = Some w /\ w == 1.38.
Proof.
  vm_compute. split; [reflexivity |]. split; [reflexivity |].
  eexists. split; reflexivity.
Qed.

(** ** C10: saving and loading again *)

(** C10, as stated, fails: the empty table is written as an empty mapping,
    and a new instance that loads an empty mapping replaces it by the table
    of [__init__]. *)
Lemma roundtrip_empty_table :
  let e1 := fst (_save_weights [] (healthy Absent)) in
  weights_file e1 = Stored []
  /\ snd (__init__ e1) = Ok default_weights
  /\ default_weights <> [].
Proof. repeat split; discriminate. Qed.

(** C10, as amended. For every table that is not empty, once it has been
    written to the weight file, a new instance constructed from that file
    holds the same keys with the same weights, and leaves the file as it
    is. *)
Theorem save_load_roundtrip (weights : table) (e : env) :
  weights <> [] ->
  can_mkdir e = true ->
  can_write e = true ->
  let e1 := fst (_save_weights weights e) in
  snd (_save_weights weights e) = Ok []
  /\ weights_file e1 = Stored weights
  /\ __init__ e1 = (e1, Ok weights).
Proof.
  intros Hne Hmk Hwr. rewrite (save_written weights e Hmk Hwr). cbv zeta. simpl.
  split; [reflexivity |]. split; [reflexivity |].
  unfold __init__, _load_weights. simpl.
  destruct weights; [contradiction | reflexivity].
Qed.

Lemma save_load_roundtrip_witness :
  let e1 := fst (_save_weights default_weights (healthy Absent)) in
  snd (_save_weights default_weights (healthy Absent)) = Ok []
  /\ weights_file e1 = Stored default_weights
  /\ __init__ e1 = (e1, Ok default_weights).
Proof.
  apply (save_load_roundtrip default_weights (healthy Absent)).
  - discriminate.
  - reflexivity.
  - reflexivity.
Defined.

(** A write that fails once the file is open leaves neither the old table
    nor the new one: the next instance holds the table of [_load_weights]. *)
Example save_fails_then_load :
  let e1 := fst (_save_weights default_weights
                               (mkEnv (Stored [("python", 1.2)]) true DumpFails)) in
  weights_file e1 = Unreadable /\ snd (__init__ e1) = Ok fallback_weights.
Proof. split; reflexivity. Qed.

(** * Further properties of the scorer *)

(** ** The range of the reward *)

Lemma outcome_reward_range (o : string) : - 0.8 <= outcome_reward o /\ outcome_reward o <= 1.5.
Proof.
  unfold outcome_reward.
  repeat (match goal with
          | |- context [if ?b then _ else _] => destruct b
          end); split; unfold Qle; simpl; lia.
Qed.

Lemma clamp_monotone (lo hi x y : Q) :
  x <= y -> pymax lo (pymin hi x) <= pymax lo (pymin hi y).
Proof.
  intros Hxy.
  destruct (pymax_cases lo (pymin hi x)) as [[H1 ->] | [H1 ->]];
    destruct (pymax_cases lo (pymin hi y)) as [[H2 ->] | [H2 ->]];
    destruct (pymin_cases hi x) as [[H3 E3] | [H3 E3]];
    destruct (pymin_cases hi y) as [[H4 E4] | [H4 E4]];
    rewrite ?E3, ?E4 in *; lra.
Qed.

(** The reward always lies in [[-2, 2]]; for a feedback score between 1 and
    5 it lies in [[-0.92, 1.2]], so the clamp of [_calculate_reward] is idle
    on the documented range of scores. *)
Theorem reward_range (feedback_score : Q) (outcome : string) :
  (- 2 <= _calculate_reward feedback_score outcome
   /\ _calculate_reward feedback_score outcome <= 2)
  /\ (1 <= feedback_score -> feedback_score <= 5 ->
      - 0.92 <= _calculate_reward feedback_score outcome
      /\ _calculate_reward feedback_score outcome <= 1.2
      /\ _calculate_reward feedback_score outcome
         == (feedback_score - 3) / 2 * 0.6 + outcome_reward (Str.lower outcome) * 0.4).
Proof.
  unfold _calculate_reward. split.
  - destruct (clamp_bounds (- 2.0) 2.0
                ((feedback_score - 3) / 2.0 * 0.6 + outcome_reward (Str.lower outcome) * 0.4))
      as [H1 H2]; [unfold Qle; simpl; lia |].
    split; lra.
  - intros Hlo Hhi.
    pose proof (outcome_reward_range (Str.lower outcome)) as [Ho1 Ho2].
    set (r := outcome_reward (Str.lower outcome)) in *.
    assert (E : (feedback_score - 3) / 2.0 * 0.6 + r * 0.4
                == 0.3 * feedback_score - 0.9 + 0.4 * r) by field.
    assert (Hid : pymax (- 2.0) (pymin 2.0 ((feedback_score - 3) / 2.0 * 0.6 + r * 0.4))
                  == (feedback_score - 3) / 2.0 * 0.6 + r * 0.4).
    { apply clamp_id; rewrite E; lra. }
    rewrite Hid. rewrite E. repeat split; try lra. field.
Qed.

Lemma reward_range_witness :
  - 0.92 <= _calculate_reward 1 "rejected" /\ _calculate_reward 5 "hired" <= 1.2.
Proof.
  split.
  - apply (proj2 (reward_range 1 "rejected")); unfold Qle; simpl; lia.
  - apply (proj2 (reward_range 5 "hired")); unfold Qle; simpl; lia.
Defined.

(** A better feedback score never gives a smaller reward, the outcome being
    the same. *)
Theorem reward_monotone_in_score (s1 s2 : Q) (outcome : string) :
  s1 <= s2 -> _calculate_reward s1 outcome <= _calculate_reward s2 outcome.
Proof.
  intros H. unfold _calculate_reward. apply clamp_monotone.
  set (r := outcome_reward (Str.lower outcome)).
  assert (E1 : (s1 - 3) / 2.0 * 0.6 + r * 0.4 == 0.3 * s1 - 0.9 + 0.4 * r) by field.
  assert (E2 : (s2 - 3) / 2.0 * 0.6 + r * 0.4 == 0.3 * s2 - 0.9 + 0.4 * r) by field.
  rewrite E1, E2. lra.
Qed.

Lemma reward_monotone_in_score_witness :
  _calculate_reward 2 "interview" <= _calculate_reward 4 "interview".
Proof. apply reward_monotone_in_score. unfold Qle. simpl. lia. Defined.

(** ** What feedback can add to the table *)

Lemma mem_three (x a b c : string) :
  Str.mem x [a; b; c] = true -> x = a \/ x = b \/ x = c.
Proof.
  rewrite mem_In. simpl. intros [H | [H | [H | []]]]; auto.
Qed.

Lemma outcome_reward_rejection (o : string) :
  Str.mem o ["rejected"; "declined"; "reject"] = true -> outcome_reward o = - 0.8.
Proof.
  intros H. apply mem_three in H. destruct H as [-> | [-> | ->]]; reflexivity.
Qed.

(** A rejection teaches no keyword: with the outcome "rejected", "declined"
    or "reject" (in any case) and a feedback score of at most 5, the reward
    stays below the discovery threshold and [reward_log] leaves the keywords
    of the table as they are, whatever the candidate. *)
Theorem rejection_discovers_nothing (exp : Q -> result Q) (candidate_data : pyval)
        (feedback_score : Q) (outcome : string) (weights : table) (e : env) :
  Str.mem (Str.lower outcome) ["rejected"; "declined"; "reject"] = true ->
  feedback_score <= 5 ->
  _calculate_reward feedback_score outcome <= 0.28
  /\ Dict.keys (fst (fst (reward_log exp candidate_data feedback_score outcome weights e)))
     = Dict.keys weights.
Proof.
  intros Ho Hs.
  assert (Hr : _calculate_reward feedback_score outcome <= 0.28).
  { unfold _calculate_reward. rewrite (outcome_reward_rejection _ Ho).
    destruct (pymax_cases (- 2.0) (pymin 2.0 ((feedback_score - 3) / 2.0 * 0.6 + - 0.8 * 0.4)))
      as [[H1 ->] | [H1 ->]]; [| unfold Qle; simpl; lia].
    destruct (pymin_cases 2.0 ((feedback_score - 3) / 2.0 * 0.6 + - 0.8 * 0.4))
      as [[H2 ->] | [H2 ->]].
    - assert (E : (feedback_score - 3) / 2.0 * 0.6 + - 0.8 * 0.4
                  == 0.3 * feedback_score - 1.22) by field.
      rewrite E. lra.
    - assert (E : (feedback_score - 3) / 2.0 * 0.6 + - 0.8 * 0.4
                  == 0.3 * feedback_score - 1.22) by field.
      rewrite E in H2. lra. }
  split; [exact Hr |].
  rewrite reward_log_table, policy_update_table.
  destruct (lowered_skills candidate_data) as [normalized_skills | x]; [| reflexivity].
  apply policy_step_keys_low_reward. lra.
Qed.

Lemma rejection_discovers_nothing_witness :
  _calculate_reward 5 "Rejected" <= 0.28
  /\ Dict.keys (fst (fst (reward_log exp_series (candidate ["Kubernetes Helm Charts"])
                                     5 "Rejected" default_weights (healthy Absent))))
     = Dict.keys default_weights.
Proof.
  apply rejection_discovers_nothing.
  - reflexivity.
  - unfold Qle. simpl. lia.
Defined.

Lemma discover_length (reward : Q) (normalized_skills : list string) :
  forall (weights : table) (updated : bool) (log : list event),
    let weights' := fst (fst (discover reward normalized_skills (weights, updated, log))) in
    (List.length weights <= List.length weights')%nat
    /\ (List.length weights' <= List.length weights + List.length normalized_skills)%nat.
Proof.
  induction normalized_skills as [| s rest IH]; intros weights updated log; cbv zeta.
  - simpl. lia.
  - rewrite discover_cons. cbv zeta.
    destruct (negb (existsb (collides (Str.lower (Str.strip s))) (Dict.keys weights))) eqn:Hadd;
      simpl andb.
    2:{ specialize (IH weights updated log). cbv zeta in IH. simpl List.length. lia. }
    destruct (andb _ _).
    2:{ specialize (IH weights updated log). cbv zeta in IH. simpl List.length. lia. }
    apply negb_true_iff in Hadd. apply no_collision_fresh in Hadd.
    rewrite (set_fresh _ _ _ Hadd).
    specialize (IH (weights ++ [(Str.lower (Str.strip s), initial_weight reward)]) true
                   (log ++ [EvDiscovery (Str.lower (Str.strip s)) (initial_weight reward)])).
    cbv zeta in IH. rewrite length_app in IH. simpl List.length in *. lia.
Qed.

Lemma policy_step_length (normalized_skills : list string) (reward : Q) (weights : table) :
  let weights' := fst (fst (policy_step normalized_skills reward weights)) in
  (List.length weights <= List.length weights')%nat
  /\ (List.length weights' <= List.length weights + List.length normalized_skills)%nat.
Proof.
  cbv zeta. unfold policy_step.
  pose proof (update_existing_table normalized_skills reward weights) as Ht.
  destruct (update_existing normalized_skills reward weights) as [[w1 u1] l1]. simpl in Ht.
  assert (Hl1 : List.length w1 = List.length weights) by (rewrite Ht; apply length_map).
  set (st := if Qgtb reward 0.3 then discover reward normalized_skills (w1, u1, l1)
             else (w1, u1, l1)).
  assert (H2 : (List.length w1 <= List.length (fst (fst st)))%nat
               /\ (List.length (fst (fst st)) <= List.length w1 + List.length normalized_skills)%nat).
  { unfold st. destruct (Qgtb reward 0.3); [apply discover_length | simpl; lia]. }
  destruct st as [[w2 u2] l2]. simpl in H2.
  destruct u2; simpl; [unfold decay; rewrite length_map |]; lia.
Qed.

Lemma mapM_length {A B : Type} (f : A -> result B) (l : list A) (l' : list B) :
  mapM f l = Ok l' -> List.length l' = List.length l.
Proof.
  revert l'. induction l as [| a l IH]; intros l' H; simpl in H.
  - injection H as <-. reflexivity.
  - destruct (f a) as [b |]; simpl in H; [| discriminate].
    destruct (mapM f l) as [bs |]; simpl in H; [| discriminate].
    injection H as <-. simpl. rewrite (IH bs eq_refl). reflexivity.
Qed.

(** The number of keywords never falls in a call of [reward_log], and it
    rises by at most the number of skills of the candidate; it stays the same
    when the skills do not normalise. *)
Theorem keywords_learned_per_call (exp : Q -> result Q) (candidate_data : pyval)
        (feedback_score : Q) (outcome : string) (weights : table) (e : env) :
  let weights' := fst (fst (reward_log exp candidate_data feedback_score outcome weights e)) in
  (List.length weights <= List.length weights')%nat
  /\ match lowered_skills candidate_data with
     | Ok normalized_skills =>
         (List.length weights' <= List.length weights + List.length normalized_skills)%nat
     | Raise _ => weights' = weights
     end.
Proof.
  cbv zeta. rewrite reward_log_table, policy_update_table.
  destruct (lowered_skills candidate_data) as [normalized_skills | x].
  - apply policy_step_length.
  - split; [lia | reflexivity].
Qed.

(** ** When the weight file is written *)

Lemma update_existing_unchanged (normalized_skills : list string) (reward : Q) (weights : table) :
  snd (fst (update_existing normalized_skills reward weights)) = false ->
  fst (fst (update_existing normalized_skills reward weights)) = weights.
Proof.
  induction weights as [| [skill old] rest IH]; simpl; [reflexivity |].
  destruct (update_existing normalized_skills reward rest) as [[t u] l]. simpl in IH.
  destruct (matches normalized_skills skill); simpl; [discriminate |].
  intros Hu. rewrite (IH Hu). reflexivity.
Qed.

Lemma discover_unchanged (reward : Q) (normalized_skills : list string) :
  forall (weights : table) (updated : bool) (log : list event),
    snd (fst (discover reward normalized_skills (weights, updated, log))) = false ->
    fst (fst (discover reward normalized_skills (weights, updated, log))) = weights.
Proof.
  induction normalized_skills as [| s rest IH]; intros weights updated log; [reflexivity |].
  rewrite discover_cons. cbv zeta.
  destruct (andb _ _); [| apply IH].
  intros Hf.
  pose proof (discover_inv reward rest
                (Dict.set (Str.lower (Str.strip s)) (initial_weight reward) weights) true
                (log ++ [EvDiscovery (Str.lower (Str.strip s)) (initial_weight reward)])) as D.
  destruct (discover reward rest _) as [[w' u'] l']. simpl in Hf.
  destruct D as (_ & _ & D & _). rewrite (D eq_refl) in Hf. discriminate.
Qed.

(** A call whose flag stays down leaves the table as it was. *)
Lemma policy_step_unchanged (normalized_skills : list string) (reward : Q) (weights : table) :
  snd (fst (policy_step normalized_skills reward weights)) = false ->
  fst (fst (policy_step normalized_skills reward weights)) = weights.
Proof.
  unfold policy_step.
  pose proof (update_existing_unchanged normalized_skills reward weights) as H1.
  destruct (update_existing normalized_skills reward weights) as [[w1 u1] l1]. simpl in H1.
  destruct (Qgtb reward 0.3).
  - pose proof (discover_unchanged reward normalized_skills w1 u1 l1) as H2.
    pose proof (discover_inv reward normalized_skills w1 u1 l1) as D.
    destruct (discover reward normalized_skills (w1, u1, l1)) as [[w2 u2] l2].
    simpl in H2. destruct D as (_ & _ & D & _).
    destruct u2; simpl; [discriminate |]. intros _.
    rewrite (H2 eq_refl). apply H1.
    destruct u1; [specialize (D eq_refl); discriminate | reflexivity].
  - destruct u1; simpl; [discriminate |]. intros _. apply H1. reflexivity.
Qed.

(** [policy_update] touches the weight file only in a call that reinforced
    or inserted a keyword, and what it writes is the whole table as it then
    stands in memory.  After the call the file system is as it was, or the
    write succeeded and the file holds the table in memory, or the write
    failed once the file was open and the file is unreadable.  A call that
    raised no flag leaves both the table and the file untouched; on a disk
    that can be written, a call that changed the table leaves the file equal
    to it; when the file cannot be opened for writing the file system is as
    it was; when the write fails once the file is open, a call that changed
    the table leaves an unreadable file, whatever the file held. *)
Theorem file_follows_memory (candidate_data : pyval) (reward : Q) (weights : table) (e : env) :
  let '(weights', e', r) := policy_update candidate_data reward weights e in
  (e' = e
   \/ (in_sync weights' e' /\ can_write e = true)
   \/ (weights_file e' = Unreadable /\ on_write e = DumpFails))
  /\ can_mkdir e' = can_mkdir e /\ on_write e' = on_write e
  /\ (forall normalized_skills,
         lowered_skills candidate_data = Ok normalized_skills ->
         snd (fst (policy_step normalized_skills reward weights)) = false ->
         e' = e /\ weights' = weights)
  /\ (can_mkdir e = true -> can_write e = true -> weights' <> weights -> in_sync weights' e')
  /\ (on_write e = OpenFails -> e' = e)
  /\ (can_mkdir e = true -> on_write e = DumpFails -> weights' <> weights ->
      weights_file e' = Unreadable).
Proof.
  unfold policy_update.
  destruct (lowered_skills candidate_data) as [normalized_skills | x].
  2:{ split; [left; reflexivity |]. split; [reflexivity |]. split; [reflexivity |].
      split; [discriminate |]. split; [intros _ _ H; contradiction |].
      split; [intros _; reflexivity | intros _ _ H; contradiction]. }
  pose proof (policy_step_unchanged normalized_skills reward weights) as Hun.
  destruct (policy_step normalized_skills reward weights) as [[w' u] l] eqn:E. simpl in Hun.
  assert (Hflag : forall n, Ok normalized_skills = Ok n ->
                    snd (fst (policy_step n reward weights)) = u).
  { intros n Hn. injection Hn as <-. rewrite E. reflexivity. }
  destruct u.
  - assert (Hno : forall n, Ok normalized_skills = Ok n ->
                    snd (fst (policy_step n reward weights)) = false -> False).
    { intros n Hn Hf. rewrite (Hflag n Hn) in Hf. discriminate. }
    unfold _save_weights, can_write.
    destruct (can_mkdir e) eqn:Hm; [destruct (on_write e) eqn:Hw |]; simpl;
      rewrite ?Hm, ?Hw.
    + split; [right; left; split; reflexivity |]. split; [reflexivity |].
      split; [reflexivity |]. split; [intros n Hn Hf; destruct (Hno n Hn Hf) |].
      split; [intros _ _ _; reflexivity |]. split; discriminate.
    + split; [left; reflexivity |]. split; [reflexivity |]. split; [reflexivity |].
      split; [intros n Hn Hf; destruct (Hno n Hn Hf) |].
      split; [discriminate |]. split; [intros _; reflexivity | discriminate].
    + split; [right; right; split; reflexivity |]. split; [reflexivity |].
      split; [reflexivity |]. split; [intros n Hn Hf; destruct (Hno n Hn Hf) |].
      split; [discriminate |]. split; [discriminate | intros _ _ _; reflexivity].
    + split; [left; reflexivity |]. split; [reflexivity |]. split; [reflexivity |].
      split; [intros n Hn Hf; destruct (Hno n Hn Hf) |].
      split; [discriminate |]. split; [intros _; reflexivity | discriminate].
  - split; [left; reflexivity |]. split; [reflexivity |]. split; [reflexivity |]. split.
    + intros n Hn _. split; [reflexivity | apply Hun; reflexivity].
    + split; [intros _ _ H; exfalso; apply H, Hun; reflexivity |].
      split; [intros _; reflexivity |]. intros _ _ H. exfalso. apply H, Hun. reflexivity.
Qed.

Lemma file_follows_memory_witness :
  (let '(weights', e', r) :=
     policy_update (candidate ["Rust"]) 0.2 default_weights (healthy Absent) in
   e' = healthy Absent /\ weights' = default_weights)
  /\ (let '(weights', e', r) :=
        policy_update (candidate ["Python"]) 1.2 default_weights
                      (mkEnv (Stored default_weights) true DumpFails) in
      weights_file e' = Unreadable).
Proof.
  split.
  - pose proof (file_follows_memory (candidate ["Rust"]) 0.2 default_weights (healthy Absent))
      as H.
    destruct (policy_update (candidate ["Rust"]) 0.2 default_weights (healthy Absent))
      as [[w' e'] r].
    destruct H as (_ & _ & _ & H & _). apply (H ["rust"]); reflexivity.
  - pose proof (file_follows_memory (candidate ["Python"]) 1.2 default_weights
                  (mkEnv (Stored default_weights) true DumpFails)) as H.
    destruct (policy_update (candidate ["Python"]) 1.2 default_weights
                            (mkEnv (Stored default_weights) true DumpFails))
      as [[w' e'] r] eqn:E.
    destruct H as (_ & _ & _ & _ & _ & _ & H). apply H; [reflexivity | reflexivity |].
    vm_compute in E. injection E as <- _ _. discriminate.
Defined.

(** ** What a scorer in service keeps *)

Lemma reward_log_state (exp : Q -> result Q) (candidate_data : pyval) (feedback_score : Q)
      (outcome : string) (weights : table) (e : env) :
  fst (reward_log exp candidate_data feedback_score outcome weights e)
  = fst (policy_update candidate_data (_calculate_reward feedback_score outcome) weights e).
Proof.
  unfold reward_log.
  destruct (policy_update candidate_data (_calculate_reward feedback_score outcome) weights e)
    as [[w' e'] [l | x]]; reflexivity.
Qed.

Lemma policy_step_positive (normalized_skills : list string) (reward : Q) (weights : table) :
  positive weights -> positive (fst (fst (policy_step normalized_skills reward weights))).
Proof.
  intros Hp k v Hk.
  pose proof (policy_step_inv normalized_skills reward weights) as Hinv.
  destruct (policy_step normalized_skills reward weights) as [[w' u] l]. simpl in Hk.
  destruct Hinv as (_ & Hold & Hnew).
  destruct (Dict.get k weights) as [w0 |] eqn:E.
  - rewrite (Hold k w0 E) in Hk. injection Hk as <-. cbv zeta.
    assert (Hv : 0 < reinforce_entry normalized_skills reward k w0).
    { unfold reinforce_entry. destruct (matches normalized_skills k); [| apply (Hp k w0 E)].
      pose proof (reinforce_bounds reward w0) as Hb. apply in_bounds_unfold in Hb. lra. }
    destruct u; [| exact Hv].
    destruct (decay_entry_cases normalized_skills k
                (reinforce_entry normalized_skills reward k w0)) as [-> | ->]; lra.
  - destruct (Hnew k v E Hk) as (-> & _).
    pose proof (initial_weight_bounds reward) as Hb.
    destruct (decay_entry_cases normalized_skills k (initial_weight reward)) as [-> | ->]; lra.
Qed.

Lemma policy_step_capped (normalized_skills : list string) (reward : Q) (weights : table) :
  positive weights -> capped weights ->
  capped (fst (fst (policy_step normalized_skills reward weights))).
Proof.
  intros Hp Hc k v Hk. unfold max_weight.
  pose proof (policy_step_inv normalized_skills reward weights) as Hinv.
  destruct (policy_step normalized_skills reward weights) as [[w' u] l]. simpl in Hk.
  destruct Hinv as (_ & Hold & Hnew).
  destruct (Dict.get k weights) as [w0 |] eqn:E.
  - rewrite (Hold k w0 E) in Hk. injection Hk as <-. cbv zeta.
    assert (Hv : 0 < reinforce_entry normalized_skills reward k w0
                 /\ reinforce_entry normalized_skills reward k w0 <= 5).
    { unfold reinforce_entry. destruct (matches normalized_skills k).
      - pose proof (reinforce_bounds reward w0) as Hb. apply in_bounds_unfold in Hb. lra.
      - split; [apply (Hp k w0 E) |].
        pose proof (Hc k w0 E) as Hc0. unfold max_weight in Hc0. lra. }
    destruct u; [| lra].
    destruct (decay_entry_cases normalized_skills k
                (reinforce_entry normalized_skills reward k w0)) as [-> | ->]; lra.
  - destruct (Hnew k v E Hk) as (-> & _).
    pose proof (initial_weight_bounds reward) as Hb.
    destruct (decay_entry_cases normalized_skills k (initial_weight reward)) as [-> | ->]; lra.
Qed.

(** What one call of [reward_log] keeps. *)
Lemma reward_log_keeps (exp : Q -> result Q) (candidate_data : pyval) (feedback_score : Q)
      (outcome : string) (weights : table) (e : env) :
  let weights' := fst (fst (reward_log exp candidate_data feedback_score outcome weights e)) in
  (forall k, In k (Dict.keys weights) -> In k (Dict.keys weights'))
  /\ (List.length weights <= List.length weights')%nat
  /\ (positive weights -> positive weights')
  /\ (positive weights -> capped weights -> capped weights').
Proof.
  cbv zeta. rewrite reward_log_table, policy_update_table.
  destruct (lowered_skills candidate_data) as [normalized_skills | x].
  - split; [intros k; apply policy_step_keys_kept |].
    split; [apply policy_step_length |].
    split; [apply policy_step_positive | apply policy_step_capped].
  - repeat split; auto.
Qed.

Lemma service_step_length (exp : Q -> result Q) (events : list feedback) :
  forall (weights : table) (e : env),
    (List.length weights <= List.length (fst (replay exp events weights e)))%nat.
Proof.
  induction events as [| [[c fs] o] rest IH]; intros weights e; simpl; [lia |].
  pose proof (reward_log_keeps exp c fs o weights e) as H1. cbv zeta in H1.
  destruct (reward_log exp c fs o weights e) as [[w1 e1] r1]. simpl in H1.
  specialize (IH w1 e1). lia.
Qed.

(** Over any sequence of feedback calls, also those that fail: no keyword is
    lost, the table never shrinks, positive weights stay positive, and
    positive weights of at most 5.0 stay at most 5.0. *)
Theorem service_invariants (exp : Q -> result Q) (events : list feedback) :
  forall (weights : table) (e : env),
    let weights' := fst (replay exp events weights e) in
    (forall k, In k (Dict.keys weights) -> In k (Dict.keys weights'))
    /\ (List.length weights <= List.length weights')%nat
    /\ (positive weights -> positive weights')
    /\ (positive weights -> capped weights -> capped weights').
Proof.
  induction events as [| [[c fs] o] rest IH]; intros weights e; cbv zeta.
  - simpl. repeat split; auto.
  - simpl.
    pose proof (reward_log_keeps exp c fs o weights e) as H1. cbv zeta in H1.
    destruct (reward_log exp c fs o weights e) as [[w1 e1] r1]. simpl in H1.
    specialize (IH w1 e1). cbv zeta in IH.
    destruct H1 as (K1 & L1 & P1 & C1). destruct IH as (K2 & L2 & P2 & C2).
    split; [auto |]. split; [lia |]. split; auto.
Qed.

Lemma default_weights_positive : positive default_weights /\ capped default_weights.
Proof.
  split; intros k w Hk; simpl in Hk;
    repeat (match type of Hk with
            | (if ?b then _ else _) = _ => destruct b;
                [injection Hk as <-; unfold max_weight, Qlt, Qle; simpl; lia |]
            end); discriminate.
Qed.

Lemma service_invariants_witness :
  let weights' :=
    fst (replay exp_series
           [(candidate ["Python"; "Kubernetes Helm Charts"], 5, "hired");
            (PyNone, 1, "rejected");
            (candidate ["Java"], 1, "rejected")]
           default_weights (healthy Absent)) in
  In "teamwork" (Dict.keys weights') /\ positive weights' /\ capped weights'.
Proof.
  pose proof (service_invariants exp_series
           [(candidate ["Python"; "Kubernetes Helm Charts"], 5, "hired");
            (PyNone, 1, "rejected");
            (candidate ["Java"], 1, "rejected")]
           default_weights (healthy Absent)) as H.
  cbv zeta in H. destruct H as (K & _ & P & C). cbv zeta.
  split; [apply K; simpl; tauto |].
  split; [apply P, default_weights_positive |].
  apply C; apply default_weights_positive.
Defined.

(** ** Construction and restart *)

Lemma init_not_empty (e e0 : env) (weights : table) :
  __init__ e = (e0, Ok weights) -> weights <> [].
Proof.
  unfold __init__. destruct (_load_weights e) as [| kw t] eqn:E; simpl.
  - destruct (_save_weights default_weights e) as [e1 [l | x]]; intros H; inversion H.
    discriminate.
  - intros H. inversion H. discriminate.
Qed.

(** A scorer that was constructed never holds an empty table, however many
    feedback calls it serves: the empty-table branch of [predict_success] is
    taken only for a table set by other means. *)
Theorem constructed_table_never_empty (exp : Q -> result Q) (e e0 : env) (weights : table)
        (events : list feedback) :
  __init__ e = (e0, Ok weights) ->
  fst (replay exp events weights e0) <> [].
Proof.
  intros Hinit Hempty.
  pose proof (init_not_empty e e0 weights Hinit) as Hne.
  pose proof (service_step_length exp events weights e0) as Hlen.
  rewrite Hempty in Hlen. destruct weights; [contradiction | simpl in Hlen; lia].
Qed.

Lemma constructed_table_never_empty_witness :
  fst (replay exp_series [(candidate ["Python"], 5, "hired")] default_weights
              (healthy (Stored default_weights))) <> [].
Proof.
  apply (constructed_table_never_empty exp_series (healthy (Stored [])) _ _ _).
  reflexivity.
Defined.

Lemma policy_update_cases (candidate_data : pyval) (reward : Q) (weights : table) (e : env) :
  can_mkdir e = true -> can_write e = true ->
  let '(weights', e', _) := policy_update candidate_data reward weights e in
  (weights' = weights /\ e' = e) \/ e' = healthy (Stored weights').
Proof.
  intros Hm Hw. unfold policy_update.
  destruct (lowered_skills candidate_data) as [normalized_skills | x]; [| left; auto].
  pose proof (policy_step_unchanged normalized_skills reward weights) as Hun.
  destruct (policy_step normalized_skills reward weights) as [[w' u] l]. simpl in Hun.
  destruct u.
  - rewrite (save_written w' e Hm Hw). right. reflexivity.
  - left. split; [apply Hun; reflexivity | reflexivity].
Qed.

(** What ties the file to the table of a scorer on a disk that can be
    written: the file holds the table, or there is no usable file and the
    table is the fallback of [_load_weights]. *)
Lemma restartable_step (exp : Q -> result Q) (events : list feedback) :
  forall (weights : table) (e : env),
    can_mkdir e = true -> can_write e = true ->
    e = healthy (Stored weights)
    \/ ((weights_file e = Absent \/ weights_file e = Unreadable) /\ weights = fallback_weights) ->
    let '(weights', e') := replay exp events weights e in
    can_mkdir e' = true /\ can_write e' = true
    /\ (e' = healthy (Stored weights')
        \/ ((weights_file e' = Absent \/ weights_file e' = Unreadable)
            /\ weights' = fallback_weights)).
Proof.
  induction events as [| [[c fs] o] rest IH]; intros weights e Hm Hw Hinv; simpl.
  - auto.
  - pose proof (reward_log_state exp c fs o weights e) as Hs.
    pose proof (policy_update_cases c (_calculate_reward fs o) weights e Hm Hw) as Hc.
    destruct (reward_log exp c fs o weights e) as [[w1 e1] r1]. simpl in Hs.
    destruct (policy_update c (_calculate_reward fs o) weights e) as [[w1' e1'] r1'].
    simpl in Hs. injection Hs as <- <-.
    destruct Hc as [[-> ->] | ->].
    + apply IH; assumption.
    + apply IH; [reflexivity | reflexivity | left; reflexivity].
Qed.

(** On a disk that can be written, a scorer can be restarted at any time
    without losing what it learned: after any sequence of feedback calls
    served by a constructed scorer, constructing a new one from the file
    system gives the very table the old one holds in memory, and writes
    nothing. *)
Theorem restart_keeps_learning (exp : Q -> result Q) (e e0 : env) (weights : table)
        (events : list feedback) :
  can_mkdir e = true -> can_write e = true ->
  __init__ e = (e0, Ok weights) ->
  let '(weights', e') := replay exp events weights e0 in
  __init__ e' = (e', Ok weights').
Proof.
  intros Hm Hw Hinit.
  assert (Hne : weights <> []) by (eapply init_not_empty, Hinit).
  assert (H0 : can_mkdir e0 = true /\ can_write e0 = true
               /\ (e0 = healthy (Stored weights)
                   \/ ((weights_file e0 = Absent \/ weights_file e0 = Unreadable)
                       /\ weights = fallback_weights))).
  { revert Hinit. apply can_write_true in Hw.
    destruct e as [f m w]. simpl in Hm, Hw. subst m w.
    unfold __init__, _load_weights, _save_weights. simpl.
    destruct f as [| | t]; simpl.
    - intros H. inversion H. subst. simpl.
      split; [reflexivity |]. split; [reflexivity |]. right. auto.
    - intros H. inversion H. subst. simpl.
      split; [reflexivity |]. split; [reflexivity |]. right. auto.
    - destruct t as [| kw t]; simpl; intros H; inversion H; subst; simpl;
        (split; [reflexivity |]; split; [reflexivity |]; left; reflexivity). }
  destruct H0 as (Hm0 & Hw0 & Hinv).
  pose proof (restartable_step exp events weights e0 Hm0 Hw0 Hinv) as Hr.
  pose proof (service_step_length exp events weights e0) as Hlen.
  destruct (replay exp events weights e0) as [w' e']. simpl in Hlen.
  destruct Hr as (_ & _ & [-> | [[Hf | Hf] ->]]).
  - unfold __init__, _load_weights. simpl.
    destruct w'; [destruct weights; [contradiction | simpl in Hlen; lia] | reflexivity].
  - unfold __init__, _load_weights. rewrite Hf. reflexivity.
  - unfold __init__, _load_weights. rewrite Hf. reflexivity.
Qed.

Lemma restart_keeps_learning_witness :
  let '(weights', e') :=
    replay exp_series [(candidate ["Python"], 5, "hired"); (candidate ["Java"], 1, "rejected")]
           fallback_weights (healthy Absent) in
  __init__ e' = (e', Ok weights').
Proof.
  apply (restart_keeps_learning exp_series (healthy Absent) (healthy Absent) fallback_weights);
    reflexivity.
Defined.

(** ** Decay has no floor *)

Lemma policy_step_decays_unmatched (normalized_skills : list string) (reward : Q)
      (weights : table) (k k' : string) (w0 : Q) :
  Forall lowercase normalized_skills ->
  Dict.get k weights = Some w0 ->
  matches normalized_skills k = false ->
  In k' (Dict.keys weights) -> matches normalized_skills k' = true ->
  Dict.get k (fst (fst (policy_step normalized_skills reward weights))) = Some (w0 * 0.999).
Proof.
  intros Hlow Hk Hm Hin' Hm'.
  pose proof (policy_step_inv normalized_skills reward weights) as Hinv.
  pose proof (policy_step_flag_matched normalized_skills reward weights k' Hin' Hm') as Hf.
  destruct (policy_step normalized_skills reward weights) as [[w' u] l]. simpl in *.
  subst u. destruct Hinv as (_ & Hold & _).
  rewrite (Hold k w0 Hk). cbv zeta. unfold reinforce_entry, decay_entry. rewrite Hm.
  destruct (unmatched_not_listed normalized_skills k Hlow Hm) as [-> _]. reflexivity.
Qed.

(** Decay is geometric and has no floor.  When the same candidate is the
    subject of [n] feedback calls in a row, whatever their scores and
    outcomes, and one keyword of the table is a substring of one of its
    skills, every keyword that is a substring of none of them ends at its old
    weight times [0.999 ^ n]. *)
Theorem decay_is_geometric (exp : Q -> result Q) (candidate_data : pyval)
        (normalized_skills : list string) (k k' : string) (scores : list (Q * string)) :
  lowered_skills candidate_data = Ok normalized_skills ->
  matches normalized_skills k = false ->
  matches normalized_skills k' = true ->
  forall (weights : table) (e : env) (w0 : Q),
    Dict.get k weights = Some w0 ->
    In k' (Dict.keys weights) ->
    let events := map (fun so : Q * string => (candidate_data, fst so, snd so)) scores in
    exists v, Dict.get k (fst (replay exp events weights e)) = Some v
              /\ v == w0 * 0.999 ^ Z.of_nat (List.length scores).
Proof.
  intros Hn Hm Hm'.
  pose proof (lowered_skills_lowercase _ _ Hn) as Hlow.
  induction scores as [| [fs o] rest IH]; intros weights e w0 Hk Hin'; cbv zeta.
  - simpl. exists w0. split; [exact Hk |]. simpl. ring.
  - simpl map. simpl replay.
    pose proof (reward_log_table exp candidate_data fs o weights e) as Ht.
    rewrite policy_update_table, Hn in Ht.
    destruct (reward_log exp candidate_data fs o weights e) as [[w1 e1] r1]. simpl in Ht.
    pose proof (policy_step_decays_unmatched normalized_skills (_calculate_reward fs o)
                  weights k k' w0 Hlow Hk Hm Hin' Hm') as Hk1.
    pose proof (policy_step_keys_kept normalized_skills (_calculate_reward fs o)
                  weights k' Hin') as Hin1.
    rewrite <- Ht in Hk1, Hin1.
    destruct (IH w1 e1 (w0 * 0.999) Hk1 Hin1) as [v [Hv Ev]].
    exists v. split; [exact Hv |]. rewrite Ev.
    replace (Z.of_nat (List.length ((fs, o) :: rest)))
      with (Z.of_nat (List.length rest) + 1)%Z by (simpl List.length; lia).
    rewrite Qpower_plus by (intros H; discriminate H).
    simpl. ring.
Qed.

Lemma decay_is_geometric_witness :
  exists v,
    Dict.get "java"
      (fst (replay exp_series
              (map (fun so : Q * string => (candidate ["Python"], fst so, snd so))
                   [(5, "hired"); (1, "rejected"); (3, "maybe")])
              default_weights (healthy Absent)))
    = Some v
    /\ v == 1.1 * 0.999 ^ 3.
Proof.
  apply (decay_is_geometric exp_series (candidate ["Python"]) ["python"] "java" "python"
           [(5, "hired"); (1, "rejected"); (3, "maybe")]).
  - reflexivity.
  - reflexivity.
  - reflexivity.
  - reflexivity.
  - simpl. tauto.
Defined.

(** ** Neutral feedback is not a no-op *)

Lemma policy_step_flag_low (normalized_skills : list string) (reward : Q) (weights : table) :
  reward <= 0.3 ->
  snd (fst (policy_step normalized_skills reward weights))
  = existsb (matches normalized_skills) (Dict.keys weights).
Proof.
  intros Hr. unfold policy_step. apply Qgtb_false in Hr. rewrite Hr.
  pose proof (update_existing_flag normalized_skills reward weights) as Hf.
  destruct (update_existing normalized_skills reward weights) as [[w1 u1] l1]. simpl in Hf.
  destruct u1; simpl; exact Hf.
Qed.

(** A reward of zero (a feedback score of 3 with an outcome outside the
    vocabulary) moves no keyword that is one of the lowercased skills, but
    the call still counts as an update as soon as a keyword is a substring of
    a skill: every other keyword of a table within bounds then loses a
    thousandth of its weight. *)
Theorem neutral_feedback_decays (normalized_skills : list string) (reward : Q)
        (weights : table) (k : string) (w0 : Q) :
  reward == 0 ->
  Forall lowercase normalized_skills ->
  Dict.get k weights = Some w0 ->
  in_bounds w0 ->
  exists v,
    Dict.get k (fst (fst (policy_step normalized_skills reward weights))) = Some v
    /\ v == if andb (existsb (matches normalized_skills) (Dict.keys weights))
                    (negb (Str.mem k normalized_skills))
            then w0 * 0.999 else w0.
Proof.
  intros Hr Hlow Hk Hb.
  pose proof (policy_step_inv normalized_skills reward weights) as Hinv.
  pose proof (policy_step_flag_low normalized_skills reward weights) as Hf.
  destruct (policy_step normalized_skills reward weights) as [[w' u] l]. simpl in *.
  destruct Hinv as (_ & Hold & _).
  assert (Hu : u = existsb (matches normalized_skills) (Dict.keys weights)).
  { apply Hf. rewrite Hr. unfold Qle. simpl. lia. }
  eexists. split; [apply (Hold k w0 Hk) |]. cbv zeta. rewrite Hu.
  assert (Hre : reinforce_entry normalized_skills reward k w0 == w0).
  { unfold reinforce_entry. destruct (matches normalized_skills k); [| reflexivity].
    unfold reinforce, learning_rate. apply in_bounds_unfold in Hb.
    rewrite clamp_id; rewrite Hr; lra. }
  destruct (existsb (matches normalized_skills) (Dict.keys weights)); simpl; [| exact Hre].
  unfold decay_entry. rewrite (map_lower_lowercase _ Hlow).
  destruct (Str.mem k normalized_skills); simpl; [exact Hre |].
  rewrite Hre. reflexivity.
Qed.

Lemma neutral_feedback_decays_witness :
  _calculate_reward 3 "on hold" == 0
  /\ exists v,
       Dict.get "java" (fst (fst (policy_step ["python"] (_calculate_reward 3 "on hold")
                                              default_weights))) = Some v
       /\ v == 1.1 * 0.999.
Proof.
  split; [reflexivity |].
  apply (neutral_feedback_decays ["python"] (_calculate_reward 3 "on hold") default_weights
           "java" 1.1).
  - reflexivity.
  - repeat constructor.
  - reflexivity.
  - split; unfold Qle; simpl; lia.
Defined.

Lemma Ok_inj {A : Type} (a b : A) : Ok a = Ok b -> a = b.
Proof. intros H. injection H as H. exact H. Qed.

(** ** Sorting by weight *)

Lemma insert_desc_perm (x : string * Q) (l : table) : Permutation (insert_desc x l) (x :: l).
Proof.
  induction l as [| y l IH]; simpl; [reflexivity |].
  destruct (Qle_bool (snd y) (snd x)); [reflexivity |].
  rewrite IH. apply perm_swap.
Qed.

Lemma sorted_desc_perm (t : table) : Permutation (sorted_desc t) t.
Proof.
  induction t as [| x t IH]; simpl; [reflexivity |].
  rewrite insert_desc_perm. constructor. exact IH.
Qed.

Lemma sorted_desc_length (t : table) : List.length (sorted_desc t) = List.length t.
Proof. apply Permutation_length, sorted_desc_perm. Qed.

Lemma sorted_desc_In (t : table) (x : string * Q) : In x (sorted_desc t) <-> In x t.
Proof.
  split; apply Permutation_in; [| symmetry]; apply sorted_desc_perm.
Qed.

Lemma insert_desc_descending (x : string * Q) (l : table) :
  descending l -> descending (insert_desc x l).
Proof.
  unfold descending. induction 1 as [| y l Hl IH Hy]; simpl.
  - constructor; constructor.
  - destruct (Qle_bool (snd y) (snd x)) eqn:E.
    + apply Qle_bool_iff in E. constructor; [constructor; assumption |].
      constructor; [exact E |].
      rewrite Forall_forall in *. intros z Hz. specialize (Hy z Hz). lra.
    + assert (Hlt : snd x < snd y).
      { destruct (Qlt_le_dec (snd x) (snd y)) as [H | H]; [exact H |].
        apply Qle_bool_iff in H. congruence. }
      constructor; [exact IH |].
      rewrite Forall_forall in *. intros z Hz.
      apply (Permutation_in _ (insert_desc_perm x l)) in Hz.
      destruct Hz as [<- | Hz]; [lra | apply Hy, Hz].
Qed.

Lemma sorted_desc_descending (t : table) : descending (sorted_desc t).
Proof.
  induction t as [| x t IH]; simpl; [constructor |].
  apply insert_desc_descending, IH.
Qed.

Lemma descending_app (a b : table) :
  descending (a ++ b) ->
  descending a /\ forall x y, In x a -> In y b -> snd y <= snd x.
Proof.
  unfold descending. induction a as [| z a IH]; simpl; intros H.
  - split; [constructor | intros x y []].
  - inversion H as [| ? ? Hs Hz]; subst. destruct (IH Hs) as [Ha Hab]. split.
    + constructor; [exact Ha |]. rewrite Forall_forall in *. intros u Hu.
      apply Hz, in_or_app. auto.
    + intros x y [<- | Hx] Hy; [| apply Hab; assumption].
      rewrite Forall_forall in Hz. apply Hz, in_or_app. auto.
Qed.

Lemma firstn_In_incl {A : Type} (n : nat) (l : list A) (x : A) :
  In x (firstn n l) -> In x l.
Proof.
  intros H. rewrite <- (firstn_skipn n l). apply in_or_app. auto.
Qed.

(** The first [n] entries of the sorted table: they are entries of the
    table, heaviest first, and no entry left out is heavier than one of
    them. *)
Lemma top_entries (n : nat) (t : table) :
  let top := firstn n (sorted_desc t) in
  List.length top = Nat.min n (List.length t)
  /\ descending top
  /\ (forall x, In x top -> In x t)
  /\ (forall x y, In x top -> In y t -> ~ In y top -> snd y <= snd x).
Proof.
  cbv zeta.
  pose proof (sorted_desc_descending t) as Hd.
  rewrite <- (firstn_skipn n (sorted_desc t)) in Hd.
  destruct (descending_app _ _ Hd) as [Htop Hdom].
  split; [rewrite length_firstn, sorted_desc_length; reflexivity |].
  split; [exact Htop |]. split.
  - intros x Hx. apply sorted_desc_In. revert Hx. apply firstn_In_incl.
  - intros x y Hx Hy Hny. apply Hdom; [exact Hx |].
    apply sorted_desc_In in Hy. rewrite <- (firstn_skipn n (sorted_desc t)) in Hy.
    apply in_app_or in Hy. tauto.
Qed.

(** ** [get_recommendations] *)

Lemma rl_recommendations_sound (top : table) (r : recommendation) :
  In r (rl_recommendations top) ->
  match r with
  | StrongMatch skill weight => In (skill, weight) top /\ 1.2 < weight
  | GoodPotential skill weight => In (skill, weight) top /\ 1.0 < weight /\ weight <= 1.2
  | _ => False
  end.
Proof.
  induction top as [| [skill weight] rest IH]; simpl; [intros [] |].
  destruct (Qgtb weight 1.2) eqn:E1.
  - intros [<- | H].
    + split; [auto | apply Qgtb_true, E1].
    + specialize (IH H). destruct r; try contradiction; intuition.
  - destruct (Qgtb weight 1.0) eqn:E2.
    + intros [<- | H].
      * split; [auto |]. split; [apply Qgtb_true, E2 | apply Qgtb_false, E1].
      * specialize (IH H). destruct r; try contradiction; intuition.
    + intros H. specialize (IH H). destruct r; try contradiction; intuition.
Qed.

Lemma rl_recommendations_length (top : table) :
  (List.length (rl_recommendations top) <= List.length top)%nat.
Proof.
  induction top as [| [skill weight] rest IH]; simpl; [lia |].
  destruct (Qgtb weight 1.2); simpl; [lia |].
  destruct (Qgtb weight 1.0); simpl; lia.
Qed.

Lemma get_recommendations_length (api_recommendations : result pyval) (weights : table) :
  (List.length (get_recommendations api_recommendations weights) <= 10)%nat.
Proof.
  unfold get_recommendations.
  assert (Hfall : (List.length (map (fun sw : string * Q => ConsiderSkill (fst sw) (snd sw))
                                    (firstn 3 (sorted_desc weights))) <= 10)%nat).
  { rewrite length_map, length_firstn. lia. }
  destruct api_recommendations as [api | x]; cbn [bind]; [| exact Hfall].
  destruct api as [| q | s | l | d]; cbn [bind]; try exact Hfall.
  rewrite length_firstn. lia.
Qed.

(** [get_recommendations] answers with at most ten lines, whatever the
    recommendation service does.  A line written by the scorer names a
    keyword of the table with its weight: "Strong match" only above 1.2,
    "Good potential" only in (1.0, 1.2]; the line on the size of the table
    appears only for more than ten keywords and gives their number. *)
Theorem recommendations_sound (api_recommendations : result pyval) (weights : table) :
  (List.length (get_recommendations api_recommendations weights) <= 10)%nat
  /\ forall r, In r (get_recommendations api_recommendations weights) ->
       match r with
       | ApiLine _ => True
       | StrongMatch skill weight => In (skill, weight) weights /\ 1.2 < weight
       | GoodPotential skill weight =>
           In (skill, weight) weights /\ 1.0 < weight /\ weight <= 1.2
       | BrainLearned n => n = List.length weights /\ (10 < n)%nat
       | ConsiderSkill skill weight => In (skill, weight) weights
       end.
Proof.
  assert (Hfall : (List.length (map (fun sw : string * Q => ConsiderSkill (fst sw) (snd sw))
                                    (firstn 3 (sorted_desc weights))) <= 10)%nat
                  /\ forall r, In r (map (fun sw : string * Q => ConsiderSkill (fst sw) (snd sw))
                                         (firstn 3 (sorted_desc weights))) ->
                       match r with
                       | ApiLine _ => True
                       | StrongMatch skill weight => In (skill, weight) weights /\ 1.2 < weight
                       | GoodPotential skill weight =>
                           In (skill, weight) weights /\ 1.0 < weight /\ weight <= 1.2
                       | BrainLearned n => n = List.length weights /\ (10 < n)%nat
                       | ConsiderSkill skill weight => In (skill, weight) weights
                       end).
  { split.
    - rewrite length_map, length_firstn. lia.
    - intros r Hr. apply in_map_iff in Hr as [[k w] [<- Hin]]. cbn [fst snd].
      apply sorted_desc_In. eapply firstn_In_incl, Hin. }
  unfold get_recommendations.
  destruct api_recommendations as [api | x]; cbn [bind]; [| exact Hfall].
  destruct api as [| q | s | l | d]; cbn [bind]; try exact Hfall.
  clear Hfall. split; [rewrite length_firstn; lia |].
  intros r Hr. apply firstn_In_incl in Hr.
  assert (Hall : In r (map ApiLine l ++ rl_recommendations (firstn 5 (sorted_desc weights)))
                 \/ (r = BrainLearned (List.length weights)
                     /\ (10 <? List.length weights)%nat = true)).
  { destruct (10 <? List.length weights)%nat; [| left; exact Hr].
    apply in_app_or in Hr. destruct Hr as [Hr | [<- | []]]; auto. }
  destruct Hall as [Hall | [-> Hn]].
  - apply in_app_or in Hall. destruct Hall as [Ha | Hrl].
    + apply in_map_iff in Ha as [v [<- _]]. exact I.
    + pose proof (rl_recommendations_sound _ _ Hrl) as Hs.
      destruct r; try contradiction.
      * destruct Hs as [Hin Hw]. split; [| exact Hw].
        apply sorted_desc_In. eapply firstn_In_incl, Hin.
      * destruct Hs as [Hin Hw]. split; [| exact Hw].
        apply sorted_desc_In. eapply firstn_In_incl, Hin.
  - split; [reflexivity |]. apply Nat.ltb_lt, Hn.
Qed.

Example recommendations_of_bootstrap :
  get_recommendations (Ok (PyList [PyStr "Schedule a call"])) default_weights
  = [ ApiLine (PyStr "Schedule a call");
      StrongMatch "ai" 1.3; StrongMatch "machine learning" 1.3; StrongMatch "ml" 1.3;
      GoodPotential "python" 1.2; GoodPotential "data science" 1.2;
      BrainLearned 19 ]
  /\ get_recommendations (Raise OSError) default_weights
     = [ ConsiderSkill "ai" 1.3; ConsiderSkill "machine learning" 1.3; ConsiderSkill "ml" 1.3 ].
Proof. split; reflexivity. Qed.

(** ** [get_platform_insights] *)

(** When [get_platform_insights] answers, it lists the five heaviest
    keywords (all of them when the table holds fewer), heaviest first, each
    with the weight the table gives it; no keyword left out is heavier than a
    listed one; and the count of active skills is at most the count of
    skills.  It answers whenever the dashboard answer is a dictionary. *)
Theorem platform_insights_sound (dashboard : pyval) (weights : table) :
  (forall d, dashboard = PyDict d ->
             exists i, Adapter.get_platform_insights dashboard weights = Ok i)
  /\ forall i, Adapter.get_platform_insights dashboard weights = Ok i ->
       Adapter.total_skills_learned i = List.length weights
       /\ (Adapter.active_skills i <= Adapter.total_skills_learned i)%nat
       /\ Adapter.top_skills i = map fst (Adapter.skill_weights i)
       /\ List.length (Adapter.skill_weights i) = Nat.min 5 (List.length weights)
       /\ descending (Adapter.skill_weights i)
       /\ (forall x, In x (Adapter.skill_weights i) -> In x weights)
       /\ (forall x y, In x (Adapter.skill_weights i) -> In y weights ->
             ~ In y (Adapter.skill_weights i) -> snd y <= snd x).
Proof.
  unfold Adapter.get_platform_insights. split.
  - intros d ->. simpl. eexists. reflexivity.
  - intros i Hi.
    unfold bind in Hi.
    destruct (py_get "total_candidates" (PyNum 0) dashboard) as [total |]; [| discriminate].
    destruct (py_get "avg_match_score" (PyNum 0) dashboard) as [avg |]; [| discriminate].
    apply Ok_inj in Hi. subst i.
    unfold Adapter.total_skills_learned, Adapter.active_skills, Adapter.top_skills,
      Adapter.skill_weights.
    assert (E : firstn 5 (firstn 10 (sorted_desc weights)) = firstn 5 (sorted_desc weights)).
    { rewrite firstn_firstn. reflexivity. }
    rewrite E. destruct (top_entries 5 weights) as (H1 & H2 & H3 & H4).
    split; [reflexivity |]. split.
    { unfold Dict.values. etransitivity; [apply filter_length_le |].
      rewrite length_map. lia. }
    split; [reflexivity |]. split; [exact H1 |]. split; [exact H2 |].
    split; [exact H3 | exact H4].
Qed.

Lemma platform_insights_sound_witness :
  exists i, Adapter.get_platform_insights (PyDict []) default_weights = Ok i
            /\ Adapter.top_skills i = ["ai"; "machine learning"; "ml"; "python"; "data science"]
            /\ Adapter.active_skills i = 7%nat.
Proof.
  destruct (proj1 (platform_insights_sound (PyDict []) default_weights) [] eq_refl) as [i Hi].
  exists i. split; [exact Hi |].
  vm_compute in Hi. injection Hi as <-. split; reflexivity.
Defined.

(** ** [analyze_candidate] *)

Lemma predict_success_range (exp : Q -> result Q) (weights : table) (candidate_data : pyval) :
  0.05 <= predict_success exp weights candidate_data
  /\ predict_success exp weights candidate_data <= 0.95.
Proof.
  assert (Hbase : 0.05 <= 0.2 /\ 0.2 <= 0.95) by (split; unfold Qle; simpl; lia).
  unfold predict_success, predict_body.
  destruct (py_get "skills" (PyList []) candidate_data) as [skills | x]; simpl; [| exact Hbase].
  destruct (truthy skills); simpl; [| exact Hbase].
  destruct (py_iter skills) as [elems | x]; simpl; [| exact Hbase].
  destruct (mapM _ elems) as [normalized_skills | x]; simpl; [| exact Hbase].
  destruct (normalized_score weights normalized_skills) as [ns | x]; simpl; [| exact Hbase].
  destruct (exp _) as [ev | x]; simpl; [| exact Hbase].
  destruct (pydiv 1 (1 + ev)) as [probability | x]; simpl; [| exact Hbase].
  destruct (clamp_bounds 0.05 0.95 probability) as [H1 H2]; [unfold Qle; simpl; lia |].
  apply round3_bounds; assumption.
Qed.

Lemma count_nonneg (n : nat) : 0 <= count n.
Proof. unfold count. change 0 with (inject_Z 0). rewrite <- Zle_Qle. lia. Qed.

Lemma count_pos (n : nat) : (0 < n)%nat -> 0 < count n.
Proof. intros H. unfold count. change 0 with (inject_Z 0). rewrite <- Zlt_Qlt. lia. Qed.

Lemma count_le (m n : nat) : (m <= n)%nat -> count m <= count n.
Proof. intros H. unfold count. rewrite <- Zle_Qle. lia. Qed.

Lemma ratio_nonneg (m n : nat) : 0 <= count m / count (Nat.max n 1).
Proof.
  apply Qle_shift_div_l; [apply count_pos; lia |].
  rewrite Qmult_0_l. apply count_nonneg.
Qed.

Lemma ratio_le_1 (m n : nat) : (m <= n)%nat -> count m / count (Nat.max n 1) <= 1.
Proof.
  intros H. apply Qle_shift_div_r; [apply count_pos; lia |].
  rewrite Qmult_1_l. apply count_le. lia.
Qed.

Lemma assoc_pd_set_other (k k' : string) (v : pyval) (d : pydict) :
  k <> k' -> assoc k (pd_set k' v d) = assoc k d.
Proof.
  intros Hne. induction d as [| [k0 v0] d IH]; simpl.
  - apply String.eqb_neq in Hne. rewrite Hne. reflexivity.
  - destruct (String.eqb k' k0) eqn:E; simpl.
    + apply String.eqb_eq in E. subst k0.
      apply String.eqb_neq in Hne. rewrite Hne. reflexivity.
    + rewrite IH. reflexivity.
Qed.

(** [d.update(other)] leaves alone the keys [other] does not have. *)
Lemma assoc_pd_update (k : string) (other d : pydict) :
  assoc k other = None -> assoc k (pd_update d other) = assoc k d.
Proof.
  unfold pd_update. revert d. induction other as [| [k0 v0] other IH]; intros d H; simpl.
  - reflexivity.
  - simpl in H. destruct (String.eqb k k0) eqn:E; [discriminate |].
    rewrite (IH _ H). apply assoc_pd_set_other. apply String.eqb_neq, E.
Qed.

(** [analyze_candidate] always answers.  Unless the analysis service sends
    a field of the same name, the answer carries the prediction of
    [predict_success] under "rl_success_probability", and either a
    confidence between 0.2 and 0.95 with the status "ACTIVE", or, when the
    skills cannot be read, no confidence and the status "ACTIVE_FALLBACK". *)
Theorem analysis_sound (exp : Q -> result Q) (now : string) (describe : exn -> string)
        (api_result : pydict) (weights : table) (candidate_data : pyval) :
  let answer := analyze_candidate exp now describe api_result weights candidate_data in
  (assoc "rl_success_probability" api_result = None ->
   assoc "rl_success_probability" answer
   = Some (PyNum (predict_success exp weights candidate_data)))
  /\ (assoc "rl_confidence" api_result = None ->
      assoc "rl_status" api_result = None ->
      (exists q, assoc "rl_confidence" answer = Some (PyNum q) /\ 0.2 <= q /\ q <= 0.95
                 /\ assoc "rl_status" answer = Some (PyStr "ACTIVE"))
      \/ (assoc "rl_confidence" answer = None
          /\ assoc "rl_status" answer = Some (PyStr "ACTIVE_FALLBACK")
          /\ exists x, analyze_body exp now api_result weights candidate_data = Raise x)).
Proof.
  cbv zeta. unfold analyze_candidate.
  destruct (analyze_body exp now api_result weights candidate_data) as [result | x] eqn:Hb.
  2:{ split; [reflexivity |]. intros _ _. right. repeat split. exists x. reflexivity. }
  unfold analyze_body in Hb. unfold bind in Hb.
  destruct (py_get "skills" (PyList []) candidate_data) as [skills |]; [| discriminate].
  destruct (py_iter skills) as [elems |]; [| discriminate].
  destruct (matched_weights weights elems) as [matched |]; [| discriminate].
  apply Ok_inj in Hb. subst result.
  set (confidence := pymin 0.95 (count (List.length matched)
                                 / count (Nat.max (List.length elems) 1) * 0.8 + 0.2)).
  assert (Hc : 0.2 <= confidence /\ confidence <= 0.95).
  { unfold confidence.
    pose proof (ratio_nonneg (List.length matched) (List.length elems)) as Hr.
    destruct (pymin_cases 0.95 (count (List.length matched)
                                / count (Nat.max (List.length elems) 1) * 0.8 + 0.2))
      as [[H1 ->] | [H1 ->]]; lra. }
  destruct (andb (truthy (PyDict api_result)) (negb (pd_has "error" api_result))).
  - split.
    + intros H. rewrite (assoc_pd_update _ _ _ H). reflexivity.
    + intros H1 H2. left. exists confidence.
      rewrite (assoc_pd_update _ _ _ H1), (assoc_pd_update _ _ _ H2).
      split; [reflexivity |]. split; [apply Hc |]. split; [apply Hc | reflexivity].
  - split; [reflexivity |]. intros _ _. left. exists confidence.
    split; [reflexivity |]. split; [apply Hc |]. split; [apply Hc | reflexivity].
Qed.

Lemma analysis_sound_witness :
  assoc "rl_success_probability"
        (analyze_candidate exp_series "2024-01-01T00:00:00" (fun _ => "error")
                           [("summary", PyStr "ok")] default_weights (candidate ["Python"]))
  = Some (PyNum (predict_success exp_series default_weights (candidate ["Python"]))).
Proof.
  apply (proj1 (analysis_sound exp_series "2024-01-01T00:00:00" (fun _ => "error")
                               [("summary", PyStr "ok")] default_weights
                               (candidate ["Python"]))).
  reflexivity.
Defined.

(** In [analyze_candidate] a skill counts once for every keyword related to
    it, so the ratio can pass 1 and the confidence sticks at the cap. *)
Example analysis_confidence_at_cap :
  assoc "rl_confidence"
        (analyze_candidate exp_series "2024-01-01T00:00:00" (fun _ => "error") []
                           [("java", 1.1); ("javascript", 1.0)] (candidate ["JavaScript"]))
  = Some (PyNum 0.95)
  /\ assoc "rl_matched_skills"
           (analyze_candidate exp_series "2024-01-01T00:00:00" (fun _ => "error") []
                              [("java", 1.1); ("javascript", 1.0)] (candidate ["JavaScript"]))
     = Some (PyNum (count 2)).
Proof. split; reflexivity. Qed.

(** ** [feedback_loop] and [process_feedback] *)

Lemma reward_log_ok (exp : Q -> result Q) (candidate_data : pyval) (feedback_score : Q)
      (outcome : string) (weights : table) (e : env) (weights' : table) (e' : env)
      (l : learning) :
  reward_log exp candidate_data feedback_score outcome weights e = (weights', e', Ok l) ->
  exists normalized_skills,
    lowered_skills candidate_data = Ok normalized_skills
    /\ weights' = fst (fst (policy_step normalized_skills
                              (_calculate_reward feedback_score outcome) weights)).
Proof.
  intros H.
  pose proof (reward_log_table exp candidate_data feedback_score outcome weights e) as Ht.
  rewrite H, policy_update_table in Ht. simpl in Ht.
  unfold reward_log, policy_update in H.
  destruct (lowered_skills candidate_data) as [normalized_skills | x]; [| discriminate].
  exists normalized_skills. split; [reflexivity | exact Ht].
Qed.

(** How [reward_log] can end. *)
Lemma reward_log_ends (exp : Q -> result Q) (candidate_data : pyval) (feedback_score : Q)
      (outcome : string) (weights : table) (e : env) :
  let '(weights', e', r) := reward_log exp candidate_data feedback_score outcome weights e in
  match r with
  | Ok l => True
  | Raise x =>
      (lowered_skills candidate_data = Raise x /\ weights' = weights /\ e' = e)
      \/ (x = OSError /\ can_mkdir e = false /\ e' = e
          /\ exists normalized_skills,
               lowered_skills candidate_data = Ok normalized_skills
               /\ fst (policy_step normalized_skills
                            (_calculate_reward feedback_score outcome) weights)
                  = (weights', true))
  end.
Proof.
  unfold reward_log, policy_update.
  destruct (lowered_skills candidate_data) as [normalized_skills | x].
  2:{ left. auto. }
  destruct (policy_step normalized_skills (_calculate_reward feedback_score outcome) weights)
    as [[w' u] l] eqn:E.
  destruct u; [| exact I].
  unfold _save_weights. destruct (can_mkdir e) eqn:Hm.
  - destruct (on_write e); exact I.
  - right. split; [reflexivity |]. split; [reflexivity |]. split; [reflexivity |].
    exists normalized_skills. split; [reflexivity |]. rewrite E. reflexivity.
Qed.

(** [feedback_loop] always answers.  When it reports an update, the learning
    delta is the difference of two predictions and lies in [[-0.9, 0.9]], and
    the count it gives is the size of the table it leaves, never below the
    size it found.  It reports a failure in two cases only: the skills do
    not normalise, and then neither the table nor the file has changed; or
    the table was updated in memory and the data directory could not be
    made. *)
Theorem feedback_loop_answers (exp : Q -> result Q) (candidate_data : pyval) (score : Q)
        (outcome : string) (weights : table) (e : env) :
  let '(weights', e', answer) :=
    Adapter.feedback_loop exp candidate_data score outcome weights e in
  match answer with
  | Adapter.brain_updated_active before after delta n =>
      delta = after - before /\ - 0.9 <= delta /\ delta <= 0.9
      /\ n = List.length weights' /\ (List.length weights <= n)%nat
  | Adapter.brain_update_failed x =>
      (lowered_skills candidate_data = Raise x /\ weights' = weights /\ e' = e)
      \/ (x = OSError /\ can_mkdir e = false /\ e' = e)
  end.
Proof.
  unfold Adapter.feedback_loop.
  pose proof (reward_log_ends exp candidate_data score outcome weights e) as Hend.
  pose proof (reward_log_keeps exp candidate_data score outcome weights e) as Hkeep.
  destruct (reward_log exp candidate_data score outcome weights e) as [[w' e'] [l | x]].
  - cbv zeta in Hkeep. simpl in Hkeep. destruct Hkeep as (_ & Hlen & _).
    pose proof (predict_success_range exp weights candidate_data) as [H1 H2].
    pose proof (predict_success_range exp w' candidate_data) as [H3 H4].
    split; [reflexivity |]. repeat split; try lra; exact Hlen.
  - destruct Hend as [H | (H1 & H2 & H3 & _)]; [left; exact H | right; auto].
Qed.

Example feedback_loop_on_malformed_skills :
  Adapter.feedback_loop exp_series (PyDict [("skills", PyList [PyNum 123])]) 5 "hired"
                        default_weights (healthy Absent)
  = (default_weights, healthy Absent, Adapter.brain_update_failed AttributeError).
Proof. reflexivity. Qed.

Lemma Qabs_gt (x a : Q) : Qgtb (Qabs x) a = true -> x < - a \/ a < x.
Proof.
  intros H. apply Qgtb_true in H. revert H. apply Qabs_case; intros H1 H2; [right | left]; lra.
Qed.

(** When [process_feedback] answers, the number of new skills it reports is
    not negative and at most the number of skills of the candidate, the
    learning delta lies in [[-0.9, 0.9]], and the impact is "significant"
    only for a delta beyond 0.1 and "minimal" only for one within 0.05. *)
Theorem process_feedback_metrics (exp : Q -> result Q) (candidate_data : pyval)
        (feedback_score : Q) (outcome : string) (weights : table) (e : env)
        (m : Router.learning_metrics) :
  snd (Router.process_feedback exp candidate_data feedback_score outcome weights e) = Ok m ->
  exists normalized_skills,
    lowered_skills candidate_data = Ok normalized_skills
    /\ (0 <= Router.new_skills_learned m <= Z.of_nat (List.length normalized_skills))%Z
    /\ Router.weights_after m
       = List.length (fst (fst (Router.process_feedback exp candidate_data feedback_score
                                                          outcome weights e)))
    /\ - 0.9 <= Router.learning_delta m /\ Router.learning_delta m <= 0.9
    /\ (Router.metrics_impact m = Router.significant ->
        Router.learning_delta m < - 0.1 \/ 0.1 < Router.learning_delta m)
    /\ (Router.metrics_impact m = Router.minimal ->
        - 0.05 <= Router.learning_delta m /\ Router.learning_delta m <= 0.05).
Proof.
  unfold Router.process_feedback.
  pose proof (reward_log_ok exp candidate_data feedback_score outcome weights e) as Hok.
  destruct (reward_log exp candidate_data feedback_score outcome weights e) as [[w' e'] [l | x]];
    simpl; [| discriminate].
  intros Hm. apply Ok_inj in Hm. subst m.
  destruct (Hok w' e' l eq_refl) as [normalized_skills [Hn Hw]].
  exists normalized_skills. split; [exact Hn |].
  pose proof (policy_step_length normalized_skills (_calculate_reward feedback_score outcome)
                weights) as Hlen.
  cbv zeta in Hlen. rewrite <- Hw in Hlen.
  unfold Router.new_skills_learned, Router.weights_after, Router.learning_delta,
    Router.metrics_impact.
  split; [lia |]. split; [reflexivity |].
  pose proof (predict_success_range exp weights candidate_data) as [H1 H2].
  pose proof (predict_success_range exp w' candidate_data) as [H3 H4].
  split; [lra |]. split; [lra |].
  unfold Router.learning_impact. split.
  - destruct (Qgtb (Qabs _) 0.1) eqn:E1;
      [intros _; destruct (Qabs_gt _ _ E1); [left | right]; lra |].
    destruct (Qgtb (Qabs _) 0.05); discriminate.
  - destruct (Qgtb (Qabs _) 0.1) eqn:E1; [discriminate |].
    destruct (Qgtb (Qabs _) 0.05) eqn:E2; [discriminate |]. intros _.
    apply Qgtb_false in E2. revert E2. apply Qabs_case; intros; lra.
Qed.

Lemma process_feedback_metrics_witness :
  exists normalized_skills,
    lowered_skills (candidate ["Python"; "Kubernetes Helm Charts"]) = Ok normalized_skills
    /\ (0 <= 1 <= Z.of_nat (List.length normalized_skills))%Z.
Proof.
  edestruct (process_feedback_metrics exp_series (candidate ["Python"; "Kubernetes Helm Charts"])
               5 "hired" default_weights (healthy Absent))
    as [n (Hn & Hnew & _)].
  - vm_compute. reflexivity.
  - exists n. split; [exact Hn | exact Hnew].
Defined.

(** ** [make_decision] *)

Lemma count_matches_bound (weights : table) (skills : list pyval) :
  forall (matched : nat) (total : Q) (matched' : nat) (total' : Q),
    Router.count_matches weights skills matched total = Ok (matched', total') ->
    (matched <= matched' <= matched + List.length skills)%nat.
Proof.
  induction skills as [| skill rest IH]; intros matched total matched' total' H; simpl in H.
  - apply Ok_inj in H. injection H as <- _. simpl. lia.
  - destruct (Router.match_skill weights skill) as [[w |] |]; simpl in H; [| | discriminate].
    + apply IH in H. simpl. lia.
    + apply IH in H. simpl. lia.
Qed.

Lemma contributing_candidate_data (top : table) (skills : list pyval) (fs : list Router.factor) :
  Router.contributing top skills = Ok fs ->
  forall f, In f fs ->
    In (Router.factor_skill f, Router.factor_weight f) top
    /\ Router.impact_positive f = Qgtb (Router.factor_weight f) 1.0.
Proof.
  revert fs. induction skills as [| skill rest IH]; intros fs H f Hf; simpl in H.
  - apply Ok_inj in H. subst fs. destruct Hf.
  - destruct (Router.factors_of top skill) as [f1 |] eqn:E1; simpl in H; [| discriminate].
    destruct (Router.contributing top rest) as [f2 |]; simpl in H; [| discriminate].
    apply Ok_inj in H. subst fs. apply in_app_or in Hf. destruct Hf as [Hf | Hf].
    + unfold Router.factors_of in E1. destruct top as [| kw top']; [apply Ok_inj in E1; subst; destruct Hf |].
      destruct skill; try discriminate. apply Ok_inj in E1. subst f1.
      apply in_map_iff in Hf as [[k w] [<- Hin]]. apply filter_In in Hin as [Hin _].
      split; [exact Hin | reflexivity].
    + apply (IH f2 eq_refl f Hf).
Qed.

(** When [make_decision] answers: the number of matched skills is at most
    the number of skills, the confidence is [matched / max(skills, 1) * 0.7 +
    0.25] and so lies between 0.25 and 0.95 (the cap of 0.95 is never the
    smaller argument), the success probability lies in [[0.05, 0.95]], at most
    three contributing factors and ten recommendations are given, and every
    factor is one of the five heaviest keywords with its weight. *)
Theorem decision_answer_sound (exp : Q -> result Q) (api_recommendations : result pyval)
        (weights : table) (candidate_data : pyval) (a : Router.decision_answer) :
  Router.make_decision exp api_recommendations weights candidate_data = Ok a ->
  (Router.matched_skills a <= Router.total_skills_evaluated a)%nat
  /\ Router.confidence a
     == count (Router.matched_skills a)
        / count (Nat.max (Router.total_skills_evaluated a) 1) * 0.7 + 0.25
  /\ 0.25 <= Router.confidence a /\ Router.confidence a <= 0.95
  /\ 0.05 <= Router.success_probability a /\ Router.success_probability a <= 0.95
  /\ (Router.answer_decision a, Router.answer_level a)
     = Router.decide (Router.success_probability a)
  /\ (List.length (Router.contributing_factors a) <= 3)%nat
  /\ (List.length (Router.recommendations a) <= 10)%nat
  /\ (forall f, In f (Router.contributing_factors a) ->
        In (Router.factor_skill f, Router.factor_weight f) (firstn 5 (sorted_desc weights))).
Proof.
  unfold Router.make_decision, bind. intros H.
  destruct (py_get "id" (PyNum 1) candidate_data) as [cid |]; [| discriminate].
  destruct (Router.decide (predict_success exp weights candidate_data)) as [d level] eqn:Ed.
  destruct (py_get "skills" (PyList []) candidate_data) as [skills |]; [| discriminate].
  destruct (py_iter skills) as [elems |]; [| discriminate].
  destruct (Router.count_matches weights elems 0 0) as [[matched total] |] eqn:Ec;
    [| discriminate].
  destruct (Router.contributing (firstn 5 (sorted_desc weights)) elems) as [factors |] eqn:Ef;
    [| discriminate].
  apply Ok_inj in H. subst a.
  unfold Router.matched_skills, Router.total_skills_evaluated, Router.confidence,
    Router.success_probability, Router.answer_decision, Router.answer_level,
    Router.contributing_factors, Router.recommendations.
  pose proof (count_matches_bound _ _ _ _ _ _ Ec) as Hm. simpl in Hm.
  assert (Hle : (matched <= List.length elems)%nat) by lia.
  pose proof (ratio_nonneg matched (List.length elems)) as R0.
  pose proof (ratio_le_1 matched (List.length elems) Hle) as R1.
  assert (Hid : pymin 0.95 (count matched / count (Nat.max (List.length elems) 1) * 0.7 + 0.25)
                == count matched / count (Nat.max (List.length elems) 1) * 0.7 + 0.25).
  { destruct (pymin_cases 0.95 (count matched / count (Nat.max (List.length elems) 1)
                                * 0.7 + 0.25)) as [[H1 ->] | [H1 ->]]; [reflexivity | lra]. }
  pose proof (predict_success_range exp weights candidate_data) as [P1 P2].
  split; [exact Hle |]. split; [exact Hid |].
  split; [rewrite Hid; lra |]. split; [rewrite Hid; lra |].
  split; [exact P1 |]. split; [exact P2 |]. split; [symmetry; exact Ed |].
  split; [rewrite length_firstn; lia |].
  split.
  - pose proof (get_recommendations_length api_recommendations weights). lia.
  - intros f Hf. apply firstn_In_incl in Hf.
    apply (contributing_candidate_data _ _ _ Ef f Hf).
Qed.

Lemma decision_answer_sound_witness :
  exists a,
    Router.make_decision exp_series (Ok (PyList [])) default_weights
                         (candidate ["Python"; "Cobol"]) = Ok a
    /\ (Router.matched_skills a <= Router.total_skills_evaluated a)%nat
    /\ 0.25 <= Router.confidence a /\ Router.confidence a <= 0.95.
Proof.
  eexists. split; [vm_compute; reflexivity |].
  edestruct (decision_answer_sound exp_series (Ok (PyList [])) default_weights
               (candidate ["Python"; "Cobol"])) as (H1 & _ & H2 & H3 & _).
  - vm_compute. reflexivity.
  - split; [exact H1 |]. split; [exact H2 | exact H3].
Defined.

(** A candidate without skills: when the ["skills"] entry is missing or
    holds an empty list, string or dictionary, [make_decision] answers
    [likely_reject] at level [low] with success probability 0.2 and
    confidence 0.25, whatever the table has learned and whatever the
    recommendation service answers. *)
Theorem decision_without_skills (exp : Q -> result Q) (api_recommendations : result pyval)
        (weights : table) (candidate_data skills : pyval) :
  py_get "skills" (PyList []) candidate_data = Ok skills ->
  py_iter skills = Ok [] ->
  exists a,
    Router.make_decision exp api_recommendations weights candidate_data = Ok a
    /\ Router.answer_decision a = Router.likely_reject
    /\ Router.answer_level a = Router.low
    /\ Router.success_probability a = 0.2
    /\ Router.confidence a == 0.25
    /\ Router.matched_skills a = 0%nat
    /\ Router.contributing_factors a = [].
Proof.
  intros Hs Hi.
  assert (Hp : predict_success exp weights candidate_data = 0.2).
  { unfold predict_success, predict_body. rewrite Hs. unfold bind.
    destruct skills as [| q | s | l | d]; simpl in Hi; try discriminate.
    - destruct s; [reflexivity | discriminate].
    - apply Ok_inj in Hi. subst l. reflexivity.
    - apply Ok_inj in Hi. destruct d; [reflexivity | discriminate]. }
  destruct candidate_data as [| q | s | l | d]; try discriminate.
  unfold py_get in Hs. apply Ok_inj in Hs.
  unfold Router.make_decision. rewrite Hp. unfold py_get, bind. rewrite Hs, Hi.
  change (Router.decide 0.2) with (Router.likely_reject, Router.low). cbv iota.
  simpl Router.count_matches. simpl Router.contributing. cbv iota beta.
  eexists. split; [reflexivity |].
  unfold Router.answer_decision, Router.answer_level, Router.success_probability,
    Router.confidence, Router.matched_skills, Router.contributing_factors.
  repeat split.
Qed.

Lemma decision_without_skills_witness :
  exists a,
    Router.make_decision exp_series (Raise OSError) default_weights
                         (PyDict [("name", PyStr "Test")]) = Ok a
    /\ Router.answer_decision a = Router.likely_reject
    /\ Router.success_probability a = 0.2.
Proof.
  destruct (decision_without_skills exp_series (Raise OSError) default_weights
              (PyDict [("name", PyStr "Test")]) (PyList []) eq_refl eq_refl)
    as [a (Ha & Hd & _ & Hp & _)].
  exists a. split; [exact Ha |]. split; [exact Hd | exact Hp].
Defined.

Lemma Qle_bool_false (a b : Q) : Qle_bool a b = false -> b < a.
Proof.
  intros H. apply Qnot_le_lt. intros Hle. apply Qle_bool_iff in Hle. congruence.
Qed.

(** The threshold chain, read as intervals. *)
Lemma decide_cases (p : Q) :
  (0.85 <= p /\ Router.decide p = (Router.strong_recommend_hire, Router.high))
  \/ (0.7 <= p /\ p < 0.85 /\ Router.decide p = (Router.recommend_hire, Router.high))
  \/ (0.5 <= p /\ p < 0.7 /\ Router.decide p = (Router.consider_interview, Router.medium))
  \/ (0.3 <= p /\ p < 0.5 /\ Router.decide p = (Router.review_carefully, Router.medium))
  \/ (p < 0.3 /\ Router.decide p = (Router.likely_reject, Router.low)).
Proof.
  unfold Router.decide.
  destruct (Qle_bool 0.85 p) eqn:E1;
    [apply Qle_bool_iff in E1; left; auto | apply Qle_bool_false in E1; right].
  destruct (Qle_bool 0.7 p) eqn:E2;
    [apply Qle_bool_iff in E2; left; auto | apply Qle_bool_false in E2; right].
  destruct (Qle_bool 0.5 p) eqn:E3;
    [apply Qle_bool_iff in E3; left; auto | apply Qle_bool_false in E3; right].
  destruct (Qle_bool 0.3 p) eqn:E4;
    [apply Qle_bool_iff in E4; left; auto | apply Qle_bool_false in E4; right; auto].
Qed.

(** The threshold chain of [make_decision] is monotone: a higher success
    probability never gets a weaker decision. *)
Theorem decision_monotone (p q : Q) :
  p <= q ->
  (decision_rank (fst (Router.decide p)) <= decision_rank (fst (Router.decide q)))%nat.
Proof.
  intros Hpq.
  destruct (decide_cases p) as [[P ->] | [(P & P' & ->) | [(P & P' & ->) | [(P & P' & ->) | [P ->]]]]];
    destruct (decide_cases q) as [[H ->] | [(H & H' & ->) | [(H & H' & ->) | [(H & H' & ->) | [H ->]]]]];
    simpl; try lia; exfalso; lra.
Qed.

Lemma decision_monotone_witness :
  (decision_rank (fst (Router.decide 0.4)) <= decision_rank (fst (Router.decide 0.9)))%nat.
Proof.
  apply (decision_monotone 0.4 0.9). unfold Qle. simpl. lia.
Defined.

(** ** [get_rl_state] *)

Lemma round_half_even_mono (x y : Q) : x <= y -> (round_half_even x <= round_half_even y)%Z.
Proof.
  intros Hxy.
  pose proof (Qfloor_resp_le x y Hxy) as Hf.
  pose proof (Qfloor_le x) as Hx1. pose proof (Qlt_floor x) as Hx2.
  pose proof (Qfloor_le y) as Hy1. pose proof (Qlt_floor y) as Hy2.
  destruct (Z.eq_dec (Qfloor x) (Qfloor y)) as [E | N].
  - unfold round_half_even. rewrite <- E.
    destruct (Qcompare_spec (x - inject_Z (Qfloor x)) (1 # 2)) as [H | H | H];
      destruct (Qcompare_spec (y - inject_Z (Qfloor x)) (1 # 2)) as [H' | H' | H'];
      try destruct (Z.even (Qfloor x)); try lia; exfalso; lra.
  - assert (Hlt : (Qfloor x + 1 <= Qfloor y)%Z) by lia.
    destruct (round_half_even_cases x) as [-> | [-> _]];
      destruct (round_half_even_cases y) as [-> | [-> _]]; lia.
Qed.

Lemma round3_mono (x y : Q) : x <= y -> round3 x <= round3 y.
Proof.
  intros H. unfold round3.
  assert (H1 : (round_half_even (x * 1000) <= round_half_even (y * 1000))%Z)
    by (apply round_half_even_mono; lra).
  rewrite Zle_Qle in H1.
  apply Qle_shift_div_l; [reflexivity |].
  unfold Qdiv. rewrite <- Qmult_assoc.
  setoid_replace (/ 1000 * 1000) with 1 by reflexivity.
  rewrite Qmult_1_r. exact H1.
Qed.

Lemma list_max_ge (rest : list Q) :
  forall x, x <= Router.list_max x rest
            /\ forall y, In y rest -> y <= Router.list_max x rest.
Proof.
  unfold Router.list_max. induction rest as [| z rest IH]; intros x; simpl.
  - split; [apply Qle_refl | intros y []].
  - destruct (IH (pymax x z)) as [H1 H2].
    destruct (pymax_cases x z) as [[Hlt Hm] | [Hle Hm]]; rewrite Hm in *.
    + split; [lra |]. intros y [<- | Hy]; [exact H1 | apply H2, Hy].
    + split; [exact H1 |]. intros y [<- | Hy]; [lra | apply H2, Hy].
Qed.

Lemma list_min_le (rest : list Q) :
  forall x, Router.list_min x rest <= x
            /\ forall y, In y rest -> Router.list_min x rest <= y.
Proof.
  unfold Router.list_min. induction rest as [| z rest IH]; intros x; simpl.
  - split; [apply Qle_refl | intros y []].
  - destruct (IH (pymin x z)) as [H1 H2].
    destruct (pymin_cases x z) as [[Hlt Hm] | [Hle Hm]]; rewrite Hm in *.
    + split; [lra |]. intros y [<- | Hy]; [exact H1 | apply H2, Hy].
    + split; [exact H1 |]. intros y [<- | Hy]; [lra | apply H2, Hy].
Qed.

Lemma count_S (n : nat) : count (S n) == count n + 1.
Proof.
  unfold count. rewrite Nat2Z.inj_succ. unfold Z.succ. rewrite inject_Z_plus. reflexivity.
Qed.

Lemma sum_between (lo hi : Q) (l : list Q) :
  (forall y, In y l -> lo <= y /\ y <= hi) ->
  forall a, a + lo * count (List.length l) <= fold_left Qplus l a
            /\ fold_left Qplus l a <= a + hi * count (List.length l).
Proof.
  induction l as [| z l IH]; intros Hb a; simpl.
  - change (count 0) with 0. split; lra.
  - destruct (Hb z (or_introl eq_refl)) as [Hz1 Hz2].
    destruct (IH (fun y Hy => Hb y (or_intror Hy)) (a + z)) as [H1 H2].
    pose proof (count_S (List.length l)) as Hc. simpl List.length in Hc.
    rewrite Hc. split; lra.
Qed.

Lemma average_between (v : Q) (vs : list Q) :
  Router.list_min v vs <= Dict.sum (v :: vs) / count (List.length (v :: vs))
  /\ Dict.sum (v :: vs) / count (List.length (v :: vs)) <= Router.list_max v vs.
Proof.
  assert (Hb : forall y, In y (v :: vs) ->
                 Router.list_min v vs <= y /\ y <= Router.list_max v vs).
  { destruct (list_min_le vs v) as [A1 A2]. destruct (list_max_ge vs v) as [B1 B2].
    intros y [<- | Hy]; split; auto. }
  destruct (sum_between _ _ _ Hb 0) as [H1 H2].
  assert (Hpos : 0 < count (List.length (v :: vs))) by (apply count_pos; simpl; lia).
  unfold Dict.sum. split.
  - apply Qle_shift_div_l; [exact Hpos | lra].
  - apply Qle_shift_div_r; [exact Hpos | lra].
Qed.

Lemma filter_split_length {A : Type} (f g : A -> bool) (l : list A) :
  (forall x, g x = negb (f x)) ->
  (List.length (filter f l) + List.length (filter g l) = List.length l)%nat.
Proof.
  intros H. induction l as [| x l IH]; simpl; [reflexivity |].
  rewrite (H x). destruct (f x); simpl; lia.
Qed.

Lemma Qle_bool_Qgtb (a b : Q) : Qle_bool a b = negb (Qgtb a b).
Proof.
  destruct (Qgtb a b) eqn:E; simpl.
  - apply Qgtb_true in E. destruct (Qle_bool a b) eqn:E'; [| reflexivity].
    apply Qle_bool_iff in E'. lra.
  - apply Qgtb_false in E. apply Qle_bool_iff. exact E.
Qed.

(** What [get_rl_state] reports is consistent: the weights are those
    [_load_weights] reads from the file; the count is their number and
    splits into active (above 1.0) and passive keywords; the rounded minimum,
    average and maximum are in this order; [active_weights] holds exactly the
    entries above 1.0; [top_skills] holds the [min(10, count)] heaviest
    entries, heaviest first; [bottom_skills] holds five entries of the table
    when it has more than five, and none otherwise. *)
Theorem rl_state_consistent (e : env) :
  let s := Router.get_rl_state e in
  let st := Router.statistics s in
  Router.state_weights s = _load_weights e
  /\ Router.total_count st = List.length (Router.state_weights s)
  /\ (Router.active_skills_count st + Router.passive_skills_count st = Router.total_count st)%nat
  /\ Router.active_skills_count st = List.length (Router.active_weights s)
  /\ Router.stat_min_weight st <= Router.average_weight st
  /\ Router.average_weight st <= Router.stat_max_weight st
  /\ (forall k w, In (k, w) (Router.active_weights s)
                  <-> In (k, w) (Router.state_weights s) /\ 1.0 < w)
  /\ List.length (Router.state_top_skills s) = Nat.min 10 (Router.total_count st)
  /\ descending (Router.state_top_skills s)
  /\ (forall x y, In x (Router.state_top_skills s) -> In y (Router.state_weights s) ->
                  ~ In y (Router.state_top_skills s) -> snd y <= snd x)
  /\ List.length (Router.bottom_skills s)
     = (if (5 <? Router.total_count st)%nat then 5%nat else 0%nat)
  /\ (forall x, In x (Router.bottom_skills s) -> In x (Router.state_weights s)).
Proof.
  cbv zeta. unfold Router.get_rl_state.
  destruct (_load_weights e) as [| [k0 w0] t] eqn:E.
  - simpl. repeat split; try reflexivity; try lra; try tauto; try constructor.
  - set (cw := (k0, w0) :: t).
    change (Dict.values cw) with (w0 :: Dict.values t). cbv iota.
    unfold Router.state_weights, Router.statistics, Router.total_count,
      Router.active_skills_count, Router.passive_skills_count, Router.active_weights,
      Router.stat_min_weight, Router.stat_max_weight, Router.average_weight,
      Router.state_top_skills, Router.bottom_skills.
    destruct (average_between w0 (Dict.values t)) as [A1 A2].
    destruct (top_entries 10 cw) as (T1 & T2 & T3 & T4). 
    split; [reflexivity |]. split; [reflexivity |].
    split; [apply filter_split_length; intros x; apply Qle_bool_Qgtb |].
    split; [reflexivity |].
    split; [apply round3_mono, A1 |]. split; [apply round3_mono, A2 |].
    split.
    { intros k w. rewrite filter_In. simpl snd. rewrite Qgtb_true. reflexivity. }
    split; [exact T1 |]. split; [exact T2 |]. split; [exact T4 |].
    rewrite sorted_desc_length. split.
    + destruct (5 <? List.length cw)%nat eqn:E5; [| reflexivity].
      apply Nat.ltb_lt in E5. rewrite length_skipn, sorted_desc_length. lia.
    + intros x Hx. destruct (5 <? List.length cw)%nat; [| destruct Hx].
      apply sorted_desc_In. rewrite <- (firstn_skipn (List.length cw - 5) (sorted_desc cw)).
      apply in_or_app. right. exact Hx.
Qed.

Lemma init_restartable (e e0 : env) (weights : table) :
  can_mkdir e = true -> can_write e = true ->
  __init__ e = (e0, Ok weights) ->
  can_mkdir e0 = true /\ can_write e0 = true
  /\ (e0 = healthy (Stored weights)
      \/ ((weights_file e0 = Absent \/ weights_file e0 = Unreadable)
          /\ weights = fallback_weights)).
Proof.
  intros Hm Hw. apply can_write_true in Hw.
  destruct e as [f m w]. simpl in Hm, Hw. subst m w.
  unfold __init__, _load_weights, _save_weights. simpl.
  destruct f as [| | t]; simpl.
  - intros H. inversion H. subst. simpl.
    split; [reflexivity |]. split; [reflexivity |]. right. auto.
  - intros H. inversion H. subst. simpl.
    split; [reflexivity |]. split; [reflexivity |]. right. auto.
  - destruct t as [| kw t]; simpl; intros H; inversion H; subst; simpl;
      (split; [reflexivity |]; split; [reflexivity |]; left; reflexivity).
Qed.

(** What the file system is after a call, by the way writes end. *)
Lemma policy_update_file (candidate_data : pyval) (reward : Q) (weights : table) (e : env) :
  let '(weights', e', _) := policy_update candidate_data reward weights e in
  can_mkdir e' = can_mkdir e /\ on_write e' = on_write e
  /\ (on_write e = OpenFails -> e' = e)
  /\ (on_write e = DumpFails ->
      weights_file e' = weights_file e \/ weights_file e' = Unreadable)
  /\ (can_mkdir e = true -> on_write e = DumpFails ->
      (weights' = weights /\ e' = e) \/ weights_file e' = Unreadable).
Proof.
  unfold policy_update.
  destruct (lowered_skills candidate_data) as [normalized_skills | x]; [| simpl; auto 10].
  pose proof (policy_step_unchanged normalized_skills reward weights) as Hun.
  destruct (policy_step normalized_skills reward weights) as [[w' u] l]. simpl in Hun.
  destruct u; [| rewrite (Hun eq_refl); simpl; auto 10].
  unfold _save_weights.
  destruct (can_mkdir e) eqn:Hm; [destruct (on_write e) eqn:Hw |]; simpl;
    (split; [auto |]); (split; [auto |]); (split; [try discriminate; auto |]);
    (split; [try discriminate; auto | try discriminate; auto]).
Qed.

Lemma replay_file (exp : Q -> result Q) (events : list feedback) :
  forall (weights : table) (e : env),
    let '(weights', e') := replay exp events weights e in
    (on_write e = OpenFails -> e' = e)
    /\ (on_write e = DumpFails ->
        weights_file e' = weights_file e \/ weights_file e' = Unreadable)
    /\ (can_mkdir e = true -> on_write e = DumpFails ->
        (weights' = weights /\ e' = e) \/ weights_file e' = Unreadable).
Proof.
  induction events as [| [[c fs] o] rest IH]; intros weights e; simpl; [auto 10 |].
  pose proof (reward_log_state exp c fs o weights e) as Hs.
  pose proof (policy_update_file c (_calculate_reward fs o) weights e) as Hf.
  destruct (reward_log exp c fs o weights e) as [[w1 e1] r1]. simpl in Hs.
  destruct (policy_update c (_calculate_reward fs o) weights e) as [[w1' e1'] r1'].
  simpl in Hs. injection Hs as <- <-.
  destruct Hf as (Hm1 & Hw1 & Hopen & Hdump & Hlost).
  specialize (IH w1 e1). destruct (replay exp rest w1 e1) as [w' e'].
  destruct IH as (IHopen & IHdump & IHlost).
  rewrite Hm1, Hw1 in *. split; [| split].
  - intros Hw. rewrite (IHopen Hw). apply Hopen, Hw.
  - intros Hw. destruct (IHdump Hw) as [H | H]; [| right; exact H].
    rewrite H. apply Hdump, Hw.
  - intros Hm Hw. destruct (Hlost Hm Hw) as [[-> ->] | H1].
    + apply IHlost; assumption.
    + right. destruct (IHdump Hw) as [H | H]; [rewrite H; exact H1 | exact H].
Qed.

(** What [__init__] leaves of the file system when it returns. *)
Lemma init_file (e e0 : env) (weights : table) :
  __init__ e = (e0, Ok weights) ->
  can_mkdir e0 = can_mkdir e /\ on_write e0 = on_write e
  /\ (on_write e = OpenFails -> e0 = e)
  /\ (on_write e = DumpFails -> e0 = e \/ weights_file e0 = Unreadable).
Proof.
  unfold __init__, _save_weights. destruct (is_empty (_load_weights e)).
  - destruct (can_mkdir e) eqn:Hm; [destruct (on_write e) eqn:Hw |];
      intros H; inversion H; subst; simpl; repeat split; auto; discriminate.
  - intros H. inversion H. subst. auto.
Qed.

(** [get_rl_state] shows the file, not the memory.  For a scorer that was
    constructed and then served any sequence of feedback calls: on a disk
    that can be written, the weights it reports are the table the scorer
    holds in memory; when the file cannot be opened for writing, they are
    what they were before the scorer was constructed, whatever was learned
    since; when writes fail once the file is open, they are what they were
    or the four keywords of [_load_weights], and they are these four
    keywords as soon as the table in memory has changed. *)
Theorem dashboard_follows_file (exp : Q -> result Q) (e e0 : env) (weights : table)
        (events : list feedback) :
  __init__ e = (e0, Ok weights) ->
  let '(weights', e') := replay exp events weights e0 in
  (can_mkdir e = true -> can_write e = true ->
   Router.state_weights (Router.get_rl_state e') = weights')
  /\ (on_write e = OpenFails ->
      Router.state_weights (Router.get_rl_state e')
      = Router.state_weights (Router.get_rl_state e))
  /\ (on_write e = DumpFails ->
      Router.state_weights (Router.get_rl_state e')
      = Router.state_weights (Router.get_rl_state e)
      \/ Router.state_weights (Router.get_rl_state e') = fallback_weights)
  /\ (can_mkdir e = true -> on_write e = DumpFails -> weights' <> weights ->
      Router.state_weights (Router.get_rl_state e') = fallback_weights).
Proof.
  intros Hinit.
  assert (Hsw : forall x, Router.state_weights (Router.get_rl_state x) = _load_weights x).
  { intros x. unfold Router.get_rl_state.
    destruct (Dict.values (_load_weights x)); reflexivity. }
  destruct (init_file e e0 weights Hinit) as (Hm0 & Hw0 & Iopen & Idump).
  pose proof (replay_file exp events weights e0) as Hro.
  pose proof (restartable_step exp events weights e0) as Hr.
  destruct (replay exp events weights e0) as [w' e'].
  destruct Hro as (Hopen & Hdump & Hlost).
  rewrite !Hsw. split; [| split; [| split]].
  - intros Hm Hw.
    destruct (init_restartable e e0 weights Hm Hw Hinit) as (Hm1 & Hw1 & Hinv).
    destruct (Hr Hm1 Hw1 Hinv) as (_ & _ & [-> | [[Hf | Hf] ->]]).
    + reflexivity.
    + unfold _load_weights. rewrite Hf. reflexivity.
    + unfold _load_weights. rewrite Hf. reflexivity.
  - intros Hw. rewrite (Hopen (eq_trans Hw0 Hw)), (Iopen Hw). reflexivity.
  - intros Hw. unfold _load_weights.
    destruct (Hdump (eq_trans Hw0 Hw)) as [H | H]; [| right; rewrite H; reflexivity].
    rewrite H. destruct (Idump Hw) as [-> | H0]; [left; reflexivity |].
    right. rewrite H0. reflexivity.
  - intros Hm Hw Hne.
    destruct (Hlost (eq_trans Hm0 Hm) (eq_trans Hw0 Hw)) as [[Heq _] | H];
      [contradiction |].
    unfold _load_weights. rewrite H. reflexivity.
Qed.

Lemma dashboard_follows_file_witness :
  (let '(weights', e') :=
     replay exp_series [(candidate ["Python"; "Kubernetes Helm Charts"], 5, "hired")]
            fallback_weights (healthy Absent) in
   Router.state_weights (Router.get_rl_state e') = weights')
  /\ (let '(weights', e') :=
        replay exp_series [(candidate ["Python"], 5, "hired")]
               [("python", 1.2)] (mkEnv (Stored [("python", 1.2)]) true DumpFails) in
      Router.state_weights (Router.get_rl_state e') = fallback_weights).
Proof.
  split.
  - pose proof (dashboard_follows_file exp_series (healthy Absent) (healthy Absent)
                  fallback_weights
                  [(candidate ["Python"; "Kubernetes Helm Charts"], 5, "hired")] eq_refl) as H.
    destruct (replay exp_series _ fallback_weights (healthy Absent)) as [w' e'].
    destruct H as [H _]. apply H; reflexivity.
  - pose proof (dashboard_follows_file exp_series
                  (mkEnv (Stored [("python", 1.2)]) true DumpFails)
                  (mkEnv (Stored [("python", 1.2)]) true DumpFails)
                  [("python", 1.2)] [(candidate ["Python"], 5, "hired")] eq_refl) as H.
    destruct (replay exp_series [(candidate ["Python"], 5, "hired")] [("python", 1.2)]
                     (mkEnv (Stored [("python", 1.2)]) true DumpFails)) as [w' e'] eqn:E.
    destruct H as (_ & _ & _ & H). apply H; [reflexivity | reflexivity |].
    vm_compute in E. injection E as <- _. discriminate.
Defined.

(** ** [get_rl_performance] *)

Lemma successful_flags (history : list pyval) :
  (forall h, In h history -> exists d, h = PyDict d) ->
  exists flags, mapM Router.successful history = Ok flags.
Proof.
  induction history as [| h rest IH]; intros Hd; simpl.
  - eexists. reflexivity.
  - destruct (Hd h (or_introl eq_refl)) as [d ->].
    destruct (IH (fun h' Hh' => Hd h' (or_intror Hh'))) as [flags ->].
    eexists. reflexivity.
Qed.

Lemma successful_raises (history : list pyval) (h : pyval) :
  In h history -> (forall d, h <> PyDict d) ->
  mapM Router.successful history = Raise AttributeError.
Proof.
  induction history as [| h0 rest IH]; intros Hin Hnd; [destruct Hin |]. simpl.
  destruct Hin as [-> | Hin].
  - destruct h; try reflexivity. destruct (Hnd d eq_refl).
  - destruct h0; try reflexivity. unfold Router.successful at 1. simpl.
    rewrite (IH Hin Hnd). reflexivity.
Qed.

Lemma filter_length_bound {A : Type} (f : A -> bool) (l : list A) :
  (List.length (filter f l) <= List.length l)%nat.
Proof.
  induction l as [| x l IH]; simpl; [lia |]. destruct (f x); simpl; lia.
Qed.

(** [get_rl_performance] answers when every line of the log is a JSON
    object: the successes are at most the decisions, the success rate lies in
    [[0, 100]], the performance score lies between the success rate and 100,
    and it is 100 as soon as the table holds fifty keywords, whatever the
    log says.  A line that parses to something else than an object makes the
    endpoint fail. *)
Theorem performance_answer (history : list pyval) (weights : table) :
  ((forall h, In h history -> exists d, h = PyDict d) ->
   exists p,
     Router.get_rl_performance history weights = Ok p
     /\ Router.total_decisions p = List.length history
     /\ (Router.successful_predictions p <= Router.total_decisions p)%nat
     /\ 0 <= Router.success_rate p /\ Router.success_rate p <= 100
     /\ Router.success_rate p <= Router.performance_score p
     /\ Router.performance_score p <= 100
     /\ ((50 <= List.length weights)%nat -> Router.performance_score p == 100))
  /\ (forall h, In h history -> (forall d, h <> PyDict d) ->
        Router.get_rl_performance history weights = Raise AttributeError).
Proof.
  split.
  - intros Hd. unfold Router.get_rl_performance.
    destruct (successful_flags history Hd) as [flags Hf]. rewrite Hf. unfold bind.
    eexists. split; [reflexivity |].
    unfold Router.total_decisions, Router.successful_predictions, Router.success_rate,
      Router.performance_score.
    pose proof (mapM_length _ _ _ Hf) as Hlen.
    pose proof (filter_length_bound (fun b : bool => b) flags) as Hle. rewrite Hlen in Hle.
    set (hits := List.length (filter (fun b : bool => b) flags)) in *.
    set (total := List.length history) in *.
    pose proof (count_nonneg (List.length weights)) as Hw.
    assert (Hr : 0 <= (if (0 <? total)%nat then count hits / count total * 100 else 0)
                 /\ (if (0 <? total)%nat then count hits / count total * 100 else 0) <= 100).
    { destruct (0 <? total)%nat eqn:E; [| split; lra].
      apply Nat.ltb_lt in E.
      assert (H0 : 0 <= count hits / count total).
      { apply Qle_shift_div_l; [apply count_pos, E |]. rewrite Qmult_0_l. apply count_nonneg. }
      assert (H1 : count hits / count total <= 1).
      { apply Qle_shift_div_r; [apply count_pos, E |]. rewrite Qmult_1_l.
        apply count_le, Hle. }
      split; lra. }
    destruct Hr as [R0 R1].
    split; [reflexivity |]. split; [exact Hle |]. split; [exact R0 |]. split; [exact R1 |].
    destruct (pymin_cases 100 ((if (0 <? total)%nat then count hits / count total * 100 else 0)
                               + count (List.length weights) * 2)) as [[H1 ->] | [H1 ->]].
    + split; [lra |]. split; [lra |]. intros H50.
      pose proof (count_le 50 _ H50) as Hc. change (count 50) with 50 in Hc. lra.
    + split; [lra |]. split; [lra |]. intros _. reflexivity.
  - intros h Hin Hnd. unfold Router.get_rl_performance.
    rewrite (successful_raises history h Hin Hnd). reflexivity.
Qed.

Lemma performance_answer_witness :
  exists p,
    Router.get_rl_performance [PyDict [("outcome", PyStr "hired")]; PyDict []] default_weights
    = Ok p
    /\ Router.success_rate p <= Router.performance_score p.
Proof.
  destruct (performance_answer [PyDict [("outcome", PyStr "hired")]; PyDict []] default_weights)
    as [H _].
  destruct H as [p (Hp & _ & _ & _ & _ & Hs & _)].
  - intros h [<- | [<- | []]]; eexists; reflexivity.
  - exists p. split; [exact Hp | exact Hs].
Defined.
